(** * salesforcedx-vscode: org picker, source diff, config lookup, function names

    A shallow embedding of the TypeScript sources

    - [orgPicker/orgList.ts]            (class [OrgList]),
    - the source-diff command           ([ForceSourceDiffExecutor],
      [handleDiffResponse], [handleCacheResults], [diffOneFile]),
    - the configuration helper          (class [ConfigUtil]),
    - the function-creation command     ([nameVerification]),

    together with the properties the specification states about them.

    Conventions of the embedding.

    - A JavaScript string is a Rocq [string] holding its UTF-8 text.  Searching,
      splitting and concatenating agree on both representations; the
      [.length] of a string counts UTF-16 code units and is [js_length].
    - [T | undefined] is [option T]; truthiness of such a value is [truthy].
    - An [async] function is a computation in [Async]: it returns or throws and
      leaves a trace of the calls it made into the editor and the services
      around it.  Calls into the outside world that only return a value are
      fields of an environment record; a call the source guards with
      [try]/[catch] or [.catch] has an [Outcome] there.
    - An [await] the source does not guard is followed on the path where the
      call resolves.  For the org picker the other path is followed as well:
      [OrgListAwaits] has the same methods with every awaited call able to
      reject.
    - A chunk of process output is a [Buffer] of bytes; its [toString] is a
      parameter, applied to every chunk on its own as the source does. *)

From Stdlib Require Import ZArith Ascii String List Bool Lia.
From stdpp Require Import base option list strings gmap.

Open Scope Z_scope.

(** ** JavaScript values and strings *)

Module Js.

(** Truthiness of [string | undefined]: the empty string and [undefined]
    are falsy. *)
Definition truthy (v : option string) : bool :=
  match v with
  | Some (String _ _) => true
  | _ => false
  end.

(** [a || b] on [string | undefined]. *)
Definition or_else (a b : option string) : option string :=
  if truthy a then a else b.

(** A template literal hole [${v}] for [string | undefined]. *)
Definition interpolate (v : option string) : string :=
  match v with
  | Some s => s
  | None => "undefined"
  end.

(** [s.startsWith(p)]. *)
Fixpoint startsWith (p s : string) : bool :=
  match p, s with
  | EmptyString, _ => true
  | String a p', String b s' => if ascii_dec a b then startsWith p' s' else false
  | String _ _, EmptyString => false
  end.

(** [s.endsWith(p)]: some suffix of [s] is [p]. *)
Fixpoint endsWith (s p : string) : bool :=
  if String.eqb s p then true
  else match s with
       | EmptyString => false
       | String _ s' => endsWith s' p
       end.

(** [s.split(sep)] for a non-empty separator.  [skip] counts the
    characters of a separator that was just recognised and is being
    stepped over; [piece] is the piece collected so far. *)
Fixpoint split_from (sep : string) (skip : nat) (piece : string) (s : string)
  : list string :=
  match s with
  | EmptyString => [piece]
  | String c s' =>
      match skip with
      | S k => split_from sep k piece s'
      | O =>
          if startsWith sep s
          then piece :: split_from sep (Nat.pred (String.length sep)) "" s'
          else split_from sep O (piece +:+ String c "") s'
      end
  end.

Definition split (sep s : string) : list string := split_from sep O "" s.

(** [s.split(sep, limit)]: the first [limit] pieces. *)
Definition split_limit (sep : string) (limit : nat) (s : string) : list string :=
  take limit (split sep s).

(** [arr.join(sep)], which is also how an array is rendered in a template
    literal (with [","]). *)
Fixpoint join (sep : string) (l : list string) : string :=
  match l with
  | [] => ""
  | [x] => x
  | x :: rest => x +:+ sep +:+ join sep rest
  end.

Definition array_toString (l : list string) : string := join "," l.

(** [s.length]: UTF-16 code units of the text whose UTF-8 bytes are [s].
    A byte below 0x80 or a leading byte of a two- or three-byte sequence
    stands for one unit, a continuation byte for none, and the leading
    byte of a four-byte sequence for a surrogate pair. *)
Definition units_of_byte (c : ascii) : nat :=
  let n := nat_of_ascii c in
  if (n <? 128)%nat then 1%nat
  else if (n <? 192)%nat then 0%nat
  else if (n <? 240)%nat then 1%nat
  else 2%nat.

Fixpoint js_length (s : string) : nat :=
  match s with
  | EmptyString => 0%nat
  | String c s' => (units_of_byte c + js_length s')%nat
  end.

(** [String.fromCodePoint(cp)]: the UTF-8 bytes of one code point. *)
Definition byte (n : N) : ascii := ascii_of_N n.

Definition fromCodePoint (cp : N) : string :=
  (if cp <? 128 then String (byte cp) ""
   else if cp <? 2048 then
     String (byte (192 + cp / 64)) (String (byte (128 + cp mod 64)) "")
   else if cp <? 65536 then
     String (byte (224 + cp / 4096))
       (String (byte (128 + (cp / 64) mod 64))
         (String (byte (128 + cp mod 64)) ""))
   else
     String (byte (240 + cp / 262144))
       (String (byte (128 + (cp / 4096) mod 64))
         (String (byte (128 + (cp / 64) mod 64))
           (String (byte (128 + cp mod 64)) ""))))%N.

(** Character classes of the regular expressions in the source. *)
Definition is_lower (c : ascii) : bool :=
  let n := nat_of_ascii c in ((97 <=? n) && (n <=? 122))%nat.

Definition is_digit (c : ascii) : bool :=
  let n := nat_of_ascii c in ((48 <=? n) && (n <=? 57))%nat.

Fixpoint forall_chars (p : ascii -> bool) (s : string) : bool :=
  match s with
  | EmptyString => true
  | String c s' => p c && forall_chars p s'
  end.

End Js.

(** ** Errors, outcomes and traces *)

(** A JavaScript [Error] as far as the sources look at it. *)
Record Error := mkError { name : string; message : string }.

(** [new Error(msg)]. *)
Definition new_Error (msg : string) : Error := mkError "Error" msg.

(** What an expression or a call does: it returns a value or throws. *)
Inductive Outcome (A : Type) : Type :=
| Returned (a : A)
| Thrown (e : Error).
Arguments Returned {A} a.
Arguments Thrown {A} e.

(** A [vscode.Uri] made by [vscode.Uri.file]. *)
Inductive Uri := Uri_file (path : string).

(** Arguments handed to [vscode.commands.executeCommand]. *)
Inductive Arg :=
| AString (s : string)
| AStrings (l : list string)
| AUri (u : Uri).

(** [String(err)] for an [Error], as a template literal renders it. *)
Definition Error_toString (e : Error) : string :=
  match name e, message e with
  | EmptyString, msg => msg
  | nm, EmptyString => nm
  | nm, msg => nm +:+ ": " +:+ msg
  end.

(** An asynchronous computation, run to completion: its outcome and the
    trace of events of type [E] it leaves. *)
Module Async.
Section WithEvents.
Context {E : Type}.

Definition t (A : Type) : Type := (Outcome A * list E)%type.

Definition ret {A} (a : A) : t A := (Returned a, []).

Definition throw {A} (e : Error) : t A := (Thrown e, []).

Definition emit (ev : E) : t unit := (Returned tt, [ev]).

(** [await]ing a call whose outcome is known. *)
Definition lift {A} (o : Outcome A) : t A := (o, []).

Definition bind {A B} (m : t A) (k : A -> t B) : t B :=
  match m with
  | (Returned a, tr) => let '(o, tr') := k a in (o, tr ++ tr')
  | (Thrown e, tr) => (Thrown e, tr)
  end.

(** [try { m } catch (e) { handler e }]. *)
Definition try_catch {A} (m : t A) (handler : Error -> t A) : t A :=
  match m with
  | (Returned a, tr) => (Returned a, tr)
  | (Thrown e, tr) => let '(o, tr') := handler e in (o, tr ++ tr')
  end.

Definition outcome {A} (m : t A) : Outcome A := fst m.
Definition trace {A} (m : t A) : list E := snd m.
End WithEvents.
Arguments t : clear implicits.
End Async.

Declare Scope async_scope.
Delimit Scope async_scope with async.
Notation "'let*' x ':=' m 'in' k" := (Async.bind m (fun x => k))
  (at level 10, x name, m at level 100, k at level 200) : async_scope.
Notation "m ;; k" := (Async.bind m (fun _ => k))
  (at level 100, k at level 200, right associativity) : async_scope.

Open Scope async_scope.

(** ** The source-diff command *)

Module SourceDiff.

(** *** The command builder *)

(** Modelled from the spec: [SfdxCommandBuilder] and [Command] belong to the
    package salesforcedx-utils-vscode, whose sources are not part of the
    files at hand.  The specification only says that the external
    command-line tool is invoked as a subprocess; the builder is modelled
    as the object [build] drives: a command name, an optional description
    and log name, and the argument vector every [with...] call pushes onto. *)
Record Command := mkCommand {
  command : string;
  description : option string;
  args : list string;
  logName : option string
}.

(** Modelled from the spec: the constant [JSON_FLAG] of the same package. *)
Definition JSON_FLAG : string := "--json".

(** Modelled from the spec: [new SfdxCommandBuilder()], a builder for the
    external command-line tool [sfdx] with nothing set yet. *)
Definition new_SfdxCommandBuilder : Command := mkCommand "sfdx" None [] None.

(** Modelled from the spec: [withDescription] sets the description. *)
Definition withDescription (d : string) (b : Command) : Command :=
  mkCommand (command b) (Some d) (args b) (logName b).

(** Modelled from the spec: [withJson] asks for JSON output, and for fatal
    log messages only. *)
Definition withJson (b : Command) : Command :=
  mkCommand (command b) (description b)
            (args b ++ [JSON_FLAG; "--loglevel"; "fatal"]) (logName b).

(** Modelled from the spec: [withArg] pushes one argument; the JSON flag
    goes through [withJson]. *)
Definition withArg (a : string) (b : Command) : Command :=
  if String.eqb a JSON_FLAG then withJson b
  else mkCommand (command b) (description b) (args b ++ [a]) (logName b).

(** Modelled from the spec: [withFlag] pushes a flag and its value. *)
Definition withFlag (flag value : string) (b : Command) : Command :=
  mkCommand (command b) (description b) (args b ++ [flag; value]) (logName b).

(** Modelled from the spec: [withLogName] sets the log name. *)
Definition withLogName (l : string) (b : Command) : Command :=
  mkCommand (command b) (description b) (args b) (Some l).

(** The value that follows the first occurrence of [flag] in an argument
    vector. *)
Fixpoint flag_value (flag : string) (argv : list string) : option string :=
  match argv with
  | a :: ((v :: _) as rest) => if String.eqb a flag then Some v else flag_value flag rest
  | _ => None
  end.

(** *** Data handed over by the CLI and by the metadata cache *)

Record DiffResult := mkDiffResult {
  remote : string;
  local : string;
  fileName : string
}.

Record DiffSuccessResponse := mkDiffSuccess {
  status : Z;
  result : DiffResult
}.

Record DiffErrorResponse := mkDiffError {
  error_message : string
}.

(** A constructed [DiffResultParser]: what its two getters answer. *)
Record DiffResultParser := mkDiffResultParser {
  getSuccessResponse : option DiffSuccessResponse;
  getErrorResponse : option DiffErrorResponse
}.

(** A [SourceComponent] as far as [diffOneFile] looks at it. *)
Record SourceComponent := mkSourceComponent {
  walkContent : list string
}.

Record MetadataContext := mkMetadataContext {
  baseDirectory : string;
  commonRoot : string;
  components : option (list SourceComponent)
}.

Record MetadataCacheResult := mkMetadataCacheResult {
  selectedPath : string;
  selectedIsDirectory : bool;
  cachePropPath : option string;
  cache : MetadataContext;
  project : MetadataContext
}.

Section WithDiffer.

(** The result type of [CommonDirDirectoryDiffer.diff]. *)
Context {Diffs : Type}.

(** The calls made into the editor and the services, in order. *)
Inductive Event :=
| ShowErrorMessage (msg : string)
| AppendLine (msg : string)
| ShowChannelOutput
| SendException (nm msg : string)
| ExecuteCommand (cmd : string) (argv : list Arg)
| VisualizeDifferences (title remoteLabel : string) (reveal : bool) (diffs : Diffs)
| ConsoleLog (line : string).

(** The world around the command. *)
Record Env := mkEnv {
  (** [nls.localize(key, ...args)] *)
  localize : string -> list (option string) -> string;
  (** [new DiffResultParser(stdOut)] *)
  new_DiffResultParser : string -> Outcome DiffResultParser;
  hasRootWorkspace : bool;
  (** [OrgAuthInfo.getDefaultUsernameOrAlias(false)] *)
  getDefaultUsernameOrAlias : option string;
  (** what the promise of [vscode.commands.executeCommand] settles to *)
  executeCommand : string -> list Arg -> Outcome unit;
  path_join : string -> string -> string;
  path_basename : string -> string;
  (** [new CommonDirDirectoryDiffer().diff(localPath, remotePath)] *)
  differ_diff : string -> string -> Diffs
}.

Context (env : Env).

(** [ForceSourceDiffExecutor.build] *)
Definition build (filePath : string) : Command :=
  let commandBuilder :=
    withJson
      (withFlag "--sourcepath" filePath
        (withLogName "force_source_diff"
          (withArg "force:source:diff"
            (withDescription (localize env "force_source_diff_text" [])
              new_SfdxCommandBuilder)))) in
  commandBuilder.

(** [handleDiffResponse] *)
Definition handleDiffResponse (exitCode : option Z) (stdOut : string)
  : Async.t Event unit :=
  Async.try_catch
    ((if decide (exitCode = Some 127)
      then Async.throw
             (new_Error (localize env "force_source_diff_command_not_found" []))
      else Async.ret tt) ;;
     let* diffParser := Async.lift (new_DiffResultParser env stdOut) in
     let diffParserSuccess := getSuccessResponse diffParser in
     let diffParserError := getErrorResponse diffParser in
     match diffParserSuccess with
     | Some success =>
         let diffResult := result success in
         let remoteUri := Uri_file (remote diffResult) in
         let localUri := Uri_file (local diffResult) in
         let filename := fileName diffResult in
         let defaultUsernameorAlias :=
           if hasRootWorkspace env then getDefaultUsernameOrAlias env else None in
         Async.emit
           (ExecuteCommand "vscode.diff"
              [AUri remoteUri; AUri localUri;
               AString (localize env "force_source_diff_title"
                          [defaultUsernameorAlias; Some filename; Some filename])])
     | None =>
         match diffParserError with
         | Some err =>
             Async.emit (AppendLine (error_message err)) ;;
             Async.emit ShowChannelOutput
         | None => Async.ret tt
         end
     end)
    (fun e =>
       Async.emit (ShowErrorMessage (message e)) ;;
       Async.emit (AppendLine (message e)) ;;
       Async.emit ShowChannelOutput ;;
       Async.emit (SendException (name e) (message e))).

(** The loop of [diffOneFile] over [remoteComponent.walkContent()]. *)
Fixpoint diffOneFile_loop (localFile filePart : string) (content : list string)
  : Async.t Event unit :=
  match content with
  | [] => Async.ret tt
  | filePath :: rest =>
      if Js.endsWith filePath filePart then
        let remoteUri := Uri_file filePath in
        let localUri := Uri_file localFile in
        let argv := [AUri remoteUri; AUri localUri;
                     AString "Source File Diff ( Local File / Org File )"] in
        Async.try_catch
          (Async.emit (ExecuteCommand "vscode.diff" argv) ;;
           Async.lift (executeCommand env "vscode.diff" argv))
          (fun err => Async.emit (ConsoleLog ("ERROR: " +:+ Error_toString err)))
      else diffOneFile_loop localFile filePart rest
  end.

(** [diffOneFile]; [remoteComponent] is [None] when the caller read past the
    end of an array, and calling a method on it is a [TypeError]. *)
Definition diffOneFile (localFile : string) (remoteComponent : option SourceComponent)
  : Async.t Event unit :=
  let filePart := path_basename env localFile in
  match remoteComponent with
  | Some component => diffOneFile_loop localFile filePart (walkContent component)
  | None =>
      Async.throw
        (mkError "TypeError"
                 "Cannot read properties of undefined (reading 'walkContent')")
  end.

(** [handleCacheResults] *)
Definition handleCacheResults (cacheResult : option MetadataCacheResult)
  : Async.t Event unit :=
  match cacheResult with
  | Some c =>
      Async.emit (ConsoleLog ("PROF-FILE: " +:+ Js.interpolate (cachePropPath c))) ;;
      match selectedIsDirectory c, components (cache c) with
      | false, Some comps => diffOneFile (selectedPath c) (head comps)
      | true, _ =>
          let localPath :=
            path_join env (baseDirectory (project c)) (commonRoot (project c)) in
          let remotePath :=
            path_join env (baseDirectory (cache c)) (commonRoot (cache c)) in
          let diffs := differ_diff env localPath remotePath in
          Async.emit
            (VisualizeDifferences "PDTDevHub2 - File Diffs" "PDTDevHub2" true diffs)
      | false, None => Async.ret tt
      end
  | None =>
      Async.emit
        (ShowErrorMessage "Selected components are not available in the org")
  end.

End WithDiffer.
Arguments Event : clear implicits.
Arguments Env : clear implicits.

End SourceDiff.

(** ** Configuration lookup *)

(** [enum ConfigSource { Local, Global, None }] *)
Module ConfigSource.
Inductive t := Local | Global | None.

#[global] Instance eq_dec : EqDecision t.
Proof. solve_decision. Defined.
End ConfigSource.

Module ConfigUtil.

(** A [ConfigValue] is any JSON value; numbers are integers here. *)
#[local] Unset Elimination Schemes.
Inductive AnyJson :=
| JNull
| JBool (b : bool)
| JNumber (n : Z)
| JString (s : string)
| JArray (items : list AnyJson)
| JObject (fields : list (string * AnyJson)).
#[local] Set Elimination Schemes.

(** [ConfigValue | undefined] *)
Abbreviation ConfigValue := (option AnyJson).

(** A [ConfigAggregator]: [getPropertyValue] answers or throws (it does for
    a key it does not know). *)
Record ConfigAggregator := mkConfigAggregator {
  getPropertyValue : string -> Outcome ConfigValue
}.

(** The calls made while looking a key up, in order. *)
Inductive Event :=
| ConfigFileCreate (isGlobal : bool) (rootFolder filename : string)
| ConfigAggregatorCreate
| SendException (nm msg : string).

(** The world around [ConfigUtil].  The two constants come from
    [src/constants], the contents of a config file are a finite map from
    keys to values. *)
Record Env := mkEnv {
  getRootWorkspacePath : string;
  path_join : string -> string -> string;
  SF_STATE_FOLDER : string;
  SF_CONFIG_FILE : string;
  (** [ConfigFile.create({ isGlobal, rootFolder, filename })] *)
  ConfigFile_create : bool -> string -> string -> Outcome (gmap string AnyJson);
  (** [ConfigAggregator.create()] *)
  ConfigAggregator_create : Outcome ConfigAggregator
}.

Definition isNullOrUndefined (value : ConfigValue) : bool :=
  match value with
  | Datatypes.None | Some JNull => true
  | Some _ => false
  end.

Definition isUndefined {A} (value : option A) : bool :=
  match value with
  | Datatypes.None => true
  | Some _ => false
  end.

(** [source === ConfigSource.X] for an optional [source]. *)
Definition source_is (source : option ConfigSource.t) (s : ConfigSource.t) : bool :=
  bool_decide (source = Some s).

(** How one [if] block of a lookup ends: with a [return], or by falling
    through to the statement after it. *)
Inductive Flow :=
| Return (value : ConfigValue)
| FallThrough.

Section WithEnv.
Context (env : Env).

(** [ConfigUtil.getConfigValue] *)
Definition getConfigValue (key : string) (source : option ConfigSource.t)
  : Async.t Event ConfigValue :=
  let* fromLocal :=
    (if isUndefined source || source_is source ConfigSource.Local then
       Async.try_catch
         (let rootPath := getRootWorkspacePath env in
          let rootFolder := path_join env rootPath (SF_STATE_FOLDER env) in
          Async.emit (ConfigFileCreate false rootFolder (SF_CONFIG_FILE env)) ;;
          let* myLocalConfig :=
            Async.lift (ConfigFile_create env false rootFolder (SF_CONFIG_FILE env)) in
          let localValue := myLocalConfig !! key in
          if negb (isNullOrUndefined localValue)
          then Async.ret (Return localValue)
          else Async.ret FallThrough)
         (fun err =>
            Async.emit (SendException "get_config_value_local" (message err)) ;;
            Async.ret (Return Datatypes.None))
     else Async.ret FallThrough) in
  match fromLocal with
  | Return value => Async.ret value
  | FallThrough =>
      let* fromGlobal :=
        (if isUndefined source || source_is source ConfigSource.Global then
           Async.try_catch
             (Async.emit ConfigAggregatorCreate ;;
              let* aggregator := Async.lift (ConfigAggregator_create env) in
              let* globalValue := Async.lift (getPropertyValue aggregator key) in
              if negb (isNullOrUndefined globalValue)
              then Async.ret (Return globalValue)
              else Async.ret FallThrough)
             (fun err =>
                Async.emit (SendException "get_config_value_global" (message err)) ;;
                Async.ret (Return Datatypes.None))
         else Async.ret FallThrough) in
      match fromGlobal with
      | Return value => Async.ret value
      | FallThrough => Async.ret Datatypes.None
      end
  end.

(** [ConfigUtil.getSfConfigValue] *)
Definition getSfConfigValue (key : string) (source : option ConfigSource.t)
  : Async.t Event ConfigValue :=
  let* fromLocal :=
    (if isUndefined source || source_is source ConfigSource.Local then
       Async.try_catch
         (let rootPath := getRootWorkspacePath env in
          let rootFolder := path_join env rootPath (SF_STATE_FOLDER env) in
          Async.emit (ConfigFileCreate false rootFolder (SF_CONFIG_FILE env)) ;;
          let* myLocalConfig :=
            Async.lift (ConfigFile_create env false rootFolder (SF_CONFIG_FILE env)) in
          let localValue := myLocalConfig !! key in
          if negb (isNullOrUndefined localValue)
          then Async.ret (Return localValue)
          else Async.ret FallThrough)
         (fun err =>
            Async.emit (SendException "get_config_value_local" (message err)) ;;
            Async.ret (Return Datatypes.None))
     else Async.ret FallThrough) in
  match fromLocal with
  | Return value => Async.ret value
  | FallThrough =>
      let* fromGlobal :=
        (if isUndefined source || source_is source ConfigSource.Global then
           Async.try_catch
             (Async.emit ConfigAggregatorCreate ;;
              let* aggregator := Async.lift (ConfigAggregator_create env) in
              let* globalValue := Async.lift (getPropertyValue aggregator key) in
              if negb (isNullOrUndefined globalValue)
              then Async.ret (Return globalValue)
              else Async.ret FallThrough)
             (fun err =>
                Async.emit (SendException "get_config_value_global" (message err)) ;;
                Async.ret (Return Datatypes.None))
         else Async.ret FallThrough) in
      match fromGlobal with
      | Return value => Async.ret value
      | FallThrough => Async.ret Datatypes.None
      end
  end.

(** [ConfigUtil.getConfigSource] *)
Definition getConfigSource (key : string) : Async.t Event ConfigSource.t :=
  let* value := getSfConfigValue key (Some ConfigSource.Local) in
  if negb (isNullOrUndefined value) then Async.ret ConfigSource.Local
  else
    let* value := getSfConfigValue key (Some ConfigSource.Global) in
    if negb (isNullOrUndefined value) then Async.ret ConfigSource.Global
    else Async.ret ConfigSource.None.

(** What the local workspace config lookup yields for [key]: the value
    stored in the config file, when the file can be read. *)
Definition local_lookup (key : string) : Outcome ConfigValue :=
  match ConfigFile_create env false
          (path_join env (getRootWorkspacePath env) (SF_STATE_FOLDER env))
          (SF_CONFIG_FILE env) with
  | Returned contents => Returned (contents !! key)
  | Thrown e => Thrown e
  end.

(** What the global configuration aggregator yields for [key]. *)
Definition global_lookup (key : string) : Outcome ConfigValue :=
  match ConfigAggregator_create env with
  | Returned aggregator => getPropertyValue aggregator key
  | Thrown e => Thrown e
  end.

End WithEnv.

(** A lookup yields a value when it answers with one that is neither
    [null] nor [undefined]. *)
Definition yields_value (o : Outcome ConfigValue) : Prop :=
  exists v, o = Returned (Some v) /\ v <> JNull.

End ConfigUtil.

(** ** The org picker *)

(** [OrgInfo] of the workspace context; the context itself offers the same
    two getters. *)
Module OrgInfo.
Record t := mk { username : option string; alias : option string }.
End OrgInfo.

(** [OrgAuthorization] as far as the org picker reads it. *)
Module OrgAuthorization.
Record t := mk { username : string; aliases : option (list string) }.
End OrgAuthorization.

(** [AuthFields] as far as the org picker reads them. *)
Module AuthFields.
Record t := mk {
  scratchAdminUsername : option string;
  devHubUsername : option string;
  expirationDate : option string
}.
End AuthFields.

(** A [vscode.StatusBarItem]. *)
Module StatusBarItem.
Inductive Alignment := Left | Right.

Record t := mk {
  alignment : Alignment;
  priority : Z;
  command : option string;
  tooltip : option string;
  text : string;
  visible : bool
}.

(** [vscode.window.createStatusBarItem(alignment, priority)] *)
Definition create (a : Alignment) (p : Z) : t := mk a p None None "" false.

Definition set_command (c : string) (i : t) : t :=
  mk (alignment i) (priority i) (Some c) (tooltip i) (text i) (visible i).

Definition set_tooltip (tip : string) (i : t) : t :=
  mk (alignment i) (priority i) (command i) (Some tip) (text i) (visible i).

Definition set_text (txt : string) (i : t) : t :=
  mk (alignment i) (priority i) (command i) (tooltip i) txt (visible i).

Definition show (i : t) : t :=
  mk (alignment i) (priority i) (command i) (tooltip i) (text i) true.
End StatusBarItem.

Module OrgList.

(** [CancelResponse | ContinueResponse<{}>] *)
Inductive EmptyObject := empty_object.

Inductive Response :=
| CancelResponse
| ContinueResponse (data : EmptyObject).

(** The [type] field of a response. *)
Definition type (r : Response) : string :=
  match r with
  | CancelResponse => "CANCEL"
  | ContinueResponse _ => "CONTINUE"
  end.

(** The calls made into the editor, in order. *)
Inductive Event :=
| ShowQuickPick (items : list string) (placeHolder : string)
| ExecuteCommand (cmd : string) (argv : list Arg).

(** The world around the org picker.  Dates are milliseconds since the
    epoch; [Date_parse] is [None] for a string [new Date] cannot read, whose
    time value is NaN.  The calls the source awaits without a guard are
    given by what they resolve to; [OrgListAwaits] below has them with an
    [Outcome]. *)
Record Env := mkEnv {
  (** [nls.localize(key)] *)
  localize : string -> string;
  (** [AuthInfo.listAllAuthorizations()] *)
  listAllAuthorizations : Outcome (list OrgAuthorization.t);
  (** [(await AuthInfo.create({ username })).getFields()] *)
  AuthInfo_getFields : string -> AuthFields.t;
  hasRootWorkspace : bool;
  (** [OrgAuthInfo.getDefaultDevHubUsernameOrAlias(false)] *)
  getDefaultDevHubUsernameOrAlias : option string;
  (** [OrgAuthInfo.getUsername(usernameOrAlias)] *)
  getUsername : string -> string;
  (** [new Date()] *)
  now : Z;
  (** [new Date(text)] *)
  Date_parse : string -> option Z;
  (** what the user answers to [vscode.window.showQuickPick(items, options)] *)
  showQuickPick : list string -> string -> option string
}.

(** The object: its one private field. *)
Record t := mk { statusBarItem : StatusBarItem.t }.

Section WithEnv.
Context (env : Env).

(** [OrgList.displayDefaultUsername] *)
Definition displayDefaultUsername (this : t) (defaultUsernameOrAlias : option string) : t :=
  if Js.truthy defaultUsernameOrAlias then
    mk (StatusBarItem.set_text
          ("$(plug) " +:+ Js.interpolate defaultUsernameOrAlias)
          (statusBarItem this))
  else
    mk (StatusBarItem.set_text (localize env "missing_default_org")
          (statusBarItem this)).

(** The listener the constructor registers with
    [workspaceContext.onOrgChange]. *)
Definition onOrgChange (this : t) (orgInfo : OrgInfo.t) : t :=
  displayDefaultUsername this
    (Js.or_else (OrgInfo.alias orgInfo) (OrgInfo.username orgInfo)).

(** [new OrgList()], given what [workspaceContext] holds. *)
Definition constructor (workspaceContext : OrgInfo.t) : t :=
  let item := StatusBarItem.create StatusBarItem.Left 49 in
  let item := StatusBarItem.set_command "sfdx.force.set.default.org" item in
  let item := StatusBarItem.set_tooltip (localize env "status_bar_org_picker_tooltip") item in
  let item := StatusBarItem.show item in
  let this := mk item in
  let username := OrgInfo.username workspaceContext in
  let alias := OrgInfo.alias workspaceContext in
  displayDefaultUsername this (Js.or_else alias username).

(** [OrgList.getOrgAuthorizations]; [None] is [null]. *)
Definition getOrgAuthorizations : option (list OrgAuthorization.t) :=
  let orgAuthorizations :=
    match listAllAuthorizations env with
    | Returned l => Some l
    | Thrown _ => None
    end in
  match orgAuthorizations with
  | None => None
  | Some l => if (length l =? 0)%nat then None else Some l
  end.

(** [OrgList.getDefaultDevHubUsernameorAlias] *)
Definition getDefaultDevHubUsernameorAlias : option string :=
  if hasRootWorkspace env then getDefaultDevHubUsernameOrAlias env else None.

(** [today >= new Date(text)]: false when the date cannot be read. *)
Definition today_ge (today : Z) (text : string) : bool :=
  match Date_parse env text with
  | Some time => today >=? time
  | None => false
  end.

(** The text that marks an expired org. *)
Definition expired_marker : string :=
  " - " +:+ localize env "org_expired" +:+ " " +:+ Js.fromCodePoint 10060.

(** One round of the loop of [filterAuthInfo]: [None] for [continue],
    otherwise the item pushed onto [authList]. *)
Definition authListItem_of (defaultDevHubUsername : option string) (today : Z)
    (authInfo : OrgAuthorization.t) : option string :=
  let authFields := AuthInfo_getFields env (OrgAuthorization.username authInfo) in
  if Js.truthy (AuthFields.scratchAdminUsername authFields) then None
  else if Js.truthy (AuthFields.devHubUsername authFields)
          && negb (bool_decide
                     (AuthFields.devHubUsername authFields = defaultDevHubUsername))
  then None
  else
    let aliases := OrgAuthorization.aliases authInfo in
    let isExpired :=
      match AuthFields.expirationDate authFields with
      | Some text => if Js.truthy (Some text) then today_ge today text else false
      | None => false
      end in
    let authListItem :=
      match aliases with
      | Some ((_ :: _) as names) =>
          Js.array_toString names +:+ " - " +:+ OrgAuthorization.username authInfo
      | _ => OrgAuthorization.username authInfo
      end in
    let authListItem :=
      if isExpired then authListItem +:+ expired_marker else authListItem in
    Some authListItem.

Fixpoint filterAuthInfo_loop (defaultDevHubUsername : option string) (today : Z)
    (authInfoObjects : list OrgAuthorization.t) (authList : list string)
  : list string :=
  match authInfoObjects with
  | [] => authList
  | authInfo :: rest =>
      match authListItem_of defaultDevHubUsername today authInfo with
      | None => filterAuthInfo_loop defaultDevHubUsername today rest authList
      | Some authListItem =>
          filterAuthInfo_loop defaultDevHubUsername today rest
            (authList ++ [authListItem])
      end
  end.

(** The default Dev Hub username [filterAuthInfo] resolves first. *)
Definition defaultDevHubUsername : option string :=
  let defaultDevHubUsernameorAlias := getDefaultDevHubUsernameorAlias in
  match defaultDevHubUsernameorAlias with
  | Some usernameOrAlias =>
      if Js.truthy (Some usernameOrAlias)
      then Some (getUsername env usernameOrAlias)
      else None
  | None => None
  end.

(** [OrgList.filterAuthInfo] *)
Definition filterAuthInfo (authInfoObjects : list OrgAuthorization.t) : list string :=
  let today := now env in
  filterAuthInfo_loop defaultDevHubUsername today authInfoObjects [].

(** [OrgList.updateOrgList]; [None] is [null]. *)
Definition updateOrgList : option (list string) :=
  match getOrgAuthorizations with
  | None => None
  | Some orgAuthorizations => Some (filterAuthInfo orgAuthorizations)
  end.

(** The five fixed entries of the quick pick, each with the command it
    stands for, in the order of the [switch]. *)
Definition fixed_entries : list (string * string) :=
  [ ("$(plus) " +:+ localize env "force_auth_web_login_authorize_org_text",
     "sfdx.force.auth.web.login");
    ("$(plus) " +:+ localize env "force_auth_web_login_authorize_dev_hub_text",
     "sfdx.force.auth.dev.hub");
    ("$(plus) " +:+ localize env "force_org_create_default_scratch_org_text",
     "sfdx.force.org.create");
    ("$(plus) " +:+ localize env "force_auth_access_token_authorize_org_text",
     "sfdx.force.auth.accessToken");
    ("$(plus) " +:+ localize env "force_org_list_clean_text",
     "sfdx.force.org.list.clean") ].

(** The [switch] of [setDefaultOrg]: the first [case] whose label equals
    the selection, or [default]. *)
Fixpoint switch (cases : list (string * string)) (selection : string)
  : Async.t Event Response :=
  match cases with
  | (label, cmd) :: rest =>
      if String.eqb selection label then
        Async.emit (ExecuteCommand cmd []) ;;
        Async.ret (ContinueResponse empty_object)
      else switch rest selection
  | [] =>
      let usernameOrAlias := Js.split_limit " - " 1 selection in
      Async.emit (ExecuteCommand "sfdx.force.config.set" [AStrings usernameOrAlias]) ;;
      Async.ret (ContinueResponse empty_object)
  end.

(** The list [setDefaultOrg] offers. *)
Definition quickPickList : list string :=
  let quickPickList := map fst fixed_entries in
  match updateOrgList with
  | Some authInfoList => quickPickList ++ authInfoList
  | None => quickPickList
  end.

(** [OrgList.setDefaultOrg] *)
Definition setDefaultOrg : Async.t Event Response :=
  let placeHolder := localize env "org_select_text" in
  Async.emit (ShowQuickPick quickPickList placeHolder) ;;
  let selection := showQuickPick env quickPickList placeHolder in
  match selection with
  | Some chosen =>
      if negb (Js.truthy selection) then Async.ret CancelResponse
      else switch fixed_entries chosen
  | None => Async.ret CancelResponse
  end.

End WithEnv.
End OrgList.

(** ** The org picker and its awaits

    [OrgList] follows every awaited call on the path where it resolves.
    [filterAuthInfo], [updateOrgList] and [setDefaultOrg] guard none of their
    awaits, so a call that rejects ends them.  Here the same methods are
    followed with every awaited call able to reject; the responses and the
    calls into the editor are those of [OrgList]. *)

Module OrgListAwaits.

(** The world around the org picker: every call the source awaits has an
    [Outcome]. *)
Record Env := mkEnv {
  (** [nls.localize(key)] *)
  localize : string -> string;
  (** [AuthInfo.listAllAuthorizations()] *)
  listAllAuthorizations : Outcome (list OrgAuthorization.t);
  (** [await AuthInfo.create({ username })], then [getFields()] of what it
      resolves to *)
  AuthInfo_create : string -> Outcome AuthFields.t;
  hasRootWorkspace : bool;
  (** [OrgAuthInfo.getDefaultDevHubUsernameOrAlias(false)] *)
  getDefaultDevHubUsernameOrAlias : Outcome (option string);
  (** [OrgAuthInfo.getUsername(usernameOrAlias)] *)
  getUsername : string -> Outcome string;
  (** [new Date()] *)
  now : Z;
  (** [new Date(text)] *)
  Date_parse : string -> option Z;
  (** [vscode.window.showQuickPick(items, options)] *)
  showQuickPick : list string -> string -> Outcome (option string)
}.

Section WithEnv.
Context (env : Env).

(** [OrgList.getOrgAuthorizations]; [None] is [null]. *)
Definition getOrgAuthorizations : option (list OrgAuthorization.t) :=
  let orgAuthorizations :=
    match listAllAuthorizations env with
    | Returned l => Some l
    | Thrown _ => None
    end in
  match orgAuthorizations with
  | None => None
  | Some l => if (length l =? 0)%nat then None else Some l
  end.

(** [OrgList.getDefaultDevHubUsernameorAlias] *)
Definition getDefaultDevHubUsernameorAlias : Async.t OrgList.Event (option string) :=
  if hasRootWorkspace env then Async.lift (getDefaultDevHubUsernameOrAlias env)
  else Async.ret None.

(** [today >= new Date(text)]: false when the date cannot be read. *)
Definition today_ge (today : Z) (text : string) : bool :=
  match Date_parse env text with
  | Some time => today >=? time
  | None => false
  end.

(** The text that marks an expired org. *)
Definition expired_marker : string :=
  " - " +:+ localize env "org_expired" +:+ " " +:+ Js.fromCodePoint 10060.

(** One round of the loop of [filterAuthInfo] once [AuthInfo.create] has
    resolved: [None] for [continue], otherwise the item pushed onto
    [authList]. *)
Definition authListItem_of (defaultDevHubUsername : option string) (today : Z)
    (authInfo : OrgAuthorization.t) (authFields : AuthFields.t) : option string :=
  if Js.truthy (AuthFields.scratchAdminUsername authFields) then None
  else if Js.truthy (AuthFields.devHubUsername authFields)
          && negb (bool_decide
                     (AuthFields.devHubUsername authFields = defaultDevHubUsername))
  then None
  else
    let aliases := OrgAuthorization.aliases authInfo in
    let isExpired :=
      match AuthFields.expirationDate authFields with
      | Some text => if Js.truthy (Some text) then today_ge today text else false
      | None => false
      end in
    let authListItem :=
      match aliases with
      | Some ((_ :: _) as names) =>
          Js.array_toString names +:+ " - " +:+ OrgAuthorization.username authInfo
      | _ => OrgAuthorization.username authInfo
      end in
    let authListItem :=
      if isExpired then authListItem +:+ expired_marker else authListItem in
    Some authListItem.

Fixpoint filterAuthInfo_loop (defaultDevHubUsername : option string) (today : Z)
    (authInfoObjects : list OrgAuthorization.t) (authList : list string)
  : Async.t OrgList.Event (list string) :=
  match authInfoObjects with
  | [] => Async.ret authList
  | authInfo :: rest =>
      let* authFields :=
        Async.lift (AuthInfo_create env (OrgAuthorization.username authInfo)) in
      match authListItem_of defaultDevHubUsername today authInfo authFields with
      | None => filterAuthInfo_loop defaultDevHubUsername today rest authList
      | Some authListItem =>
          filterAuthInfo_loop defaultDevHubUsername today rest
            (authList ++ [authListItem])
      end
  end.

(** [OrgList.filterAuthInfo] *)
Definition filterAuthInfo (authInfoObjects : list OrgAuthorization.t)
  : Async.t OrgList.Event (list string) :=
  let* defaultDevHubUsernameorAlias := getDefaultDevHubUsernameorAlias in
  let* defaultDevHubUsername :=
    match defaultDevHubUsernameorAlias with
    | Some usernameOrAlias =>
        if Js.truthy (Some usernameOrAlias) then
          let* username := Async.lift (getUsername env usernameOrAlias) in
          Async.ret (Some username)
        else Async.ret None
    | None => Async.ret None
    end in
  let today := now env in
  filterAuthInfo_loop defaultDevHubUsername today authInfoObjects [].

(** [OrgList.updateOrgList]; [None] is [null]. *)
Definition updateOrgList : Async.t OrgList.Event (option (list string)) :=
  match getOrgAuthorizations with
  | None => Async.ret None
  | Some orgAuthorizations =>
      let* authUsernameList := filterAuthInfo orgAuthorizations in
      Async.ret (Some authUsernameList)
  end.

(** The five fixed entries of the quick pick, each with the command it
    stands for, in the order of the [switch]. *)
Definition fixed_entries : list (string * string) :=
  [ ("$(plus) " +:+ localize env "force_auth_web_login_authorize_org_text",
     "sfdx.force.auth.web.login");
    ("$(plus) " +:+ localize env "force_auth_web_login_authorize_dev_hub_text",
     "sfdx.force.auth.dev.hub");
    ("$(plus) " +:+ localize env "force_org_create_default_scratch_org_text",
     "sfdx.force.org.create");
    ("$(plus) " +:+ localize env "force_auth_access_token_authorize_org_text",
     "sfdx.force.auth.accessToken");
    ("$(plus) " +:+ localize env "force_org_list_clean_text",
     "sfdx.force.org.list.clean") ].

(** [OrgList.setDefaultOrg] *)
Definition setDefaultOrg : Async.t OrgList.Event OrgList.Response :=
  let quickPickList := map fst fixed_entries in
  let* authInfoList := updateOrgList in
  let quickPickList :=
    match authInfoList with
    | Some authInfoList => quickPickList ++ authInfoList
    | None => quickPickList
    end in
  let placeHolder := localize env "org_select_text" in
  Async.emit (OrgList.ShowQuickPick quickPickList placeHolder) ;;
  let* selection := Async.lift (showQuickPick env quickPickList placeHolder) in
  match selection with
  | Some chosen =>
      if negb (Js.truthy selection) then Async.ret OrgList.CancelResponse
      else OrgList.switch fixed_entries chosen
  | None => Async.ret OrgList.CancelResponse
  end.

End WithEnv.

(** The world in which every awaited call resolves, to what it yields in
    [world]. *)
Definition resolving (world : OrgList.Env) : Env :=
  mkEnv (OrgList.localize world) (OrgList.listAllAuthorizations world)
    (fun username => Returned (OrgList.AuthInfo_getFields world username))
    (OrgList.hasRootWorkspace world)
    (Returned (OrgList.getDefaultDevHubUsernameOrAlias world))
    (fun usernameOrAlias => Returned (OrgList.getUsername world usernameOrAlias))
    (OrgList.now world) (OrgList.Date_parse world)
    (fun items placeHolder => Returned (OrgList.showQuickPick world items placeHolder)).

(** A call that rejects. *)
Definition rejected {A} (o : Outcome A) : Prop := exists e, o = Thrown e.

(** The orgs [AuthInfo.listAllAuthorizations] lists; none when it rejects. *)
Definition listed (env : Env) : list OrgAuthorization.t :=
  match listAllAuthorizations env with
  | Returned orgs => orgs
  | Thrown _ => []
  end.

(** One of the lookups made for the listed orgs rejects: that of the
    default Dev Hub, in a workspace; that of the username the default Dev
    Hub stands for; or [AuthInfo.create] for one of the orgs. *)
Definition lookup_rejects (env : Env) : Prop :=
  listed env <> []
  /\ ((hasRootWorkspace env = true
       /\ rejected (getDefaultDevHubUsernameOrAlias env))
      \/ (hasRootWorkspace env = true
          /\ exists usernameOrAlias,
               getDefaultDevHubUsernameOrAlias env = Returned (Some usernameOrAlias)
               /\ usernameOrAlias <> ""
               /\ rejected (getUsername env usernameOrAlias))
      \/ (exists org,
            org ∈ listed env
            /\ rejected (AuthInfo_create env (OrgAuthorization.username org)))).

End OrgListAwaits.

(** ** Function names *)

Module FunctionCreate.

(** [/^[a-z0-9]+$/.test(value)] *)
Definition functionNameRegex_test (value : string) : bool :=
  match value with
  | EmptyString => false
  | String _ _ => Js.forall_chars (fun c => Js.is_lower c || Js.is_digit c) value
  end.

(** [/^[a-z]/.test(value)] *)
Definition functionNameStartRegex_test (value : string) : bool :=
  match value with
  | EmptyString => false
  | String c _ => Js.is_lower c
  end.

Definition too_long : Error :=
  new_Error "Function names cannot contain more than 47 characters.".
Definition bad_characters : Error :=
  new_Error "Name must contain only lowercase letters and numbers.".
Definition bad_start : Error :=
  new_Error "Name must start with a letter.".

(** [nameVerification] *)
Definition nameVerification (value : string) : Outcome string :=
  if (47 <? Js.js_length value)%nat then Thrown too_long
  else if negb (functionNameRegex_test value) then Thrown bad_characters
  else if negb (functionNameStartRegex_test value) then Thrown bad_start
  else Returned "".

End FunctionCreate.

(** ** The specification's vocabulary

    Predicates in the words of the specification, against which the
    functions above are compared. *)

Module Spec.

(** A lowercase letter, a digit. *)
Definition lowercase (c : ascii) : Prop :=
  (97 <= nat_of_ascii c <= 122)%nat.

Definition digit (c : ascii) : Prop :=
  (48 <= nat_of_ascii c <= 57)%nat.

(** The characters of a string, all of them. *)
Fixpoint all_chars (P : ascii -> Prop) (s : string) : Prop :=
  match s with
  | EmptyString => True
  | String c rest => P c /\ all_chars P rest
  end.

Definition only_lowercase_and_digits (value : string) : Prop :=
  all_chars (fun c => lowercase c \/ digit c) value.

Definition starts_with_lowercase (value : string) : Prop :=
  exists c rest, value = String c rest /\ lowercase c.

(** A function name [nameVerification] accepts, as the specification puts
    it. *)
Definition acceptable_name (value : string) : Prop :=
  (Js.js_length value <= 47)%nat
  /\ starts_with_lowercase value
  /\ only_lowercase_and_digits value.

(** A non-empty defined string. *)
Definition provided (v : option string) : Prop :=
  exists s, v = Some s /\ s <> "".


(** The value a lookup contributes: what it answered, unless that is
    [null] or it threw, in which case it contributes [undefined]. *)
Definition usable (o : Outcome ConfigUtil.ConfigValue) : ConfigUtil.ConfigValue :=
  match o with
  | Returned v => if ConfigUtil.isNullOrUndefined v then None else v
  | Thrown _ => None
  end.

(** An error reported the way the source-diff command reports one: a
    notification, the message appended to the output channel, the channel
    shown, and the exception sent to telemetry. *)
Definition reported {Diffs} (nm msg : string) : list (SourceDiff.Event Diffs) :=
  [ SourceDiff.ShowErrorMessage msg; SourceDiff.AppendLine msg;
    SourceDiff.ShowChannelOutput; SourceDiff.SendException nm msg ].

(** *** The org picker, in the specification's words *)

#[global] Instance provided_dec (v : option string) : Decision (provided v).
Proof.
  destruct v as [[|c s]|].
  - right. intros (s & [= <-] & H). now apply H.
  - left. exists (String c s). split; [reflexivity | discriminate].
  - right. intros (s & [=] & _).
Defined.

Section OrgPicker.
Context (env : OrgList.Env).

(** The fields [AuthInfo] reports for an org authorization. *)
Definition fields_of (org : OrgAuthorization.t) : AuthFields.t :=
  OrgList.AuthInfo_getFields env (OrgAuthorization.username org).

(** An org authorization the picker leaves out: one with a scratch admin
    username, or one whose Dev Hub username differs from the resolved
    default Dev Hub username.  Either username counts when it is a
    non-empty string. *)
Definition excluded (org : OrgAuthorization.t) : Prop :=
  provided (AuthFields.scratchAdminUsername (fields_of org))
  \/ (provided (AuthFields.devHubUsername (fields_of org))
      /\ AuthFields.devHubUsername (fields_of org) <> OrgList.defaultDevHubUsername env).

#[global] Instance excluded_dec (org : OrgAuthorization.t) : Decision (excluded org).
Proof. unfold excluded. apply _. Defined.

(** The time an org expires at, when it states a date that can be read. *)
Definition expiry_time (org : OrgAuthorization.t) : option Z :=
  match AuthFields.expirationDate (fields_of org) with
  | Some text => if decide (text = "") then None else OrgList.Date_parse env text
  | None => None
  end.

(** An org whose expiration date is on or before today. *)
Definition expired (org : OrgAuthorization.t) : Prop :=
  exists time, expiry_time org = Some time /\ time <= OrgList.now env.

#[global] Instance expired_dec (org : OrgAuthorization.t) : Decision (expired org).
Proof.
  unfold expired. destruct (expiry_time org) as [time|].
  - destruct (decide (time <= OrgList.now env)) as [Hle | Hgt].
    + left. eauto.
    + right. intros (t & [= <-] & Hle). contradiction.
  - right. intros (t & [=] & _).
Defined.

(** The name an org goes by: its aliases when it has any, its username
    otherwise. *)
Definition label (org : OrgAuthorization.t) : string :=
  match OrgAuthorization.aliases org with
  | None | Some [] => OrgAuthorization.username org
  | Some names => Js.array_toString names
  end.

(** How an org is identified: by its username when it has no aliases,
    otherwise by its aliases followed by [" - "] and the username. *)
Definition identification (org : OrgAuthorization.t) : string :=
  match OrgAuthorization.aliases org with
  | None | Some [] => OrgAuthorization.username org
  | Some names =>
      Js.array_toString names +:+ " - " +:+ OrgAuthorization.username org
  end.

(** The entry of an org in the list: its identification, with the
    localized expired marker appended when the org has expired. *)
Definition entry (org : OrgAuthorization.t) : string :=
  if decide (expired org)
  then identification org +:+ OrgList.expired_marker env
  else identification org.

(** What the user answers to the quick pick of [setDefaultOrg]. *)
Definition selection : option string :=
  OrgList.showQuickPick env (OrgList.quickPickList env)
    (OrgList.localize env "org_select_text").

(** The fixed entry of the quick pick whose text has the message key
    [key]. *)
Definition fixed_entry (key : string) : string :=
  "$(plus) " +:+ OrgList.localize env key.

(** The command a selected item stands for: the command of the fixed entry
    it equals, or [sfdx.force.config.set] with the text before the first
    [" - "] of the item. *)
Definition dispatched (chosen : string) : string * list Arg :=
  match List.find (fun '(label, _) => String.eqb chosen label)
                  (OrgList.fixed_entries env) with
  | Some (_, cmd) => (cmd, [])
  | None => ("sfdx.force.config.set", [AStrings (Js.split_limit " - " 1 chosen)])
  end.

End OrgPicker.

End Spec.

(** ** Sample worlds

    Concrete environments on which the properties below are exercised. *)

Module Sample.

(** A differ that only records the two directories it was given. *)
Definition diff_env : SourceDiff.Env (string * string) :=
  SourceDiff.mkEnv
    (fun key _ => key)
    (fun stdOut =>
       if String.eqb stdOut "ok" then
         Returned
           (SourceDiff.mkDiffResultParser
              (Some (SourceDiff.mkDiffSuccess 0
                       (SourceDiff.mkDiffResult "/tmp/remote/A.cls" "/ws/A.cls" "A.cls")))
              None)
       else if String.eqb stdOut "failed" then
         Returned
           (SourceDiff.mkDiffResultParser None
              (Some (SourceDiff.mkDiffError "The org cannot be reached")))
       else Thrown (mkError "DiffResultParserFail" "Error parsing diff result"))
    true (Some "dev") (fun _ _ => Returned tt)
    (fun a b => a +:+ "/" +:+ b) (fun path => "A.cls")
    (fun localPath remotePath => (localPath, remotePath)).

Definition directory_cache : SourceDiff.MetadataCacheResult :=
  SourceDiff.mkMetadataCacheResult "/ws/force-app" true (Some "/tmp/prop.json")
    (SourceDiff.mkMetadataContext "/tmp/cache" "force-app" (Some []))
    (SourceDiff.mkMetadataContext "/ws" "force-app" (Some [])).

Definition file_cache : SourceDiff.MetadataCacheResult :=
  SourceDiff.mkMetadataCacheResult "/ws/force-app/A.cls" false None
    (SourceDiff.mkMetadataContext "/tmp/cache" "force-app"
       (Some [SourceDiff.mkSourceComponent
                ["/tmp/cache/force-app/A.cls-meta.xml"; "/tmp/cache/force-app/A.cls"]]))
    (SourceDiff.mkMetadataContext "/ws" "force-app" (Some [])).

(** A workspace whose local config sets [defaultusername] and whose global
    config sets [defaultdevhubusername]. *)
Definition config_env : ConfigUtil.Env :=
  ConfigUtil.mkEnv "/ws" (fun a b => a +:+ "/" +:+ b) ".sf" "config.json"
    (fun _ _ _ => Returned {[ "defaultusername" := ConfigUtil.JString "dev" ]})
    (Returned
       (ConfigUtil.mkConfigAggregator
          (fun key =>
             if String.eqb key "defaultdevhubusername"
             then Returned (Some (ConfigUtil.JString "hub"))
             else if String.eqb key "defaultusername"
             then Returned (Some (ConfigUtil.JString "global-dev"))
             else Returned None))).

(** A workspace whose local config file cannot be read. *)
Definition broken_config_env : ConfigUtil.Env :=
  ConfigUtil.mkEnv "/ws" (fun a b => a +:+ "/" +:+ b) ".sf" "config.json"
    (fun _ _ _ => Thrown (new_Error "ENOENT"))
    (ConfigUtil.ConfigAggregator_create config_env).

(** An org picker over the given authorizations and their fields, whose
    user picks the item at position [pick] of the list, if any. *)
Definition picker_env (orgs : list OrgAuthorization.t)
    (fields : string -> AuthFields.t) (workspace : bool) (pick : option nat)
  : OrgList.Env :=
  OrgList.mkEnv (fun key => key) (Returned orgs) fields workspace (Some "hub")
    (fun usernameOrAlias => usernameOrAlias +:+ "@example.com")
    1700000000000
    (fun text => if String.eqb text "2020-01-01" then Some 1577836800000
                 else if String.eqb text "2999-01-01" then Some 32472144000000
                 else None)
    (fun items _ => match pick with Some i => items !! i | None => None end).

Definition no_fields : AuthFields.t := AuthFields.mk None None None.

(** An org whose Dev Hub username is the empty string. *)
Definition plain_org : OrgAuthorization.t := OrgAuthorization.mk "me@example.com" None.

Definition empty_devhub_fields : AuthFields.t := AuthFields.mk None (Some "") None.

(** An org whose alias holds the separator of the list entries. *)
Definition dashed_org : OrgAuthorization.t :=
  OrgAuthorization.mk "me@example.com" (Some ["dev - hub"]).

(** Three orgs: a scratch org of another Dev Hub, an expired org with two
    aliases, and a plain one. *)
Definition three_orgs : list OrgAuthorization.t :=
  [ OrgAuthorization.mk "scratch@example.com" (Some ["scratch"]);
    OrgAuthorization.mk "old@example.com" (Some ["old"; "older"]);
    OrgAuthorization.mk "me@example.com" None ].

Definition three_fields (username : string) : AuthFields.t :=
  if String.eqb username "scratch@example.com"
  then AuthFields.mk None (Some "other-hub@example.com") (Some "2999-01-01")
  else if String.eqb username "old@example.com"
  then AuthFields.mk None (Some "hub@example.com") (Some "2020-01-01")
  else no_fields.

End Sample.

(** ** Creating a function *)

Module ForceFunctionCreate.

Definition LANGUAGE_JAVA : string := "java".
Definition LANGUAGE_JAVASCRIPT : string := "javascript".
Definition LANGUAGE_TYPESCRIPT : string := "typescript".

(** A [MetadataInfo] as far as [run] looks at it: the suffix, and
    [pathStrategy.getPathToSource(dirPath, fileName, fileExt)]. *)
Record MetadataInfo := mkMetadataInfo {
  suffix : string;
  getPathToSource : string -> string -> string -> string
}.

(** What [generateFunction] resolves to. *)
Record GeneratedFunction := mkGeneratedFunction {
  path : string;
  welcomeText : option string
}.

(** [CancelResponse | ContinueResponse<{ language: string }>] *)
Inductive Response :=
| CancelResponse
| ContinueResponse (language : string).

(** The calls made into the editor, the services and the system, in
    order. *)
Inductive Event :=
| ShowQuickPick (items : list string) (placeHolder : string)
| AddProperty (key value : string)
| GenerateFunction (fileName language root : string)
| AppendLine (line : string)
| ShowChannelOutput
| OpenTextDocument (file : string)
| ShowTextDocument (document : string)
| Exec (command cwd : string)
| ShowWarningMessage (msg : string).

(** The world around the command.  The two metadata type names come from
    [metadataTypeConstants]. *)
Record Env := mkEnv {
  (** [nls.localize(key, ...args)] *)
  localize : string -> list string -> string;
  (** what the user answers to [vscode.window.showQuickPick(items, options)] *)
  showQuickPick : list string -> string -> option string;
  FUNCTION_TYPE_JS : string;
  FUNCTION_TYPE_JAVA : string;
  (** [MetadataDictionary.getInfo(metadataType)] *)
  getInfo : string -> option MetadataInfo;
  getRootWorkspacePath : string;
  (** what [generateFunction(fileName, language, root)] settles to *)
  generateFunction : string -> string -> string -> Outcome GeneratedFunction;
  (** what [vscode.workspace.openTextDocument(file)] settles to *)
  openTextDocument : string -> Outcome string;
  (** [path.join(p)] of a single path *)
  path_join : string -> string
}.

(** The [validateInput] callback of the file name prompt; [None] is
    [null]. *)
Definition validateInput (value : string) : option string :=
  match FunctionCreate.nameVerification value with
  | Thrown error => Some (message error)
  | Returned _ => None
  end.

Section WithEnv.
Context (env : Env).

(** [FunctionInfoGatherer.gather] *)
Definition gather : Async.t Event Response :=
  let items := [LANGUAGE_JAVA; LANGUAGE_JAVASCRIPT; LANGUAGE_TYPESCRIPT] in
  let placeHolder := localize env "force_function_enter_language" [] in
  Async.emit (ShowQuickPick items placeHolder) ;;
  match showQuickPick env items placeHolder with
  | None => Async.ret CancelResponse
  | Some language => Async.ret (ContinueResponse language)
  end.

(** [metadata = MetadataDictionary.getInfo(type); metadata!.suffix = sfx]:
    writing the suffix of an info that is not there is a [TypeError]. *)
Definition getInfo_with_suffix (metadataType sfx : string)
  : Async.t Event (option MetadataInfo) :=
  match getInfo env metadataType with
  | Some info => Async.ret (Some (mkMetadataInfo sfx (getPathToSource info)))
  | None =>
      Async.throw
        (mkError "TypeError"
                 "Cannot set properties of undefined (setting 'suffix')")
  end.

(** [ForceFunctionCreateExecutor.run], on the [fileName] and [language]
    of [response.data]. *)
Definition run (fileName language : string) : Async.t Event bool :=
  let* metadata :=
    (if String.eqb language LANGUAGE_JAVASCRIPT then
       let* metadata := getInfo_with_suffix (FUNCTION_TYPE_JS env) ".js" in
       Async.emit (AddProperty "language" "node") ;;
       Async.ret metadata
     else if String.eqb language LANGUAGE_TYPESCRIPT then
       let* metadata := getInfo_with_suffix (FUNCTION_TYPE_JS env) ".ts" in
       Async.emit (AddProperty "language" "node") ;;
       Async.ret metadata
     else if String.eqb language LANGUAGE_JAVA then
       let* metadata := getInfo_with_suffix (FUNCTION_TYPE_JAVA env) ".java" in
       Async.emit (AddProperty "language" "java") ;;
       Async.ret metadata
     else Async.ret None) in
  Async.emit (GenerateFunction fileName language (getRootWorkspacePath env)) ;;
  let* generated :=
    Async.lift (generateFunction env fileName language (getRootWorkspacePath env)) in
  let functionPath := path generated in
  Async.emit
    (AppendLine
       ("Created " +:+ language +:+ " function " +:+ fileName +:+ " in "
        +:+ functionPath +:+ ".")) ;;
  (if Js.truthy (welcomeText generated)
   then Async.emit (AppendLine (Js.interpolate (welcomeText generated)))
   else Async.ret tt) ;;
  Async.emit ShowChannelOutput ;;
  let* outputFile :=
    match metadata with
    | Some info =>
        Async.ret (getPathToSource info functionPath fileName (suffix info))
    | None =>
        Async.throw
          (mkError "TypeError"
                   "Cannot read properties of undefined (reading 'pathStrategy')")
    end in
  Async.emit (OpenTextDocument outputFile) ;;
  let* document := Async.lift (openTextDocument env outputFile) in
  Async.emit (ShowTextDocument document) ;;
  Async.emit (AppendLine "Installing dependencies...") ;;
  (if String.eqb language LANGUAGE_JAVA
   then Async.emit (Exec "mvn install" (path_join env functionPath))
   else Async.emit (Exec "npm install" functionPath)) ;;
  Async.ret true.

(** The callback handed to [cp.exec]: a failed installation is shown as a
    warning. *)
Definition installed (language : string) (err : option Error) : Async.t Event unit :=
  match err with
  | Some e =>
      if String.eqb language LANGUAGE_JAVA
      then Async.emit
             (ShowWarningMessage
                (localize env "force_function_install_mvn_dependencies_error"
                   [message e]))
      else Async.emit
             (ShowWarningMessage
                (localize env "force_function_install_npm_dependencies_error"
                   [message e]))
  | None => Async.ret tt
  end.

End WithEnv.

(** The three error messages of [nameVerification]. *)
Definition messages : list string :=
  [ message FunctionCreate.too_long; message FunctionCreate.bad_characters;
    message FunctionCreate.bad_start ].

(** The metadata type and the suffix that go with a language. *)
Definition handles (env : Env) (language metadataType sfx : string) : Prop :=
  (language = "javascript" /\ metadataType = FUNCTION_TYPE_JS env /\ sfx = ".js")
  \/ (language = "typescript" /\ metadataType = FUNCTION_TYPE_JS env /\ sfx = ".ts")
  \/ (language = "java" /\ metadataType = FUNCTION_TYPE_JAVA env /\ sfx = ".java").

(** The languages the gatherer offers. *)
Definition offered : list string :=
  [LANGUAGE_JAVA; LANGUAGE_JAVASCRIPT; LANGUAGE_TYPESCRIPT].

End ForceFunctionCreate.

(** ** Starting a source diff *)

Module DiffCommands.

(** [s.includes(sub)] *)
Fixpoint includes (sub s : string) : bool :=
  if Js.startsWith sub s then true
  else match s with
       | EmptyString => false
       | String _ rest => includes sub rest
       end.

(** The document of [vscode.window.activeTextEditor]. *)
Record TextDocument := mkTextDocument {
  languageId : string;
  fileName : string;
  uri : Uri
}.

(** The executor a commandlet is built with. *)
Inductive Executor :=
| ForceSourceDiffExecutor
| MetadataCacheExecutor (username executionName logName : string).

(** A Node [Buffer]: the bytes it holds. *)
Record Buffer := mkBuffer { bytes : list Byte.byte }.

(** What the spawned process emits: a chunk of its standard output, or its
    exit. *)
Inductive ProcessEvent :=
| StdoutData (realData : Buffer)
| ProcessExit (exitCode : option Z).

Section WithDiffer.
Context {Diffs : Type}.

(** The calls of the commands, in order; [Service] wraps the calls of
    [handleDiffResponse]. *)
Inductive Event :=
| Service (ev : SourceDiff.Event Diffs)
| RunCommandlet (filePath : Uri) (executor : Executor)
| Execute (command : SourceDiff.Command) (cwd : string)
| StreamCommandStartStop
| LogMetric (logName : option string)
| ReportCommandExecutionStatus
| ProgressShow
| AddCommandExecution.

(** The world around the commands. *)
Record Env := mkEnv {
  service : SourceDiff.Env Diffs;
  (** [vscode.window.activeTextEditor], its document *)
  activeTextEditor : option TextDocument;
  (** [workspaceContext.username] *)
  username : option string;
  getRootWorkspacePath : string
}.

Context (env : Env).

(** What both commands do when there is nothing they can diff. *)
Definition unsupported_type : Async.t Event unit :=
  let errorMessage :=
    SourceDiff.localize (service env) "force_source_diff_unsupported_type" [] in
  Async.emit (Service (SourceDiff.SendException "unsupported_type_on_diff" errorMessage)) ;;
  Async.emit (Service (SourceDiff.ShowErrorMessage errorMessage)) ;;
  Async.emit (Service (SourceDiff.AppendLine errorMessage)) ;;
  Async.emit (Service SourceDiff.ShowChannelOutput).

(** The test [forceSourceDiff] puts the active editor to. *)
Definition diffable (document : TextDocument) : bool :=
  String.eqb (languageId document) "apex"
  || String.eqb (languageId document) "visualforce"
  || includes "aura" (fileName document)
  || includes "lwc" (fileName document)
  || includes "permissionset-meta.xml" (fileName document)
  || includes "layout-meta.xml" (fileName document).

(** [forceSourceDiff] *)
Definition forceSourceDiff (sourceUri : option Uri) : Async.t Event unit :=
  let* sourceUri :=
    match sourceUri with
    | Some given => Async.ret (Some given)
    | None =>
        match activeTextEditor env with
        | Some document =>
            if diffable document then Async.ret (Some (uri document))
            else unsupported_type ;; Async.ret None
        | None => unsupported_type ;; Async.ret None
        end
    end in
  match sourceUri with
  | Some filePath => Async.emit (RunCommandlet filePath ForceSourceDiffExecutor)
  | None => Async.ret tt
  end.

(** [superSourceDiff] *)
Definition superSourceDiff (explorerPath : option Uri) : Async.t Event unit :=
  let* explorerPath :=
    match explorerPath with
    | Some given => Async.ret (Some given)
    | None =>
        match activeTextEditor env with
        | Some document =>
            if negb (String.eqb (languageId document) "forcesourcemanifest")
            then Async.ret (Some (uri document))
            else unsupported_type ;; Async.ret None
        | None => unsupported_type ;; Async.ret None
        end
    end in
  match explorerPath with
  | Some filePath =>
      if negb (Js.truthy (username env)) then
        Async.emit (Service (SourceDiff.ShowErrorMessage "No default org"))
      else
        Async.emit
          (RunCommandlet filePath
             (MetadataCacheExecutor (Js.interpolate (username env))
                "Source Diff" "source-diff-loader"))
  | None => Async.ret tt
  end.

(** [realData.toString()]: the text Node decodes the bytes of one chunk
    to. *)
Context (toString : Buffer -> string).

(** The two subscriptions of [ForceSourceDiffExecutor.execute] at work:
    a chunk is decoded, on its own, and appended to [stdOut]; an exit logs
    the metric and hands the exit code and the output so far to
    [handleDiffResponse]. *)
Fixpoint deliver (logName : option string) (stdOut : string)
    (events : list ProcessEvent) : list Event :=
  match events with
  | [] => []
  | StdoutData realData :: rest =>
      deliver logName (stdOut +:+ toString realData) rest
  | ProcessExit exitCode :: rest =>
      LogMetric logName
      :: (Service <$> Async.trace (SourceDiff.handleDiffResponse (service env) exitCode stdOut))
      ++ deliver logName stdOut rest
  end.

(** [ForceSourceDiffExecutor.execute] on [response.data], followed by what
    the process emits. *)
Definition execute (data : string) (events : list ProcessEvent) : list Event :=
  let command := SourceDiff.build (service env) data in
  Execute command (getRootWorkspacePath env)
  :: StreamCommandStartStop
  :: ReportCommandExecutionStatus
  :: ProgressShow
  :: AddCommandExecution
  :: deliver (SourceDiff.logName command) "" events.

End WithDiffer.
Arguments Event : clear implicits.
Arguments Env : clear implicits.

(** All the chunks of a list, put together. *)
Definition concat (chunks : list string) : string :=
  foldr String.append "" chunks.

(** A process event that is a chunk of output. *)
Definition is_output (ev : ProcessEvent) : Prop :=
  match ev with
  | StdoutData _ => True
  | ProcessExit _ => False
  end.

(** [text] contains [sub]. *)
Definition contains (sub text : string) : Prop :=
  exists before after, text = before +:+ sub +:+ after.

(** A document [forceSourceDiff] is meant for. *)
Definition eligible (document : TextDocument) : Prop :=
  languageId document = "apex"
  \/ languageId document = "visualforce"
  \/ contains "aura" (fileName document)
  \/ contains "lwc" (fileName document)
  \/ contains "permissionset-meta.xml" (fileName document)
  \/ contains "layout-meta.xml" (fileName document).

(** A trace that starts a commandlet. *)
Definition runs_commandlet {Diffs} (tr : list (Event Diffs)) : Prop :=
  exists filePath executor, RunCommandlet filePath executor ∈ tr.

End DiffCommands.

(** ** What a trace shows

    Readings of a trace that the properties beyond the specification are
    stated with. *)

Module Observations.

Section DiffTraces.
Context {Diffs : Type}.

(** The commands a trace hands to [vscode.commands.executeCommand], in
    order. *)
Definition commands (tr : list (SourceDiff.Event Diffs)) : list (string * list Arg) :=
  omap (fun ev =>
          match ev with
          | SourceDiff.ExecuteCommand cmd argv => Some (cmd, argv)
          | _ => None
          end) tr.

(** A trace that shows an error notification. *)
Definition notifies (tr : list (SourceDiff.Event Diffs)) : Prop :=
  exists msg, SourceDiff.ShowErrorMessage msg ∈ tr.

(** A trace that hands diffs to the conflict view. *)
Definition visualizes (tr : list (SourceDiff.Event Diffs)) : Prop :=
  exists title label reveal diffs,
    SourceDiff.VisualizeDifferences title label reveal diffs ∈ tr.

(** An event [diffOneFile] may leave: a command or a console line. *)
Definition command_or_log (ev : SourceDiff.Event Diffs) : Prop :=
  match ev with
  | SourceDiff.ExecuteCommand _ _ | SourceDiff.ConsoleLog _ => True
  | _ => False
  end.

End DiffTraces.

(** The call with which [ConfigUtil] opens the local config file. *)
Definition opened (env : ConfigUtil.Env) : ConfigUtil.Event :=
  ConfigUtil.ConfigFileCreate false
    (ConfigUtil.path_join env (ConfigUtil.getRootWorkspacePath env)
       (ConfigUtil.SF_STATE_FOLDER env))
    (ConfigUtil.SF_CONFIG_FILE env).

(** A trace of [ConfigUtil] that consults the configuration aggregator. *)
Definition consults_aggregator (tr : list ConfigUtil.Event) : Prop :=
  ConfigUtil.ConfigAggregatorCreate ∈ tr.

(** The commands an [OrgList] trace dispatches, in order. *)
Definition dispatches (tr : list OrgList.Event) : list (string * list Arg) :=
  omap (fun ev =>
          match ev with
          | OrgList.ExecuteCommand cmd argv => Some (cmd, argv)
          | _ => None
          end) tr.

(** An org that states neither a scratch admin username nor a Dev Hub
    username. *)
Definition unattached (env : OrgList.Env) (org : OrgAuthorization.t) : Prop :=
  ~ Spec.provided (AuthFields.scratchAdminUsername (Spec.fields_of env org))
  /\ ~ Spec.provided (AuthFields.devHubUsername (Spec.fields_of env org)).

#[global] Instance unattached_dec (env : OrgList.Env) (org : OrgAuthorization.t) :
  Decision (unattached env org).
Proof. unfold unattached. apply _. Defined.

(** The orgs [AuthInfo.listAllAuthorizations] lists; none when it rejects. *)
Definition listed (env : OrgList.Env) : list OrgAuthorization.t :=
  match OrgList.listAllAuthorizations env with
  | Returned orgs => orgs
  | Thrown _ => []
  end.

End Observations.

(** ** More sample worlds *)

Module Cases.

(** The world of [Sample.diff_env], except that the editor rejects every
    command. *)
Definition rejecting_env : SourceDiff.Env (string * string) :=
  SourceDiff.mkEnv
    (SourceDiff.localize Sample.diff_env)
    (SourceDiff.new_DiffResultParser Sample.diff_env)
    true (Some "dev")
    (fun _ _ => Thrown (new_Error "command 'vscode.diff' not found"))
    (SourceDiff.path_join Sample.diff_env)
    (SourceDiff.path_basename Sample.diff_env)
    (SourceDiff.differ_diff Sample.diff_env).

(** A file selection whose cache holds an empty array of components. *)
Definition empty_file_cache : SourceDiff.MetadataCacheResult :=
  SourceDiff.mkMetadataCacheResult "/ws/force-app/A.cls" false None
    (SourceDiff.mkMetadataContext "/tmp/cache" "force-app" (Some []))
    (SourceDiff.mkMetadataContext "/ws" "force-app" (Some [])).

(** A component none of whose files is the class file. *)
Definition other_component : SourceDiff.SourceComponent :=
  SourceDiff.mkSourceComponent
    ["/tmp/cache/force-app/B.cls"; "/tmp/cache/force-app/B.cls-meta.xml"].

(** The class component of [Sample.file_cache]. *)
Definition class_component : SourceDiff.SourceComponent :=
  SourceDiff.mkSourceComponent
    ["/tmp/cache/force-app/A.cls-meta.xml"; "/tmp/cache/force-app/A.cls"].

(** Three documents an editor may show. *)
Definition apex_document : DiffCommands.TextDocument :=
  DiffCommands.mkTextDocument "apex" "/ws/force-app/classes/A.cls"
    (Uri_file "/ws/force-app/classes/A.cls").

Definition lwc_document : DiffCommands.TextDocument :=
  DiffCommands.mkTextDocument "javascript" "/ws/force-app/lwc/hello/hello.js"
    (Uri_file "/ws/force-app/lwc/hello/hello.js").

Definition manifest_document : DiffCommands.TextDocument :=
  DiffCommands.mkTextDocument "forcesourcemanifest" "/ws/manifest/package.xml"
    (Uri_file "/ws/manifest/package.xml").

Definition readme_document : DiffCommands.TextDocument :=
  DiffCommands.mkTextDocument "markdown" "/ws/README.md" (Uri_file "/ws/README.md").

(** The world of [Sample.diff_env] with an editor and a default
    username. *)
Definition commands_env (editor : option DiffCommands.TextDocument)
    (user : option string) : DiffCommands.Env (string * string) :=
  DiffCommands.mkEnv Sample.diff_env editor user "/ws".

(** A world in which functions can be created: the dictionary knows both
    function types, the generator and the editor succeed, and the user
    picks the item at position [pick], if any. *)
Definition function_env (pick : option nat) : ForceFunctionCreate.Env :=
  ForceFunctionCreate.mkEnv
    (fun key _ => key)
    (fun items _ => match pick with Some i => items !! i | None => None end)
    "function_js" "function_java"
    (fun metadataType =>
       if String.eqb metadataType "function_js"
          || String.eqb metadataType "function_java"
       then Some (ForceFunctionCreate.mkMetadataInfo ""
                    (fun dir fileName ext => dir +:+ "/" +:+ fileName +:+ ext))
       else None)
    "/ws"
    (fun fileName language root =>
       Returned
         (ForceFunctionCreate.mkGeneratedFunction
            (root +:+ "/functions/" +:+ fileName) (Some "Welcome")))
    (fun file => Returned file)
    (fun p => p).

(** A buffer that holds the bytes of a text. *)
Definition buffer_of (text : string) : DiffCommands.Buffer :=
  DiffCommands.mkBuffer (list_byte_of_string text).

(** U+FFFD, which a decoder puts in the place of what it cannot decode. *)
Definition replacement : string := Js.fromCodePoint 65533.

(** What a byte begins when no sequence is open: a character of its own,
    a sequence of [needed] more bytes the first of which lies between
    [lower] and [upper], or nothing that is UTF-8. *)
Inductive Lead :=
| Single
| Sequence (needed : nat) (lower upper : N)
| Invalid.

Definition lead (b : Byte.byte) : Lead :=
  let n := Byte.to_N b in
  if (n <=? 127)%N then Single
  else if (194 <=? n)%N && (n <=? 223)%N then Sequence 1 128 191
  else if (224 <=? n)%N && (n <=? 239)%N then
    Sequence 2 (if (n =? 224)%N then 160%N else 128%N)
      (if (n =? 237)%N then 159%N else 191%N)
  else if (240 <=? n)%N && (n <=? 244)%N then
    Sequence 3 (if (n =? 240)%N then 144%N else 128%N)
      (if (n =? 244)%N then 143%N else 191%N)
  else Invalid.

Definition char (b : Byte.byte) : string := String (ascii_of_byte b) "".

(** UTF-8 decoding with [pending] the bytes of the open sequence, if any,
    which wants [needed] more bytes: a sequence that is cut short or
    continued by a byte out of range becomes U+FFFD, and that byte is
    looked at again with no sequence open. *)
Fixpoint decode (pending : string) (needed : nat) (lower upper : N)
    (input : list Byte.byte) : string :=
  match input with
  | [] => match needed with O => "" | S _ => replacement end
  | b :: rest =>
      let afresh :=
        match lead b with
        | Single => char b +:+ decode "" 0 128 191 rest
        | Sequence more lo up => decode (char b) more lo up rest
        | Invalid => replacement +:+ decode "" 0 128 191 rest
        end in
      match needed with
      | O => afresh
      | S more =>
          if (lower <=? Byte.to_N b)%N && (Byte.to_N b <=? upper)%N then
            match more with
            | O => pending +:+ char b +:+ decode "" 0 128 191 rest
            | S _ => decode (pending +:+ char b) more 128 191 rest
            end
          else replacement +:+ afresh
      end
  end.

(** A [toString] for the sample worlds: UTF-8 decoding, with U+FFFD for
    what is not UTF-8. *)
Definition utf8_toString (realData : DiffCommands.Buffer) : string :=
  decode "" 0 128 191 (DiffCommands.bytes realData).

(** The org picker of the three sample orgs when the authorization of
    [old@example.com] can no longer be read: [AuthInfo.create] rejects for
    it, and every other call resolves. *)
Definition stale_picker_env : OrgListAwaits.Env :=
  let world :=
    OrgListAwaits.resolving
      (Sample.picker_env Sample.three_orgs Sample.three_fields true (Some 0%nat)) in
  OrgListAwaits.mkEnv
    (OrgListAwaits.localize world)
    (OrgListAwaits.listAllAuthorizations world)
    (fun username =>
       if String.eqb username "old@example.com"
       then Thrown (mkError "NamedOrgNotFoundError"
                      "No authorization information found for old@example.com.")
       else OrgListAwaits.AuthInfo_create world username)
    (OrgListAwaits.hasRootWorkspace world)
    (OrgListAwaits.getDefaultDevHubUsernameOrAlias world)
    (OrgListAwaits.getUsername world)
    (OrgListAwaits.now world)
    (OrgListAwaits.Date_parse world)
    (OrgListAwaits.showQuickPick world).

(** An org whose expiration date cannot be read. *)
Definition undated_fields : AuthFields.t := AuthFields.mk None None (Some "soon").

End Cases.

(** ** Properties *)

(** Refutes a membership [H : ev ∈ tr] in an explicit trace [tr] none of
    whose events is [ev]. *)
Ltac absent_from_trace H :=
  repeat (apply elem_of_cons in H as [H | H]; [discriminate |]);
  now apply elem_of_nil in H.

(** *** Asynchronous computations *)

Section AsyncLaws.
Context {E A B C : Type}.

Lemma bind_ret_l (a : A) (k : A -> Async.t E B) :
  Async.bind (Async.ret a) k = k a.
Proof. unfold Async.bind, Async.ret. now destruct (k a). Qed.

Lemma bind_ret_r (m : Async.t E A) : Async.bind m Async.ret = m.
Proof.
  destruct m as [[a | e] tr]; cbn; [| reflexivity]. now rewrite app_nil_r.
Qed.

Lemma bind_assoc (m : Async.t E A) (k : A -> Async.t E B) (h : B -> Async.t E C) :
  Async.bind (Async.bind m k) h = Async.bind m (fun a => Async.bind (k a) h).
Proof.
  destruct m as [[a | e] tr]; cbn; [| reflexivity].
  destruct (k a) as [[b | e] tr']; cbn; [| reflexivity].
  destruct (h b) as [o tr'']. now rewrite app_assoc.
Qed.

Lemma bind_throw (e : Error) (k : A -> Async.t E B) :
  Async.bind (Async.throw e) k = Async.throw e.
Proof. reflexivity. Qed.

(** A [catch] block only runs when the [try] block throws, and then sees
    what the [try] block had done so far. *)
Lemma try_catch_returned (m : Async.t E A) (handler : Error -> Async.t E A) (a : A) :
  Async.outcome m = Returned a -> Async.try_catch m handler = m.
Proof. destruct m as [[a' | e] tr]; cbn; [reflexivity | discriminate]. Qed.

Lemma try_catch_thrown (m : Async.t E A) (handler : Error -> Async.t E A) (e : Error) :
  Async.outcome m = Thrown e ->
  Async.try_catch m handler
  = (Async.outcome (handler e), Async.trace m ++ Async.trace (handler e)).
Proof.
  destruct m as [[a | e'] tr]; cbn; [discriminate |].
  intros [= ->]. now destruct (handler e).
Qed.

Lemma outcome_bind (m : Async.t E A) (k : A -> Async.t E B) (a : A) :
  Async.outcome m = Returned a ->
  Async.outcome (Async.bind m k) = Async.outcome (k a).
Proof.
  destruct m as [[a' | e] tr]; cbn; [| discriminate].
  intros [= ->]. now destruct (k a).
Qed.

End AsyncLaws.

(** *** JavaScript strings *)

Lemma truthy_provided (v : option string) :
  Js.truthy v = true <-> Spec.provided v.
Proof.
  unfold Spec.provided. split.
  - destruct v as [[|c s]|]; simpl; try discriminate.
    intros _. exists (String c s). split; [reflexivity | discriminate].
  - intros (s & -> & Hne). destruct s; [contradiction | reflexivity].
Qed.

Lemma truthy_false (v : option string) :
  Js.truthy v = false <-> v = None \/ v = Some "".
Proof.
  split.
  - destruct v as [[|c s]|]; simpl; auto; discriminate.
  - intros [-> | ->]; reflexivity.
Qed.

Lemma or_else_provided (a b : option string) :
  Spec.provided a -> Js.or_else a b = a.
Proof.
  intros H. unfold Js.or_else. apply truthy_provided in H. now rewrite H.
Qed.

Lemma or_else_absent (a b : option string) :
  ~ Spec.provided a -> Js.or_else a b = b.
Proof.
  intros H. unfold Js.or_else.
  destruct (Js.truthy a) eqn:E; [|reflexivity].
  apply truthy_provided in E. contradiction.
Qed.

Lemma is_lower_spec (c : ascii) : Js.is_lower c = true <-> Spec.lowercase c.
Proof.
  unfold Js.is_lower, Spec.lowercase.
  rewrite andb_true_iff, !Nat.leb_le. tauto.
Qed.

Lemma is_digit_spec (c : ascii) : Js.is_digit c = true <-> Spec.digit c.
Proof.
  unfold Js.is_digit, Spec.digit.
  rewrite andb_true_iff, !Nat.leb_le. tauto.
Qed.

Lemma forall_chars_spec (p : ascii -> bool) (P : ascii -> Prop) (s : string) :
  (forall c, p c = true <-> P c) ->
  Js.forall_chars p s = true <-> Spec.all_chars P s.
Proof.
  intros Hp. induction s as [|c s IH]; simpl.
  - tauto.
  - rewrite andb_true_iff, Hp, IH. tauto.
Qed.

(** An ASCII byte is one UTF-16 code unit, so on the names
    [nameVerification] accepts [.length] is the number of bytes. *)
Lemma js_length_ascii (s : string) :
  Spec.all_chars (fun c => (nat_of_ascii c < 128)%nat) s ->
  Js.js_length s = String.length s.
Proof.
  induction s as [|c s IH]; simpl; [reflexivity|].
  intros [Hc Hs]. rewrite IH by assumption.
  unfold Js.units_of_byte.
  destruct (Nat.ltb_spec (nat_of_ascii c) 128); [reflexivity | lia].
Qed.

(** *** Function names *)

Lemma functionNameRegex_test_spec (value : string) :
  FunctionCreate.functionNameRegex_test value = true
  <-> value <> "" /\ Spec.only_lowercase_and_digits value.
Proof.
  unfold FunctionCreate.functionNameRegex_test, Spec.only_lowercase_and_digits.
  destruct value as [|c s].
  - split; [discriminate | intros [H _]; now elim H].
  - rewrite (forall_chars_spec _ (fun c => Spec.lowercase c \/ Spec.digit c)).
    + split; [intros H; split; [discriminate | exact H] | intros [_ H]; exact H].
    + intros c'. rewrite orb_true_iff, is_lower_spec, is_digit_spec. tauto.
Qed.

Lemma functionNameStartRegex_test_spec (value : string) :
  FunctionCreate.functionNameStartRegex_test value = true
  <-> Spec.starts_with_lowercase value.
Proof.
  unfold FunctionCreate.functionNameStartRegex_test, Spec.starts_with_lowercase.
  destruct value as [|c s].
  - split; [discriminate | intros (c & rest & H & _); discriminate].
  - rewrite is_lower_spec. split.
    + intros H. exists c, s. auto.
    + intros (c' & rest & [= -> ->] & H). exact H.
Qed.

Lemma starts_with_lowercase_nonempty (value : string) :
  Spec.starts_with_lowercase value -> value <> "".
Proof. intros (c & rest & -> & _). discriminate. Qed.

(** C9.  [nameVerification] returns the empty string exactly for the names
    of at most 47 characters that start with a lowercase letter and consist
    of lowercase letters and digits only.  Every other input, the empty
    string among them, makes it throw: the length error when the name is
    too long, else the character-set error when the name is empty or holds
    another character, else the must-start-with-a-letter error. *)
Theorem nameVerification_spec (value : string) :
  (FunctionCreate.nameVerification value = Returned ""
   <-> Spec.acceptable_name value)
  /\ (~ Spec.acceptable_name value ->
      exists e, FunctionCreate.nameVerification value = Thrown e)
  /\ FunctionCreate.nameVerification "" = Thrown FunctionCreate.bad_characters
  /\ ((47 < Js.js_length value)%nat ->
      FunctionCreate.nameVerification value = Thrown FunctionCreate.too_long)
  /\ ((Js.js_length value <= 47)%nat ->
      ~ (value <> "" /\ Spec.only_lowercase_and_digits value) ->
      FunctionCreate.nameVerification value = Thrown FunctionCreate.bad_characters)
  /\ ((Js.js_length value <= 47)%nat ->
      value <> "" /\ Spec.only_lowercase_and_digits value ->
      ~ Spec.starts_with_lowercase value ->
      FunctionCreate.nameVerification value = Thrown FunctionCreate.bad_start).
Proof.
  unfold FunctionCreate.nameVerification, Spec.acceptable_name.
  pose proof (functionNameRegex_test_spec value) as Hre.
  pose proof (functionNameStartRegex_test_spec value) as Hst.
  pose proof (starts_with_lowercase_nonempty value) as Hne.
  destruct (Nat.ltb_spec 47 (Js.js_length value)) as [Hlen | Hlen];
    destruct (FunctionCreate.functionNameRegex_test value) eqn:Ere;
    destruct (FunctionCreate.functionNameStartRegex_test value) eqn:Est;
    simpl;
    repeat split;
    try discriminate; try reflexivity; try lia; eauto;
    try (intros; exfalso; intuition (lia || congruence || eauto); fail);
    try (intros; intuition (lia || congruence || eauto); fail).
Qed.

(** A name the function accepts, and one for each way of refusing. *)
Lemma nameVerification_spec_witness :
  FunctionCreate.nameVerification "hello42" = Returned ""
  /\ FunctionCreate.nameVerification "42hello" = Thrown FunctionCreate.bad_start
  /\ FunctionCreate.nameVerification "Hello" = Thrown FunctionCreate.bad_characters.
Proof.
  split; [| split].
  - apply (proj1 (nameVerification_spec "hello42")).
    unfold Spec.acceptable_name. split; [vm_compute; lia |]. split.
    + exists "h"%char, "ello42". split; [reflexivity |].
      vm_compute. lia.
    + vm_compute. repeat split; lia.
  - apply (proj2 (proj2 (proj2 (proj2 (proj2 (nameVerification_spec "42hello")))))).
    + vm_compute. lia.
    + split; [discriminate |]. vm_compute. repeat split; lia.
    + intros (c & rest & [= <- <-] & H). vm_compute in H. lia.
  - apply (proj1 (proj2 (proj2 (proj2 (proj2 (nameVerification_spec "Hello")))))).
    + vm_compute. lia.
    + intros [_ H]. vm_compute in H. lia.
Defined.

(** *** The source-diff command *)

Section SourceDiffProperties.
Context {Diffs : Type} (env : SourceDiff.Env Diffs).

Lemma build_args (filePath : string) :
  SourceDiff.args (SourceDiff.build env filePath)
  = ["force:source:diff"; "--sourcepath"; filePath; "--json"; "--loglevel"; "fatal"].
Proof. reflexivity. Qed.

(** C2.  For every file path the command [build] returns runs the [sfdx]
    tool with the argument [force:source:diff], hands exactly that path to
    the flag [--sourcepath], and asks for JSON output. *)
Theorem build_force_source_diff (filePath : string) :
  SourceDiff.command (SourceDiff.build env filePath) = "sfdx"
  /\ head (SourceDiff.args (SourceDiff.build env filePath)) = Some "force:source:diff"
  /\ SourceDiff.flag_value "--sourcepath" (SourceDiff.args (SourceDiff.build env filePath))
     = Some filePath
  /\ SourceDiff.JSON_FLAG ∈ SourceDiff.args (SourceDiff.build env filePath)
  /\ SourceDiff.logName (SourceDiff.build env filePath) = Some "force_source_diff".
Proof.
  rewrite build_args. repeat split; try reflexivity.
  unfold SourceDiff.JSON_FLAG. set_solver.
Qed.





(** [diffOneFile] opens the diff view on the first content path that ends
    with the base name of the local file, and looks no further. *)
Lemma diffOneFile_loop_first_match (localFile filePart : string)
    (before after : list string) (filePath : string) :
  Forall (fun p => Js.endsWith p filePart = false) before ->
  Js.endsWith filePath filePart = true ->
  exists logged,
    SourceDiff.diffOneFile_loop env localFile filePart (before ++ filePath :: after)
    = (Returned tt,
       SourceDiff.ExecuteCommand "vscode.diff"
         [ AUri (Uri_file filePath); AUri (Uri_file localFile);
           AString "Source File Diff ( Local File / Org File )" ] :: logged)
    /\ (logged = [] \/ exists line, logged = [SourceDiff.ConsoleLog line]).
Proof.
  intros Hbefore Hmatch. induction Hbefore as [|p before Hp _ IH].
  - cbn. rewrite Hmatch.
    destruct (SourceDiff.executeCommand env "vscode.diff" _) as [[]|e]; cbn.
    + exists []. auto.
    + eexists. split; [reflexivity |]. right. eexists. reflexivity.
  - cbn. rewrite Hp. exact IH.
Qed.

Lemma diffOneFile_loop_no_match (localFile filePart : string) (content : list string) :
  Forall (fun p => Js.endsWith p filePart = false) content ->
  SourceDiff.diffOneFile_loop env localFile filePart content = (Returned tt, []).
Proof.
  induction 1 as [|p content Hp _ IH]; cbn; [reflexivity |].
  now rewrite Hp.
Qed.

(** C6.  [handleCacheResults] by the kind of selection.  For a directory
    it runs the directory differ on the project's base directory joined
    with its common root against the cache's base directory joined with its
    common root, and hands the diffs to the conflict view.  For a single
    file whose cache has components it diffs the file against the first
    component.  Without a cache result it shows the error notification that
    the selected components are not available in the org. *)
Theorem handleCacheResults_cases :
  (forall c,
     SourceDiff.selectedIsDirectory c = true ->
     SourceDiff.handleCacheResults env (Some c)
     = (Returned tt,
        [ SourceDiff.ConsoleLog
            ("PROF-FILE: " +:+ Js.interpolate (SourceDiff.cachePropPath c));
          SourceDiff.VisualizeDifferences "PDTDevHub2 - File Diffs" "PDTDevHub2" true
            (SourceDiff.differ_diff env
               (SourceDiff.path_join env
                  (SourceDiff.baseDirectory (SourceDiff.project c))
                  (SourceDiff.commonRoot (SourceDiff.project c)))
               (SourceDiff.path_join env
                  (SourceDiff.baseDirectory (SourceDiff.cache c))
                  (SourceDiff.commonRoot (SourceDiff.cache c)))) ]))
  /\ (forall c first others,
        SourceDiff.selectedIsDirectory c = false ->
        SourceDiff.components (SourceDiff.cache c) = Some (first :: others) ->
        SourceDiff.handleCacheResults env (Some c)
        = (Async.emit
             (SourceDiff.ConsoleLog
                ("PROF-FILE: " +:+ Js.interpolate (SourceDiff.cachePropPath c))) ;;
           SourceDiff.diffOneFile env (SourceDiff.selectedPath c) (Some first))
        /\ forall before filePath after,
            SourceDiff.walkContent first = before ++ filePath :: after ->
            Forall (fun p =>
                      Js.endsWith p
                        (SourceDiff.path_basename env (SourceDiff.selectedPath c))
                      = false) before ->
            Js.endsWith filePath
              (SourceDiff.path_basename env (SourceDiff.selectedPath c)) = true ->
            exists logged,
              SourceDiff.handleCacheResults env (Some c)
              = (Returned tt,
                 SourceDiff.ConsoleLog
                   ("PROF-FILE: " +:+ Js.interpolate (SourceDiff.cachePropPath c))
                 :: SourceDiff.ExecuteCommand "vscode.diff"
                      [ AUri (Uri_file filePath);
                        AUri (Uri_file (SourceDiff.selectedPath c));
                        AString "Source File Diff ( Local File / Org File )" ]
                 :: logged)
              /\ (logged = [] \/ exists line, logged = [SourceDiff.ConsoleLog line]))
  /\ SourceDiff.handleCacheResults env None
     = (Returned tt,
        [ SourceDiff.ShowErrorMessage
            "Selected components are not available in the org" ]).
Proof.
  split; [| split].
  - intros c Hdir. unfold SourceDiff.handleCacheResults. now rewrite Hdir.
  - intros c first others Hdir Hcomps.
    assert (Hcall :
      SourceDiff.handleCacheResults env (Some c)
      = (Async.emit
           (SourceDiff.ConsoleLog
              ("PROF-FILE: " +:+ Js.interpolate (SourceDiff.cachePropPath c))) ;;
         SourceDiff.diffOneFile env (SourceDiff.selectedPath c) (Some first))).
    { unfold SourceDiff.handleCacheResults. now rewrite Hdir, Hcomps. }
    split; [exact Hcall |].
    intros before filePath after Hwalk Hbefore Hmatch.
    destruct (diffOneFile_loop_first_match (SourceDiff.selectedPath c) _
                before after filePath Hbefore Hmatch) as (logged & Hloop & Hlogged).
    exists logged. split; [| exact Hlogged].
    rewrite Hcall. unfold SourceDiff.diffOneFile. rewrite Hwalk, Hloop.
    reflexivity.
  - reflexivity.
Qed.

End SourceDiffProperties.

(** *** Configuration lookup *)

Section ConfigUtilProperties.
Context (env : ConfigUtil.Env).

Lemma isNullOrUndefined_false (v : ConfigUtil.ConfigValue) :
  ConfigUtil.isNullOrUndefined v = false
  <-> exists j, v = Some j /\ j <> ConfigUtil.JNull.
Proof.
  split.
  - destruct v as [j|]; [| discriminate].
    destruct j; try discriminate; intros _; eexists; split;
      try reflexivity; discriminate.
  - intros (j & -> & Hj). destruct j; try reflexivity. contradiction.
Qed.

Lemma yields_value_usable (o : Outcome ConfigUtil.ConfigValue) :
  ConfigUtil.yields_value o
  <-> ConfigUtil.isNullOrUndefined (Spec.usable o) = false.
Proof.
  unfold ConfigUtil.yields_value, Spec.usable. rewrite isNullOrUndefined_false.
  destruct o as [v|e].
  - destruct (ConfigUtil.isNullOrUndefined v) eqn:E.
    + split.
      * intros (j & [= ->] & Hj).
        assert (ConfigUtil.isNullOrUndefined (Some j) = false) as E'
          by (apply isNullOrUndefined_false; eauto).
        congruence.
      * intros (j & [=] & _).
    + split.
      * intros (j & [= ->] & Hj). eauto.
      * intros (j & -> & Hj). eauto.
  - split; [intros (j & [=] & _) | intros (j & [=] & _)].
Qed.

Lemma yields_value_dec (o : Outcome ConfigUtil.ConfigValue) :
  ConfigUtil.yields_value o \/ ~ ConfigUtil.yields_value o.
Proof.
  rewrite yields_value_usable.
  destruct (ConfigUtil.isNullOrUndefined (Spec.usable o)); auto.
Qed.

(** Asked for the local source only, [getSfConfigValue] answers with what
    the local lookup yields, and with [undefined] when it yields nothing. *)
Lemma getSfConfigValue_Local (key : string) :
  Async.outcome (ConfigUtil.getSfConfigValue env key (Some ConfigSource.Local))
  = Returned (Spec.usable (ConfigUtil.local_lookup env key)).
Proof.
  unfold ConfigUtil.getSfConfigValue, ConfigUtil.local_lookup, Spec.usable.
  cbn.
  destruct (ConfigUtil.ConfigFile_create env false _ _) as [contents|e]; cbn;
    [| reflexivity].
  destruct (ConfigUtil.isNullOrUndefined (contents !! key)); reflexivity.
Qed.

(** Likewise for the global source and the configuration aggregator. *)
Lemma getSfConfigValue_Global (key : string) :
  Async.outcome (ConfigUtil.getSfConfigValue env key (Some ConfigSource.Global))
  = Returned (Spec.usable (ConfigUtil.global_lookup env key)).
Proof.
  unfold ConfigUtil.getSfConfigValue, ConfigUtil.global_lookup, Spec.usable.
  cbn.
  destruct (ConfigUtil.ConfigAggregator_create env) as [aggregator|e]; cbn;
    [| reflexivity].
  destruct (ConfigUtil.getPropertyValue aggregator key) as [v|e]; cbn;
    [| reflexivity].
  destruct (ConfigUtil.isNullOrUndefined v); reflexivity.
Qed.

Lemma getConfigSource_outcome (key : string) :
  Async.outcome (ConfigUtil.getConfigSource env key)
  = Returned
      (if negb (ConfigUtil.isNullOrUndefined
                  (Spec.usable (ConfigUtil.local_lookup env key)))
       then ConfigSource.Local
       else if negb (ConfigUtil.isNullOrUndefined
                       (Spec.usable (ConfigUtil.global_lookup env key)))
            then ConfigSource.Global
            else ConfigSource.None).
Proof.
  unfold ConfigUtil.getConfigSource.
  rewrite (outcome_bind _ _ _ (getSfConfigValue_Local key)).
  destruct (ConfigUtil.isNullOrUndefined
              (Spec.usable (ConfigUtil.local_lookup env key))); cbn;
    [| reflexivity].
  rewrite (outcome_bind _ _ _ (getSfConfigValue_Global key)).
  destruct (ConfigUtil.isNullOrUndefined
              (Spec.usable (ConfigUtil.global_lookup env key))); reflexivity.
Qed.

(** C3.  For every key, [getConfigSource] returns [Local] exactly when the
    local workspace config lookup yields a value that is neither [null] nor
    [undefined]; otherwise [Global] exactly when the global configuration
    aggregator yields such a value; and [None] when neither does.  The
    local source therefore takes precedence over the global one. *)
Theorem getConfigSource_spec (key : string) :
  (Async.outcome (ConfigUtil.getConfigSource env key) = Returned ConfigSource.Local
   <-> ConfigUtil.yields_value (ConfigUtil.local_lookup env key))
  /\ (Async.outcome (ConfigUtil.getConfigSource env key) = Returned ConfigSource.Global
      <-> ~ ConfigUtil.yields_value (ConfigUtil.local_lookup env key)
          /\ ConfigUtil.yields_value (ConfigUtil.global_lookup env key))
  /\ (Async.outcome (ConfigUtil.getConfigSource env key) = Returned ConfigSource.None
      <-> ~ ConfigUtil.yields_value (ConfigUtil.local_lookup env key)
          /\ ~ ConfigUtil.yields_value (ConfigUtil.global_lookup env key)).
Proof.
  rewrite getConfigSource_outcome, !yields_value_usable.
  destruct (ConfigUtil.isNullOrUndefined
              (Spec.usable (ConfigUtil.local_lookup env key)));
    destruct (ConfigUtil.isNullOrUndefined
                (Spec.usable (ConfigUtil.global_lookup env key)));
    cbn; repeat split; try discriminate; try reflexivity; try congruence;
    intuition congruence.
Qed.

(** C8.  [getConfigValue] and [getSfConfigValue] are the same function: for
    every key and every source argument, given or omitted, they make the
    same calls in the same order and end with the same result; in
    particular both answer [undefined] when the lookup they attempt
    throws. *)
Theorem getConfigValue_getSfConfigValue (key : string)
    (source : option ConfigSource.t) :
  ConfigUtil.getConfigValue env key source = ConfigUtil.getSfConfigValue env key source
  /\ Async.trace (ConfigUtil.getConfigValue env key source)
     = Async.trace (ConfigUtil.getSfConfigValue env key source)
  /\ Async.outcome (ConfigUtil.getConfigValue env key source)
     = Async.outcome (ConfigUtil.getSfConfigValue env key source)
  /\ (forall e,
        source <> Some ConfigSource.Global ->
        source <> Some ConfigSource.None ->
        ConfigUtil.local_lookup env key = Thrown e ->
        Async.outcome (ConfigUtil.getConfigValue env key source) = Returned None
        /\ Async.outcome (ConfigUtil.getSfConfigValue env key source) = Returned None)
  /\ (forall e,
        source = Some ConfigSource.Global ->
        ConfigUtil.global_lookup env key = Thrown e ->
        Async.outcome (ConfigUtil.getConfigValue env key source) = Returned None
        /\ Async.outcome (ConfigUtil.getSfConfigValue env key source) = Returned None).
Proof.
  assert (Heq : ConfigUtil.getConfigValue env key source
                = ConfigUtil.getSfConfigValue env key source) by reflexivity.
  rewrite Heq. repeat split; try reflexivity.
  - destruct source as [[]|]; try contradiction;
      unfold ConfigUtil.local_lookup in *; unfold ConfigUtil.getSfConfigValue; cbn;
      destruct (ConfigUtil.ConfigFile_create env false _ _); try discriminate;
      reflexivity.
  - destruct source as [[]|]; try contradiction;
      unfold ConfigUtil.local_lookup in *; unfold ConfigUtil.getSfConfigValue; cbn;
      destruct (ConfigUtil.ConfigFile_create env false _ _); try discriminate;
      reflexivity.
  - subst source. unfold ConfigUtil.global_lookup in *.
    unfold ConfigUtil.getSfConfigValue; cbn.
    destruct (ConfigUtil.ConfigAggregator_create env) as [aggregator|]; cbn;
      [| reflexivity].
    destruct (ConfigUtil.getPropertyValue aggregator key); try discriminate.
    reflexivity.
  - subst source. unfold ConfigUtil.global_lookup in *.
    unfold ConfigUtil.getSfConfigValue; cbn.
    destruct (ConfigUtil.ConfigAggregator_create env) as [aggregator|]; cbn;
      [| reflexivity].
    destruct (ConfigUtil.getPropertyValue aggregator key); try discriminate.
    reflexivity.
Qed.

End ConfigUtilProperties.

(** *** The org picker *)

Section OrgListProperties.
Context (env : OrgList.Env).

Lemma displayDefaultUsername_provided (this : OrgList.t) (identifier : string) :
  identifier <> "" ->
  StatusBarItem.text
    (OrgList.statusBarItem (OrgList.displayDefaultUsername env this (Some identifier)))
  = "$(plug) " +:+ identifier.
Proof.
  intros Hne. unfold OrgList.displayDefaultUsername.
  destruct identifier; [contradiction | reflexivity].
Qed.

Lemma displayDefaultUsername_absent (this : OrgList.t) (identifier : option string) :
  identifier = None \/ identifier = Some "" ->
  StatusBarItem.text
    (OrgList.statusBarItem (OrgList.displayDefaultUsername env this identifier))
  = OrgList.localize env "missing_default_org".
Proof. intros [-> | ->]; reflexivity. Qed.

(** C5.  On every org-change event and at construction the status bar
    item shows the alias of the org whenever the alias is a non-empty
    defined string, and otherwise what [displayDefaultUsername] makes of
    the username; [displayDefaultUsername] sets the text to ["$(plug) "]
    followed by the identifier it is given, and to the localized
    missing-default-org text when the identifier is absent or empty. *)
Theorem status_bar_text (this : OrgList.t) (orgInfo : OrgInfo.t)
    (identifier : option string) :
  (forall alias,
     OrgInfo.alias orgInfo = Some alias -> alias <> "" ->
     StatusBarItem.text (OrgList.statusBarItem (OrgList.onOrgChange env this orgInfo))
     = "$(plug) " +:+ alias
     /\ StatusBarItem.text (OrgList.statusBarItem (OrgList.constructor env orgInfo))
        = "$(plug) " +:+ alias)
  /\ (~ Spec.provided (OrgInfo.alias orgInfo) ->
      forall username,
        OrgInfo.username orgInfo = Some username -> username <> "" ->
        StatusBarItem.text (OrgList.statusBarItem (OrgList.onOrgChange env this orgInfo))
        = "$(plug) " +:+ username
        /\ StatusBarItem.text (OrgList.statusBarItem (OrgList.constructor env orgInfo))
           = "$(plug) " +:+ username)
  /\ (~ Spec.provided (OrgInfo.alias orgInfo) ->
      ~ Spec.provided (OrgInfo.username orgInfo) ->
      StatusBarItem.text (OrgList.statusBarItem (OrgList.onOrgChange env this orgInfo))
      = OrgList.localize env "missing_default_org"
      /\ StatusBarItem.text (OrgList.statusBarItem (OrgList.constructor env orgInfo))
         = OrgList.localize env "missing_default_org")
  /\ (forall given,
        identifier = Some given -> given <> "" ->
        StatusBarItem.text
          (OrgList.statusBarItem (OrgList.displayDefaultUsername env this identifier))
        = "$(plug) " +:+ given)
  /\ (identifier = None \/ identifier = Some "" ->
      StatusBarItem.text
        (OrgList.statusBarItem (OrgList.displayDefaultUsername env this identifier))
      = OrgList.localize env "missing_default_org").
Proof.
  repeat apply conj.
  - intros alias Halias Hne.
    assert (Hp : Spec.provided (OrgInfo.alias orgInfo)) by (exists alias; auto).
    unfold OrgList.onOrgChange, OrgList.constructor.
    rewrite (or_else_provided _ _ Hp), Halias.
    split; now apply displayDefaultUsername_provided.
  - intros Hno username Husername Hne.
    unfold OrgList.onOrgChange, OrgList.constructor.
    rewrite (or_else_absent _ _ Hno), Husername.
    split; now apply displayDefaultUsername_provided.
  - intros Hno Hnone.
    unfold OrgList.onOrgChange, OrgList.constructor.
    rewrite (or_else_absent _ _ Hno).
    assert (Habsent : OrgInfo.username orgInfo = None
                      \/ OrgInfo.username orgInfo = Some "").
    { apply truthy_false. destruct (Js.truthy (OrgInfo.username orgInfo)) eqn:E;
        [| reflexivity]. apply truthy_provided in E. contradiction. }
    split; now apply displayDefaultUsername_absent.
  - intros given -> Hne. now apply displayDefaultUsername_provided.
  - apply displayDefaultUsername_absent.
Qed.

(** The code's test for an expired org is the specification's. *)
Lemma today_ge_expired_iff (org : OrgAuthorization.t) :
  match AuthFields.expirationDate (Spec.fields_of env org) with
  | Some text =>
      if Js.truthy (Some text) then OrgList.today_ge env (OrgList.now env) text
      else false
  | None => false
  end = true <-> Spec.expired env org.
Proof.
  unfold Spec.expired, Spec.expiry_time, OrgList.today_ge.
  destruct (AuthFields.expirationDate (Spec.fields_of env org)) as [text|].
  - destruct text as [|c text]; cbn.
    + split; [discriminate | intros (t & [=] & _)].
    + destruct (OrgList.Date_parse env (String c text)) as [time|].
      * destruct (Z.geb_spec (OrgList.now env) time) as [Hge | Hlt].
        -- split; [| reflexivity]. intros _. exists time. split; [reflexivity | lia].
        -- split; [discriminate |]. intros (t & [= <-] & Hle). lia.
      * split; [discriminate | intros (t & [=] & _)].
  - split; [discriminate | intros (t & [=] & _)].
Qed.

Lemma today_ge_expired (org : OrgAuthorization.t) :
  match AuthFields.expirationDate (Spec.fields_of env org) with
  | Some text =>
      if Js.truthy (Some text) then OrgList.today_ge env (OrgList.now env) text
      else false
  | None => false
  end = bool_decide (Spec.expired env org).
Proof.
  pose proof (today_ge_expired_iff org) as H.
  destruct (match AuthFields.expirationDate (Spec.fields_of env org) with
            | Some text => _ | None => _ end).
  - symmetry. apply bool_decide_eq_true. now apply H.
  - symmetry. apply bool_decide_eq_false. intros Hex. apply H in Hex. discriminate.
Qed.

(** One round of the loop of [filterAuthInfo] skips exactly the excluded
    orgs and turns every other org into its entry. *)
Lemma authListItem_of_spec (org : OrgAuthorization.t) :
  OrgList.authListItem_of env (OrgList.defaultDevHubUsername env) (OrgList.now env) org
  = if decide (Spec.excluded env org) then None else Some (Spec.entry env org).
Proof.
  unfold OrgList.authListItem_of.
  change (OrgList.AuthInfo_getFields env (OrgAuthorization.username org))
    with (Spec.fields_of env org).
  rewrite today_ge_expired.
  assert (Hentry :
    Some
      (if bool_decide (Spec.expired env org)
       then match OrgAuthorization.aliases org with
            | Some ((_ :: _) as names) =>
                Js.array_toString names +:+ " - " +:+ OrgAuthorization.username org
            | _ => OrgAuthorization.username org
            end +:+ OrgList.expired_marker env
       else match OrgAuthorization.aliases org with
            | Some ((_ :: _) as names) =>
                Js.array_toString names +:+ " - " +:+ OrgAuthorization.username org
            | _ => OrgAuthorization.username org
            end)
    = Some (Spec.entry env org)).
  { unfold Spec.entry, Spec.identification.
    destruct (OrgAuthorization.aliases org) as [[|a names]|];
      case_bool_decide; destruct (decide (Spec.expired env org));
      try contradiction; reflexivity. }
  cbv zeta. rewrite Hentry. clear Hentry.
  unfold Spec.excluded.
  destruct (Js.truthy (AuthFields.scratchAdminUsername (Spec.fields_of env org)))
    eqn:Escratch.
  { apply truthy_provided in Escratch.
    destruct (decide _) as [_ | Hno]; [reflexivity | exfalso; apply Hno; auto]. }
  assert (Hscratch :
    ~ Spec.provided (AuthFields.scratchAdminUsername (Spec.fields_of env org))).
  { intros H. apply truthy_provided in H. congruence. }
  destruct (Js.truthy (AuthFields.devHubUsername (Spec.fields_of env org)))
    eqn:Ehub; cbn [andb].
  - apply truthy_provided in Ehub.
    destruct (decide (AuthFields.devHubUsername (Spec.fields_of env org)
                      = OrgList.defaultDevHubUsername env)) as [Heq | Hne].
    + rewrite (bool_decide_eq_true_2 _ Heq). cbn [negb].
      destruct (decide _) as [[H | [_ H]] | _]; try contradiction; reflexivity.
    + rewrite (bool_decide_eq_false_2 _ Hne). cbn [negb].
      destruct (decide _) as [_ | Hno]; [reflexivity | exfalso; apply Hno; auto].
  - assert (Hhub :
      ~ Spec.provided (AuthFields.devHubUsername (Spec.fields_of env org))).
    { intros H. apply truthy_provided in H. congruence. }
    destruct (decide _) as [[H | [H _]] | _]; try contradiction; reflexivity.
Qed.

Lemma filterAuthInfo_loop_spec (orgs : list OrgAuthorization.t) (authList : list string) :
  OrgList.filterAuthInfo_loop env (OrgList.defaultDevHubUsername env) (OrgList.now env)
    orgs authList
  = authList ++ (Spec.entry env <$> filter (fun org => ~ Spec.excluded env org) orgs).
Proof.
  revert authList. induction orgs as [|org orgs IH]; intros authList.
  - cbn. now rewrite app_nil_r.
  - cbn [OrgList.filterAuthInfo_loop]. rewrite authListItem_of_spec.
    destruct (decide (Spec.excluded env org)) as [Hex | Hkeep].
    + rewrite IH, filter_cons_False by tauto. reflexivity.
    + rewrite IH, filter_cons_True by assumption.
      rewrite fmap_cons, <- app_assoc. reflexivity.
Qed.

(** C10, as the code has it.  [filterAuthInfo] leaves out every org
    authorization for which [AuthInfo] reports a non-empty scratch admin
    username, or a non-empty Dev Hub username that differs from the
    resolved default Dev Hub username; every other authorization produces
    exactly one entry, so the list holds the entries of the surviving orgs
    in the order of the input. *)
Theorem filterAuthInfo_filters_in_order (orgs : list OrgAuthorization.t) :
  OrgList.filterAuthInfo env orgs
  = Spec.entry env <$> filter (fun org => ~ Spec.excluded env org) orgs.
Proof.
  unfold OrgList.filterAuthInfo. now rewrite filterAuthInfo_loop_spec.
Qed.

Lemma switch_spec (cases : list (string * string)) (chosen : string) :
  OrgList.switch cases chosen
  = (Returned (OrgList.ContinueResponse OrgList.empty_object),
     [ match List.find (fun '(label, _) => String.eqb chosen label) cases with
       | Some (_, cmd) => OrgList.ExecuteCommand cmd []
       | None =>
           OrgList.ExecuteCommand "sfdx.force.config.set"
             [AStrings (Js.split_limit " - " 1 chosen)]
       end ]).
Proof.
  induction cases as [|[label cmd] cases IH]; cbn; [reflexivity |].
  destruct (String.eqb chosen label); [reflexivity | exact IH].
Qed.

End OrgListProperties.

(** *** Splitting an entry *)

Lemma append_cons (c : ascii) (a b : string) :
  String c a +:+ b = String c (a +:+ b).
Proof. reflexivity. Qed.

Lemma append_empty_r (s : string) : s +:+ "" = s.
Proof.
  induction s as [|c s IH]; [reflexivity |]. now rewrite append_cons, IH.
Qed.

Lemma append_assoc (a b c : string) : (a +:+ b) +:+ c = a +:+ (b +:+ c).
Proof.
  induction a as [|x a IH]; [reflexivity |]. now rewrite !append_cons, IH.
Qed.

(** Up to the first [" - "] a text without blanks is one piece. *)
Lemma split_from_no_blank (text piece rest : string) :
  Spec.all_chars (fun c => c <> " "%char) text ->
  exists more,
    Js.split_from " - " 0 piece (text +:+ " - " +:+ rest)
    = (piece +:+ text) :: more.
Proof.
  revert piece. induction text as [|c text IH]; intros piece Hblank.
  - rewrite append_empty_r. cbn. eexists. reflexivity.
  - destruct Hblank as [Hc Htext]. rewrite append_cons.
    cbn [Js.split_from Js.startsWith].
    destruct (ascii_dec " " c) as [<- | _]; [contradiction |].
    destruct (IH (piece +:+ String c "") Htext) as [more Hmore].
    exists more. rewrite Hmore, append_assoc. reflexivity.
Qed.

Lemma split_from_no_blank_at_all (text piece : string) :
  Spec.all_chars (fun c => c <> " "%char) text ->
  Js.split_from " - " 0 piece text = [piece +:+ text].
Proof.
  revert piece. induction text as [|c text IH]; intros piece Hblank.
  - now rewrite append_empty_r.
  - destruct Hblank as [Hc Htext].
    cbn [Js.split_from Js.startsWith].
    destruct (ascii_dec " " c) as [<- | _]; [contradiction |].
    rewrite (IH _ Htext), append_assoc. reflexivity.
Qed.

(** When the name an org goes by holds no blank, [split(' - ', 1)] of its
    entry is that name: the aliases when present, the username otherwise. *)
Lemma split_entry_label (env : OrgList.Env) (org : OrgAuthorization.t) :
  Spec.all_chars (fun c => c <> " "%char) (Spec.label org) ->
  Js.split_limit " - " 1 (Spec.entry env org) = [Spec.label org].
Proof.
  intros Hblank. unfold Js.split_limit, Js.split.
  assert (Hshape :
    Spec.entry env org = Spec.label org
    \/ exists rest, Spec.entry env org = Spec.label org +:+ " - " +:+ rest).
  { unfold Spec.entry, Spec.identification, Spec.label, OrgList.expired_marker.
    destruct (OrgAuthorization.aliases org) as [[|a names]|];
      destruct (decide (Spec.expired env org)); eauto;
      right; rewrite ?append_assoc; eauto. }
  destruct Hshape as [-> | [rest ->]].
  - now rewrite split_from_no_blank_at_all.
  - destruct (split_from_no_blank _ "" rest Hblank) as [more ->]. reflexivity.
Qed.

(** *** Choosing an org *)

Section OrgListSelection.
Context (env : OrgList.Env).

Lemma append_nonempty_l (a b : string) : a <> "" -> a +:+ b <> "".
Proof. destruct a as [|c a]; [contradiction |]. now rewrite append_cons. Qed.

Lemma append_nonempty_r (a b : string) : b <> "" -> a +:+ b <> "".
Proof.
  destruct a as [|c a]; [trivial |]. intros _. now rewrite append_cons.
Qed.

Lemma quickPickList_listed :
  OrgList.quickPickList env
  = (OrgList.fixed_entries env).*1
    ++ OrgList.filterAuthInfo env (Observations.listed env).
Proof.
  unfold OrgList.quickPickList, OrgList.updateOrgList, OrgList.getOrgAuthorizations,
    Observations.listed.
  destruct (OrgList.listAllAuthorizations env) as [[|org orgs] | e]; reflexivity.
Qed.

Lemma identification_nonempty (org : OrgAuthorization.t) :
  OrgAuthorization.username org <> "" -> Spec.identification org <> "".
Proof.
  intros Hne. unfold Spec.identification.
  destruct (OrgAuthorization.aliases org) as [[|a names] |]; try assumption.
  now apply append_nonempty_r, append_nonempty_r.
Qed.

Lemma entry_nonempty (org : OrgAuthorization.t) :
  OrgAuthorization.username org <> "" -> Spec.entry env org <> "".
Proof.
  intros Hne. unfold Spec.entry.
  destruct (decide (Spec.expired env org)).
  - now apply append_nonempty_l, identification_nonempty.
  - now apply identification_nonempty.
Qed.

Lemma fixed_entries_nonempty (label : string) :
  label ∈ (OrgList.fixed_entries env).*1 -> label <> "".
Proof.
  cbn. intros H.
  repeat (apply elem_of_cons in H as [-> | H];
          [rewrite append_cons; discriminate |]).
  now apply elem_of_nil in H.
Qed.

Lemma setDefaultOrg_on_item (chosen : string) :
  Spec.selection env = Some chosen -> chosen <> "" ->
  OrgList.setDefaultOrg env
  = (Returned (OrgList.ContinueResponse OrgList.empty_object),
     [ OrgList.ShowQuickPick (OrgList.quickPickList env)
         (OrgList.localize env "org_select_text");
       OrgList.ExecuteCommand (Spec.dispatched env chosen).1
         (Spec.dispatched env chosen).2 ]).
Proof.
  intros Hsel Hne. unfold OrgList.setDefaultOrg.
  unfold Spec.selection in Hsel. rewrite Hsel.
  destruct chosen as [|c chosen]; [contradiction |]. cbn [Js.truthy negb].
  rewrite switch_spec. unfold Spec.dispatched.
  destruct (List.find _ (OrgList.fixed_entries env)) as [[label cmd] |];
    reflexivity.
Qed.

(** Every item of the quick pick is a text, not the empty string, when
    every listed org has a username. *)
Lemma quickPickList_nonempty (item : string) :
  Forall (fun org => OrgAuthorization.username org <> "") (Observations.listed env) ->
  item ∈ OrgList.quickPickList env -> item <> "".
Proof.
  intros Hnames Hin. rewrite quickPickList_listed in Hin.
  apply elem_of_app in Hin as [Hfixed | Horg].
  - now apply fixed_entries_nonempty.
  - unfold OrgList.filterAuthInfo in Horg.
    rewrite filterAuthInfo_loop_spec in Horg. cbn in Horg.
    apply list_elem_of_fmap in Horg as (org & -> & Horg).
    apply list_elem_of_filter in Horg as [_ Horg].
    apply entry_nonempty. rewrite Forall_forall in Hnames. now apply Hnames.
Qed.

(** C4.  Every listed org has a username, and the quick pick answers with
    nothing or with one of the items it was given.  Then [setDefaultOrg]
    answers ['CANCEL'] exactly when the quick pick is dismissed with no
    selection.  For every selected item it shows the quick pick, dispatches
    one command and answers ['CONTINUE'] with empty data.  The command is
    that of the first [case] the item equals: [sfdx.force.auth.web.login],
    [sfdx.force.auth.dev.hub], [sfdx.force.org.create],
    [sfdx.force.auth.accessToken] or [sfdx.force.org.list.clean], without
    arguments, for the five fixed entries; for any other item, an org
    entry, it is [sfdx.force.config.set] with the text before the first
    [" - "] of the item. *)
Theorem setDefaultOrg_cancel_or_continue :
  Forall (fun org => OrgAuthorization.username org <> "") (Observations.listed env) ->
  (forall chosen,
     Spec.selection env = Some chosen -> chosen ∈ OrgList.quickPickList env) ->
  (Async.outcome (OrgList.setDefaultOrg env) = Returned OrgList.CancelResponse
   <-> Spec.selection env = None)
  /\ OrgList.type OrgList.CancelResponse = "CANCEL"
  /\ (forall chosen,
        Spec.selection env = Some chosen ->
        exists cmd argv,
          OrgList.setDefaultOrg env
          = (Returned (OrgList.ContinueResponse OrgList.empty_object),
             [ OrgList.ShowQuickPick (OrgList.quickPickList env)
                 (OrgList.localize env "org_select_text");
               OrgList.ExecuteCommand cmd argv ])
          /\ OrgList.type (OrgList.ContinueResponse OrgList.empty_object) = "CONTINUE"
          /\ (chosen = Spec.fixed_entry env "force_auth_web_login_authorize_org_text" ->
              (cmd, argv) = ("sfdx.force.auth.web.login", []))
          /\ (chosen = Spec.fixed_entry env "force_auth_web_login_authorize_dev_hub_text" ->
              chosen ∉ [ Spec.fixed_entry env "force_auth_web_login_authorize_org_text" ] ->
              (cmd, argv) = ("sfdx.force.auth.dev.hub", []))
          /\ (chosen = Spec.fixed_entry env "force_org_create_default_scratch_org_text" ->
              chosen ∉ [ Spec.fixed_entry env "force_auth_web_login_authorize_org_text";
                         Spec.fixed_entry env "force_auth_web_login_authorize_dev_hub_text" ] ->
              (cmd, argv) = ("sfdx.force.org.create", []))
          /\ (chosen = Spec.fixed_entry env "force_auth_access_token_authorize_org_text" ->
              chosen ∉ [ Spec.fixed_entry env "force_auth_web_login_authorize_org_text";
                         Spec.fixed_entry env "force_auth_web_login_authorize_dev_hub_text";
                         Spec.fixed_entry env "force_org_create_default_scratch_org_text" ] ->
              (cmd, argv) = ("sfdx.force.auth.accessToken", []))
          /\ (chosen = Spec.fixed_entry env "force_org_list_clean_text" ->
              chosen ∉ [ Spec.fixed_entry env "force_auth_web_login_authorize_org_text";
                         Spec.fixed_entry env "force_auth_web_login_authorize_dev_hub_text";
                         Spec.fixed_entry env "force_org_create_default_scratch_org_text";
                         Spec.fixed_entry env "force_auth_access_token_authorize_org_text" ] ->
              (cmd, argv) = ("sfdx.force.org.list.clean", []))
          /\ (chosen ∉ [ Spec.fixed_entry env "force_auth_web_login_authorize_org_text";
                         Spec.fixed_entry env "force_auth_web_login_authorize_dev_hub_text";
                         Spec.fixed_entry env "force_org_create_default_scratch_org_text";
                         Spec.fixed_entry env "force_auth_access_token_authorize_org_text";
                         Spec.fixed_entry env "force_org_list_clean_text" ] ->
              (cmd, argv)
              = ("sfdx.force.config.set", [AStrings (Js.split_limit " - " 1 chosen)]))).
Proof.
  intros Hnames Hitems.
  assert (Hne : forall chosen, Spec.selection env = Some chosen -> chosen <> "").
  { intros chosen Hsel. apply quickPickList_nonempty; auto. }
  split; [| split; [reflexivity |]].
  - destruct (Spec.selection env) as [chosen |] eqn:Hsel.
    + rewrite (setDefaultOrg_on_item chosen Hsel (Hne chosen eq_refl)).
      split; discriminate.
    + split; [reflexivity |]. intros _. unfold OrgList.setDefaultOrg.
      unfold Spec.selection in Hsel. now rewrite Hsel.
  - intros chosen Hsel.
    exists (Spec.dispatched env chosen).1, (Spec.dispatched env chosen).2.
    split; [apply setDefaultOrg_on_item; auto |].
    split; [reflexivity |].
    rewrite <- surjective_pairing.
    unfold Spec.dispatched, OrgList.fixed_entries, Spec.fixed_entry.
    cbn [List.find].
    repeat match goal with
           | |- context [String.eqb chosen ?label] =>
               destruct (String.eqb_spec chosen label)
           end;
      repeat split; intros; try reflexivity; try contradiction;
      exfalso; set_solver.
Qed.

End OrgListSelection.

(** *** The properties on the sample worlds *)


(** C6 on a sample world: a directory, a single file, no cache result. *)
Lemma handleCacheResults_cases_witness :
  SourceDiff.handleCacheResults Sample.diff_env (Some Sample.directory_cache)
  = (Returned tt,
     [ SourceDiff.ConsoleLog "PROF-FILE: /tmp/prop.json";
       SourceDiff.VisualizeDifferences "PDTDevHub2 - File Diffs" "PDTDevHub2" true
         ("/ws/force-app", "/tmp/cache/force-app") ])
  /\ (exists logged,
        SourceDiff.handleCacheResults Sample.diff_env (Some Sample.file_cache)
        = (Returned tt,
           SourceDiff.ConsoleLog "PROF-FILE: undefined"
           :: SourceDiff.ExecuteCommand "vscode.diff"
                [ AUri (Uri_file "/tmp/cache/force-app/A.cls");
                  AUri (Uri_file "/ws/force-app/A.cls");
                  AString "Source File Diff ( Local File / Org File )" ]
           :: logged))
  /\ SourceDiff.handleCacheResults Sample.diff_env None
     = (Returned tt,
        [ SourceDiff.ShowErrorMessage
            "Selected components are not available in the org" ]).
Proof.
  pose proof (handleCacheResults_cases Sample.diff_env) as (Hdir & Hfile & Hnone).
  split; [| split].
  - apply (Hdir Sample.directory_cache). reflexivity.
  - destruct (Hfile Sample.file_cache _ [] eq_refl eq_refl) as [_ Hfirst].
    destruct (Hfirst ["/tmp/cache/force-app/A.cls-meta.xml"]
                "/tmp/cache/force-app/A.cls" [] eq_refl) as (logged & Heq & _).
    + repeat constructor.
    + reflexivity.
    + exists logged. exact Heq.
  - exact Hnone.
Defined.

(** C3 on a sample world: a key set locally, one set only globally, and
    one set nowhere. *)
Lemma getConfigSource_spec_witness :
  Async.outcome (ConfigUtil.getConfigSource Sample.config_env "defaultusername")
  = Returned ConfigSource.Local
  /\ Async.outcome (ConfigUtil.getConfigSource Sample.config_env "defaultdevhubusername")
     = Returned ConfigSource.Global
  /\ Async.outcome (ConfigUtil.getConfigSource Sample.config_env "apiVersion")
     = Returned ConfigSource.None.
Proof.
  split; [| split].
  - apply (proj1 (getConfigSource_spec Sample.config_env "defaultusername")).
    exists (ConfigUtil.JString "dev"). split; [reflexivity | discriminate].
  - apply (proj1 (proj2 (getConfigSource_spec Sample.config_env "defaultdevhubusername"))).
    split.
    + intros (v & H & _). vm_compute in H. discriminate.
    + exists (ConfigUtil.JString "hub"). split; [reflexivity | discriminate].
  - apply (proj2 (proj2 (getConfigSource_spec Sample.config_env "apiVersion"))).
    split; intros (v & H & _); vm_compute in H; discriminate.
Defined.

(** C8 on two sample worlds: both functions agree, and both answer
    [undefined] when the local config file cannot be read. *)
Lemma getConfigValue_getSfConfigValue_witness :
  ConfigUtil.getConfigValue Sample.config_env "defaultusername" None
  = ConfigUtil.getSfConfigValue Sample.config_env "defaultusername" None
  /\ Async.outcome (ConfigUtil.getConfigValue Sample.broken_config_env "defaultusername" None)
     = Returned None
  /\ Async.outcome (ConfigUtil.getSfConfigValue Sample.broken_config_env "defaultusername" None)
     = Returned None.
Proof.
  split.
  - apply (getConfigValue_getSfConfigValue Sample.config_env "defaultusername" None).
  - apply (proj1 (proj2 (proj2 (proj2
             (getConfigValue_getSfConfigValue Sample.broken_config_env
                "defaultusername" None))))
             (new_Error "ENOENT"));
      [discriminate | discriminate | reflexivity].
Defined.

(** C5 on a sample world: an org with an alias, one with an empty alias,
    and no org at all. *)
Lemma status_bar_text_witness :
  StatusBarItem.text
    (OrgList.statusBarItem
       (OrgList.constructor (Sample.picker_env [] (fun _ => Sample.no_fields) true None)
          (OrgInfo.mk (Some "me@example.com") (Some "dev"))))
  = "$(plug) dev"
  /\ StatusBarItem.text
       (OrgList.statusBarItem
          (OrgList.onOrgChange (Sample.picker_env [] (fun _ => Sample.no_fields) true None)
             (OrgList.mk (StatusBarItem.create StatusBarItem.Left 49))
             (OrgInfo.mk (Some "me@example.com") (Some ""))))
     = "$(plug) me@example.com"
  /\ StatusBarItem.text
       (OrgList.statusBarItem
          (OrgList.displayDefaultUsername
             (Sample.picker_env [] (fun _ => Sample.no_fields) true None)
             (OrgList.mk (StatusBarItem.create StatusBarItem.Left 49))
             None))
     = "missing_default_org".
Proof.
  split; [| split].
  - apply (proj1 (status_bar_text
                    (Sample.picker_env [] (fun _ => Sample.no_fields) true None)
                    (OrgList.mk (StatusBarItem.create StatusBarItem.Left 49))
                    (OrgInfo.mk (Some "me@example.com") (Some "dev")) None)
             "dev" eq_refl);
      discriminate.
  - apply (proj1 (proj2 (status_bar_text
                    (Sample.picker_env [] (fun _ => Sample.no_fields) true None)
                    (OrgList.mk (StatusBarItem.create StatusBarItem.Left 49))
                    (OrgInfo.mk (Some "me@example.com") (Some "")) None))
             ltac:(intros (a & [= <-] & H); now apply H)
             "me@example.com" eq_refl);
      discriminate.
  - apply (proj2 (proj2 (proj2 (proj2 (status_bar_text
                    (Sample.picker_env [] (fun _ => Sample.no_fields) true None)
                    (OrgList.mk (StatusBarItem.create StatusBarItem.Left 49))
                    (OrgInfo.mk None None) None))))).
    left. reflexivity.
Defined.

(** The list [filterAuthInfo] makes of three orgs: the scratch org of
    another Dev Hub is left out, the expired org carries the marker. *)
Example filterAuthInfo_three_orgs :
  OrgList.filterAuthInfo
    (Sample.picker_env Sample.three_orgs Sample.three_fields true None)
    Sample.three_orgs
  = [ "old,older - old@example.com - org_expired ❌"; "me@example.com" ].
Proof. vm_compute. reflexivity. Qed.

(** C10 as stated fails: a Dev Hub username that is defined, but empty,
    differs from the resolved default Dev Hub username, and the org is
    listed all the same. *)
Lemma filterAuthInfo_empty_devhub_listed :
  AuthFields.devHubUsername
    (Spec.fields_of
       (Sample.picker_env [Sample.plain_org] (fun _ => Sample.empty_devhub_fields) true None)
       Sample.plain_org)
  = Some ""
  /\ OrgList.defaultDevHubUsername
       (Sample.picker_env [Sample.plain_org] (fun _ => Sample.empty_devhub_fields) true None)
     = Some "hub@example.com"
  /\ OrgList.filterAuthInfo
       (Sample.picker_env [Sample.plain_org] (fun _ => Sample.empty_devhub_fields) true None)
       [Sample.plain_org]
     = ["me@example.com"].
Proof. vm_compute. repeat split. Qed.

(** C4 on sample worlds: the user picks the expired org, and the user
    dismisses the quick pick. *)
Lemma setDefaultOrg_cancel_or_continue_witness :
  (exists cmd argv,
     OrgList.setDefaultOrg
       (Sample.picker_env Sample.three_orgs Sample.three_fields true (Some 5%nat))
     = (Returned (OrgList.ContinueResponse OrgList.empty_object),
        [ OrgList.ShowQuickPick
            (OrgList.quickPickList
               (Sample.picker_env Sample.three_orgs Sample.three_fields true
                  (Some 5%nat)))
            "org_select_text";
          OrgList.ExecuteCommand cmd argv ])
     /\ (cmd, argv) = ("sfdx.force.config.set", [AStrings ["old,older"]]))
  /\ Async.outcome
       (OrgList.setDefaultOrg
          (Sample.picker_env Sample.three_orgs Sample.three_fields true None))
     = Returned OrgList.CancelResponse.
Proof.
  split.
  - destruct (proj2 (proj2
               (setDefaultOrg_cancel_or_continue
                  (Sample.picker_env Sample.three_orgs Sample.three_fields true
                     (Some 5%nat))
                  ltac:(repeat constructor; discriminate)
                  ltac:(intros chosen [= <-]; apply list_elem_of_lookup;
                        exists 5%nat; reflexivity)))
               "old,older - old@example.com - org_expired ❌" eq_refl)
      as (cmd & argv & Hrun & _ & _ & _ & _ & _ & _ & Horg).
    exists cmd, argv. split; [exact Hrun |].
    apply Horg. vm_compute. intros Hin. absent_from_trace Hin.
  - apply (proj1 (setDefaultOrg_cancel_or_continue
                    (Sample.picker_env Sample.three_orgs Sample.three_fields true None)
                    ltac:(repeat constructor; discriminate)
                    ltac:(intros chosen [=]))).
    reflexivity.
Defined.

(** C7 at an org whose alias holds the separator: the entry is
    [dev - hub - me@example.com], and choosing it hands [dev], not the
    alias [dev - hub], to [sfdx.force.config.set]. *)
Lemma setDefaultOrg_dashed_alias :
  OrgList.filterAuthInfo
    (Sample.picker_env [Sample.dashed_org] (fun _ => Sample.no_fields) true (Some 5%nat))
    [Sample.dashed_org]
  = ["dev - hub - me@example.com"]
  /\ Spec.label Sample.dashed_org = "dev - hub"
  /\ Spec.selection
       (Sample.picker_env [Sample.dashed_org] (fun _ => Sample.no_fields) true
          (Some 5%nat))
     = Some "dev - hub - me@example.com"
  /\ Async.trace
       (OrgList.setDefaultOrg
          (Sample.picker_env [Sample.dashed_org] (fun _ => Sample.no_fields) true
             (Some 5%nat)))
     = [ OrgList.ShowQuickPick
           [ "$(plus) force_auth_web_login_authorize_org_text";
             "$(plus) force_auth_web_login_authorize_dev_hub_text";
             "$(plus) force_org_create_default_scratch_org_text";
             "$(plus) force_auth_access_token_authorize_org_text";
             "$(plus) force_org_list_clean_text";
             "dev - hub - me@example.com" ]
           "org_select_text";
         OrgList.ExecuteCommand "sfdx.force.config.set" [AStrings ["dev"]] ].
Proof. vm_compute. repeat split. Qed.

(** ** Properties beyond the specification *)

(** *** The source-diff command *)

Section SourceDiffBeyond.
Context {Diffs : Type} (env : SourceDiff.Env Diffs).

Lemma emit_then (ev : SourceDiff.Event Diffs) {A} (m : Async.t (SourceDiff.Event Diffs) A) :
  (Async.emit ev ;; m) = (Async.outcome m, ev :: Async.trace m).
Proof. destruct m as [o tr]. reflexivity. Qed.

(** X1.  [handleDiffResponse] never rejects: whatever the exit code, the
    output and the parser do, the promise resolves, and at most one command
    is handed to the editor. *)
Theorem handleDiffResponse_never_rejects (exitCode : option Z) (stdOut : string) :
  Async.outcome (SourceDiff.handleDiffResponse env exitCode stdOut) = Returned tt
  /\ (length (Observations.commands
                (Async.trace (SourceDiff.handleDiffResponse env exitCode stdOut)))
      <= 1)%nat.
Proof.
  unfold SourceDiff.handleDiffResponse.
  destruct (decide (exitCode = Some 127)) as [_ | _]; cbn; [split; [reflexivity | lia] |].
  destruct (SourceDiff.new_DiffResultParser env stdOut) as [parser | e]; cbn;
    [| split; [reflexivity | lia]].
  destruct (SourceDiff.getSuccessResponse parser); cbn; [split; [reflexivity | lia] |].
  destruct (SourceDiff.getErrorResponse parser); cbn; split; reflexivity || lia.
Qed.

(** X2.  When the exit code is not 127 and the parser of the output
    throws, [handleDiffResponse] reports the thrown error (notification,
    channel line, channel shown, telemetry with the error's name) and opens
    no diff view. *)
Theorem handleDiffResponse_parse_failure (exitCode : option Z) (stdOut : string)
    (e : Error) :
  exitCode <> Some 127 ->
  SourceDiff.new_DiffResultParser env stdOut = Thrown e ->
  SourceDiff.handleDiffResponse env exitCode stdOut
  = (Returned tt, Spec.reported (name e) (message e))
  /\ Observations.commands
       (Async.trace (SourceDiff.handleDiffResponse env exitCode stdOut)) = [].
Proof.
  intros Hcode Hparse. unfold SourceDiff.handleDiffResponse.
  destruct (decide (exitCode = Some 127)) as [| _]; [contradiction |].
  cbn. rewrite Hparse. cbn. split; reflexivity.
Qed.

(** What the loop of [diffOneFile] can leave behind. *)
Lemma diffOneFile_loop_shape (localFile filePart : string) (content : list string) :
  Async.outcome (SourceDiff.diffOneFile_loop env localFile filePart content) = Returned tt
  /\ (Async.trace (SourceDiff.diffOneFile_loop env localFile filePart content) = []
      \/ exists filePath,
           filePath ∈ content
           /\ Js.endsWith filePath filePart = true
           /\ (Async.trace (SourceDiff.diffOneFile_loop env localFile filePart content)
               = [ SourceDiff.ExecuteCommand "vscode.diff"
                     [ AUri (Uri_file filePath); AUri (Uri_file localFile);
                       AString "Source File Diff ( Local File / Org File )" ] ]
               \/ exists line,
                    Async.trace (SourceDiff.diffOneFile_loop env localFile filePart content)
                    = [ SourceDiff.ExecuteCommand "vscode.diff"
                          [ AUri (Uri_file filePath); AUri (Uri_file localFile);
                            AString "Source File Diff ( Local File / Org File )" ];
                        SourceDiff.ConsoleLog line ])).
Proof.
  induction content as [|filePath content IH]; cbn.
  - split; [reflexivity | left; reflexivity].
  - destruct (Js.endsWith filePath filePart) eqn:Hmatch.
    + destruct (SourceDiff.executeCommand env "vscode.diff" _) as [[] | e]; cbn.
      * split; [reflexivity |]. right. exists filePath.
        split; [apply list_elem_of_here |]. split; [exact Hmatch |]. left. reflexivity.
      * split; [reflexivity |]. right. exists filePath.
        split; [apply list_elem_of_here |]. split; [exact Hmatch |].
        right. eexists. reflexivity.
    + destruct IH as [Hout [Hnil | (p & Hin & Hp & Htr)]].
      * split; [exact Hout | left; exact Hnil].
      * split; [exact Hout |]. right. exists p.
        split; [now apply list_elem_of_further |]. split; assumption.
Qed.

(** X3.  [diffOneFile] on a component never rejects, also when the editor
    rejects the command, and it runs at most one command: the diff of one
    content path of the component, ending with the local file's base name,
    against the local file. *)
Theorem diffOneFile_at_most_one_diff (localFile : string)
    (component : SourceDiff.SourceComponent) :
  Async.outcome (SourceDiff.diffOneFile env localFile (Some component)) = Returned tt
  /\ (length (Observations.commands
                (Async.trace (SourceDiff.diffOneFile env localFile (Some component))))
      <= 1)%nat
  /\ (forall cmd argv,
        (cmd, argv) ∈ Observations.commands
                        (Async.trace (SourceDiff.diffOneFile env localFile (Some component))) ->
        cmd = "vscode.diff"
        /\ exists filePath,
             filePath ∈ SourceDiff.walkContent component
             /\ Js.endsWith filePath (SourceDiff.path_basename env localFile) = true
             /\ argv = [ AUri (Uri_file filePath); AUri (Uri_file localFile);
                         AString "Source File Diff ( Local File / Org File )" ]).
Proof.
  unfold SourceDiff.diffOneFile.
  destruct (diffOneFile_loop_shape localFile (SourceDiff.path_basename env localFile)
              (SourceDiff.walkContent component))
    as [Hout [Htr | (p & Hin & Hp & [Htr | [line Htr]])]];
    rewrite Hout, Htr; cbn; (split; [reflexivity |]); (split; [lia |]);
    intros cmd argv Hmem.
  - now apply elem_of_nil in Hmem.
  - apply list_elem_of_singleton in Hmem as [= -> ->]. eauto.
  - apply list_elem_of_singleton in Hmem as [= -> ->]. eauto.
Qed.

(** X4.  When no content path of the component ends with the base name of
    the local file, [diffOneFile] does nothing at all: no diff view, no
    notification, no console line. *)
Theorem diffOneFile_no_match (localFile : string)
    (component : SourceDiff.SourceComponent) :
  Forall (fun p => Js.endsWith p (SourceDiff.path_basename env localFile) = false)
         (SourceDiff.walkContent component) ->
  SourceDiff.diffOneFile env localFile (Some component) = (Returned tt, []).
Proof.
  intros Hnone. unfold SourceDiff.diffOneFile.
  now apply diffOneFile_loop_no_match.
Qed.

(** X5.  When the editor rejects the diff command, [diffOneFile] writes
    the error to the console and resolves; later content paths are not
    tried. *)
Theorem diffOneFile_rejection_logged (localFile : string)
    (component : SourceDiff.SourceComponent)
    (before after : list string) (filePath : string) (e : Error) :
  SourceDiff.walkContent component = before ++ filePath :: after ->
  Forall (fun p => Js.endsWith p (SourceDiff.path_basename env localFile) = false)
         before ->
  Js.endsWith filePath (SourceDiff.path_basename env localFile) = true ->
  SourceDiff.executeCommand env "vscode.diff"
    [ AUri (Uri_file filePath); AUri (Uri_file localFile);
      AString "Source File Diff ( Local File / Org File )" ] = Thrown e ->
  SourceDiff.diffOneFile env localFile (Some component)
  = (Returned tt,
     [ SourceDiff.ExecuteCommand "vscode.diff"
         [ AUri (Uri_file filePath); AUri (Uri_file localFile);
           AString "Source File Diff ( Local File / Org File )" ];
       SourceDiff.ConsoleLog ("ERROR: " +:+ Error_toString e) ]).
Proof.
  intros Hwalk Hbefore Hmatch Hreject. unfold SourceDiff.diffOneFile.
  rewrite Hwalk. clear Hwalk.
  induction Hbefore as [|p before Hp _ IH]; cbn.
  - rewrite Hmatch, Hreject. reflexivity.
  - rewrite Hp. exact IH.
Qed.

(** X6.  For a single file whose cache holds an empty array of components,
    [handleCacheResults] reads past the end of the array: after the console
    line it rejects with a [TypeError], and shows neither a diff view nor a
    notification. *)
Theorem handleCacheResults_empty_components (c : SourceDiff.MetadataCacheResult) :
  SourceDiff.selectedIsDirectory c = false ->
  SourceDiff.components (SourceDiff.cache c) = Some [] ->
  exists msg,
    SourceDiff.handleCacheResults env (Some c)
    = (Thrown (mkError "TypeError" msg),
       [ SourceDiff.ConsoleLog
           ("PROF-FILE: " +:+ Js.interpolate (SourceDiff.cachePropPath c)) ]).
Proof.
  intros Hdir Hcomps. unfold SourceDiff.handleCacheResults.
  rewrite Hdir, Hcomps. eexists. reflexivity.
Qed.

Lemma diffOneFile_events (localFile : string)
    (remoteComponent : option SourceDiff.SourceComponent) :
  Forall Observations.command_or_log
         (Async.trace (SourceDiff.diffOneFile env localFile remoteComponent)).
Proof.
  unfold SourceDiff.diffOneFile. destruct remoteComponent as [component |];
    [| constructor].
  destruct (diffOneFile_loop_shape localFile (SourceDiff.path_basename env localFile)
              (SourceDiff.walkContent component))
    as [_ [-> | (p & _ & _ & [-> | [line ->]])]]; repeat constructor.
Qed.

(** X7.  [handleCacheResults] shows an error notification exactly when
    there is no cache result, and hands diffs to the conflict view exactly
    when the selection is a directory. *)
Theorem handleCacheResults_notifies_and_visualizes
    (cacheResult : option SourceDiff.MetadataCacheResult) :
  (Observations.notifies (Async.trace (SourceDiff.handleCacheResults env cacheResult))
   <-> cacheResult = None)
  /\ (Observations.visualizes (Async.trace (SourceDiff.handleCacheResults env cacheResult))
      <-> exists c, cacheResult = Some c /\ SourceDiff.selectedIsDirectory c = true).
Proof.
  unfold Observations.notifies, Observations.visualizes.
  destruct cacheResult as [c |].
  - assert (Hfile : forall comps,
      Forall Observations.command_or_log
        (Async.trace
           (Async.emit
              (SourceDiff.ConsoleLog
                 ("PROF-FILE: " +:+ Js.interpolate (SourceDiff.cachePropPath c))) ;;
            SourceDiff.diffOneFile env (SourceDiff.selectedPath c) (head comps)))).
    { intros comps. rewrite emit_then. cbn.
      constructor; [exact I | apply diffOneFile_events]. }
    unfold SourceDiff.handleCacheResults.
    destruct (SourceDiff.selectedIsDirectory c) eqn:Hdir.
    + split.
      * split; [| discriminate]. intros [msg H]. cbn in H. absent_from_trace H.
      * split; [eauto |]. intros _. cbn. do 4 eexists.
        apply list_elem_of_further, list_elem_of_here.
    + destruct (SourceDiff.components (SourceDiff.cache c)) as [comps |].
      * specialize (Hfile comps). rewrite Forall_forall in Hfile. split.
        -- split; [| discriminate]. intros [msg H]. apply Hfile in H. contradiction.
        -- split.
           ++ intros (t & l & r & d & H). apply Hfile in H. contradiction.
           ++ intros (c' & [= <-] & H). congruence.
      * split.
        -- split; [| discriminate]. intros [msg H]. cbn in H. absent_from_trace H.
        -- split.
           ++ intros (t & l & r & d & H). cbn in H. absent_from_trace H.
           ++ intros (c' & [= <-] & H). congruence.
  - split.
    + split; [reflexivity |]. intros _. eexists. cbn. apply list_elem_of_here.
    + split.
      * intros (t & l & r & d & H). cbn in H. absent_from_trace H.
      * intros (c & [=] & _).
Qed.

End SourceDiffBeyond.

(** *** Configuration lookup *)

Section ConfigUtilBeyond.
Context (env : ConfigUtil.Env).

Lemma isNullOrUndefined_not_null (v : ConfigUtil.ConfigValue) :
  ConfigUtil.isNullOrUndefined v = false -> v <> Some ConfigUtil.JNull.
Proof. intros H ->. discriminate. Qed.

(** [getConfigValue] without a source, in full. *)
Lemma getConfigValue_omitted (key : string) :
  ConfigUtil.getConfigValue env key None
  = match ConfigUtil.local_lookup env key with
    | Thrown e =>
        (Returned None,
         [Observations.opened env; ConfigUtil.SendException "get_config_value_local" (message e)])
    | Returned localValue =>
        if ConfigUtil.isNullOrUndefined localValue then
          match ConfigUtil.global_lookup env key with
          | Thrown e =>
              (Returned None,
               [Observations.opened env; ConfigUtil.ConfigAggregatorCreate;
                ConfigUtil.SendException "get_config_value_global" (message e)])
          | Returned globalValue =>
              (Returned (if ConfigUtil.isNullOrUndefined globalValue
                         then None else globalValue),
               [Observations.opened env; ConfigUtil.ConfigAggregatorCreate])
          end
        else (Returned localValue, [Observations.opened env])
    end.
Proof.
  unfold ConfigUtil.getConfigValue, ConfigUtil.local_lookup, ConfigUtil.global_lookup,
    Observations.opened.
  cbn.
  destruct (ConfigUtil.ConfigFile_create env false _ _) as [contents | e]; cbn;
    [| reflexivity].
  destruct (ConfigUtil.isNullOrUndefined (contents !! key)); cbn; [| reflexivity].
  destruct (ConfigUtil.ConfigAggregator_create env) as [aggregator | e]; cbn;
    [| reflexivity].
  destruct (ConfigUtil.getPropertyValue aggregator key) as [globalValue | e]; cbn;
    [| reflexivity].
  destruct (ConfigUtil.isNullOrUndefined globalValue); reflexivity.
Qed.

(** [getConfigValue] for the local source only, in full. *)
Lemma getConfigValue_local_only (key : string) :
  ConfigUtil.getConfigValue env key (Some ConfigSource.Local)
  = match ConfigUtil.local_lookup env key with
    | Thrown e =>
        (Returned None,
         [Observations.opened env; ConfigUtil.SendException "get_config_value_local" (message e)])
    | Returned localValue =>
        (Returned (if ConfigUtil.isNullOrUndefined localValue then None else localValue),
         [Observations.opened env])
    end.
Proof.
  unfold ConfigUtil.getConfigValue, ConfigUtil.local_lookup, Observations.opened. cbn.
  destruct (ConfigUtil.ConfigFile_create env false _ _) as [contents | e]; cbn;
    [| reflexivity].
  destruct (ConfigUtil.isNullOrUndefined (contents !! key)); reflexivity.
Qed.

(** [getConfigValue] for the global source only, in full. *)
Lemma getConfigValue_global_only (key : string) :
  ConfigUtil.getConfigValue env key (Some ConfigSource.Global)
  = match ConfigUtil.global_lookup env key with
    | Thrown e =>
        (Returned None,
         [ConfigUtil.ConfigAggregatorCreate;
          ConfigUtil.SendException "get_config_value_global" (message e)])
    | Returned globalValue =>
        (Returned (if ConfigUtil.isNullOrUndefined globalValue then None else globalValue),
         [ConfigUtil.ConfigAggregatorCreate])
    end.
Proof.
  unfold ConfigUtil.getConfigValue, ConfigUtil.global_lookup. cbn.
  destruct (ConfigUtil.ConfigAggregator_create env) as [aggregator | e]; cbn;
    [| reflexivity].
  destruct (ConfigUtil.getPropertyValue aggregator key) as [globalValue | e]; cbn;
    [| reflexivity].
  destruct (ConfigUtil.isNullOrUndefined globalValue); reflexivity.
Qed.

(** X8.  None of the three lookups ever rejects: whatever the config file
    and the aggregator throw, [getConfigValue] and [getConfigSource]
    resolve.  The value [getConfigValue] resolves to is never [null]: it is
    [undefined] or a proper value. *)
Theorem config_lookups_never_reject (key : string) (source : option ConfigSource.t) :
  (exists v,
     Async.outcome (ConfigUtil.getConfigValue env key source) = Returned v
     /\ v <> Some ConfigUtil.JNull)
  /\ (exists s, Async.outcome (ConfigUtil.getConfigSource env key) = Returned s).
Proof.
  split; [| rewrite getConfigSource_outcome; eauto].
  destruct source as [[]|].
  - rewrite getConfigValue_local_only.
    destruct (ConfigUtil.local_lookup env key) as [v | e]; cbn;
      [| eexists; split; [reflexivity | discriminate]].
    destruct (ConfigUtil.isNullOrUndefined v) eqn:E; eexists;
      (split; [reflexivity |]); [discriminate | now apply isNullOrUndefined_not_null].
  - rewrite getConfigValue_global_only.
    destruct (ConfigUtil.global_lookup env key) as [v | e]; cbn;
      [| eexists; split; [reflexivity | discriminate]].
    destruct (ConfigUtil.isNullOrUndefined v) eqn:E; eexists;
      (split; [reflexivity |]); [discriminate | now apply isNullOrUndefined_not_null].
  - exists None. split; [reflexivity | discriminate].
  - rewrite getConfigValue_omitted.
    destruct (ConfigUtil.local_lookup env key) as [v | e]; cbn;
      [| eexists; split; [reflexivity | discriminate]].
    destruct (ConfigUtil.isNullOrUndefined v) eqn:E; cbn;
      [| eexists; split; [reflexivity | now apply isNullOrUndefined_not_null]].
    destruct (ConfigUtil.global_lookup env key) as [g | e]; cbn;
      [| eexists; split; [reflexivity | discriminate]].
    destruct (ConfigUtil.isNullOrUndefined g) eqn:Eg; eexists;
      (split; [reflexivity |]); [discriminate | now apply isNullOrUndefined_not_null].
Qed.

(** X9.  Without a source argument a value of the local config wins:
    [getConfigValue] returns it after opening the config file only, and the
    configuration aggregator is never created. *)
Theorem getConfigValue_local_wins (key : string) :
  ConfigUtil.yields_value (ConfigUtil.local_lookup env key) ->
  exists v,
    ConfigUtil.local_lookup env key = Returned (Some v)
    /\ ConfigUtil.getConfigValue env key None
       = (Returned (Some v),
          [ ConfigUtil.ConfigFileCreate false
              (ConfigUtil.path_join env (ConfigUtil.getRootWorkspacePath env)
                 (ConfigUtil.SF_STATE_FOLDER env))
              (ConfigUtil.SF_CONFIG_FILE env) ])
    /\ ~ Observations.consults_aggregator
           (Async.trace (ConfigUtil.getConfigValue env key None)).
Proof.
  intros (v & Hlocal & Hv). exists v. rewrite getConfigValue_omitted, Hlocal.
  assert (E : ConfigUtil.isNullOrUndefined (Some v) = false)
    by (apply isNullOrUndefined_false; eauto).
  rewrite E. split; [reflexivity |]. split; [reflexivity |].
  unfold Observations.consults_aggregator. cbn. intros H. absent_from_trace H.
Qed.

(** X10.  Without a source argument a local config file that cannot be
    read ends the lookup: [getConfigValue] sends the exception to telemetry
    and returns [undefined] without ever consulting the configuration
    aggregator, whatever the aggregator holds for the key. *)
Theorem getConfigValue_local_failure_is_final (key : string) (e : Error) :
  ConfigUtil.local_lookup env key = Thrown e ->
  ConfigUtil.getConfigValue env key None
  = (Returned None,
     [ ConfigUtil.ConfigFileCreate false
         (ConfigUtil.path_join env (ConfigUtil.getRootWorkspacePath env)
            (ConfigUtil.SF_STATE_FOLDER env))
         (ConfigUtil.SF_CONFIG_FILE env);
       ConfigUtil.SendException "get_config_value_local" (message e) ])
  /\ ~ Observations.consults_aggregator
         (Async.trace (ConfigUtil.getConfigValue env key None)).
Proof.
  intros Hlocal. rewrite getConfigValue_omitted, Hlocal.
  split; [reflexivity |].
  unfold Observations.consults_aggregator. cbn. intros H. absent_from_trace H.
Qed.

(** X11.  [getConfigSource] and [getConfigValue] without a source agree on
    where a value comes from.  When the source is [None] the value is
    [undefined]; when it is [Local] the value is the one of the local
    config; when it is [Global] the value is the aggregator's, provided the
    local config file could be read.  When it could not, the source is
    still [Global] but the value is [undefined]. *)
Theorem getConfigSource_getConfigValue (key : string) :
  (Async.outcome (ConfigUtil.getConfigSource env key) = Returned ConfigSource.None ->
   Async.outcome (ConfigUtil.getConfigValue env key None) = Returned None)
  /\ (Async.outcome (ConfigUtil.getConfigSource env key) = Returned ConfigSource.Local ->
      exists v,
        ConfigUtil.local_lookup env key = Returned (Some v)
        /\ Async.outcome (ConfigUtil.getConfigValue env key None) = Returned (Some v))
  /\ (Async.outcome (ConfigUtil.getConfigSource env key) = Returned ConfigSource.Global ->
      (exists localValue, ConfigUtil.local_lookup env key = Returned localValue) ->
      exists v,
        ConfigUtil.global_lookup env key = Returned (Some v)
        /\ Async.outcome (ConfigUtil.getConfigValue env key None) = Returned (Some v))
  /\ (Async.outcome (ConfigUtil.getConfigSource env key) = Returned ConfigSource.Global ->
      (exists e, ConfigUtil.local_lookup env key = Thrown e) ->
      Async.outcome (ConfigUtil.getConfigValue env key None) = Returned None).
Proof.
  rewrite getConfigSource_outcome, getConfigValue_omitted. unfold Spec.usable.
  destruct (ConfigUtil.local_lookup env key) as [l | el];
    [destruct (ConfigUtil.isNullOrUndefined l) eqn:El |];
    (destruct (ConfigUtil.global_lookup env key) as [g | eg];
     [destruct (ConfigUtil.isNullOrUndefined g) eqn:Eg |]);
    cbn; rewrite ?El, ?Eg; cbn;
    (split; [| split; [| split]]); intros Hsource; try discriminate Hsource;
    try reflexivity.
  all: try (intros [? [=]]; fail).
  all: try (intros _; reflexivity).
  all: try (intros _;
            match goal with
            | H : ConfigUtil.isNullOrUndefined _ = false |- _ =>
                apply isNullOrUndefined_false in H as (v & -> & _); eauto
            end; fail).
  all: try (match goal with
            | H : ConfigUtil.isNullOrUndefined _ = false |- _ =>
                apply isNullOrUndefined_false in H as (v & -> & _); eauto
            end; fail).
  all: apply isNullOrUndefined_false in El as (v & -> & _);
    exists v; split; reflexivity.
Qed.

(** X12.  Asked for one source only, [getConfigValue] leaves the other
    alone: for [Local] the configuration aggregator is never created; for
    [Global] the local config file is never opened, and the answer is what
    the aggregator yields, whatever the local config holds. *)
Theorem getConfigValue_single_source (key : string) :
  ~ Observations.consults_aggregator
      (Async.trace (ConfigUtil.getConfigValue env key (Some ConfigSource.Local)))
  /\ (forall isGlobal rootFolder filename,
        ConfigUtil.ConfigFileCreate isGlobal rootFolder filename
        ∉ Async.trace (ConfigUtil.getConfigValue env key (Some ConfigSource.Global)))
  /\ Async.outcome (ConfigUtil.getConfigValue env key (Some ConfigSource.Global))
     = Returned (Spec.usable (ConfigUtil.global_lookup env key)).
Proof.
  rewrite getConfigValue_local_only, getConfigValue_global_only.
  unfold Observations.consults_aggregator, Spec.usable.
  split; [| split].
  - destruct (ConfigUtil.local_lookup env key); cbn; intros H; absent_from_trace H.
  - intros isGlobal rootFolder filename.
    destruct (ConfigUtil.global_lookup env key); cbn; intros H; absent_from_trace H.
  - destruct (ConfigUtil.global_lookup env key); reflexivity.
Qed.

End ConfigUtilBeyond.

(** *** The org picker *)

Section OrgListBeyond.
Context (env : OrgList.Env).

(** X13.  The list [setDefaultOrg] offers is always the five fixed
    entries, in the order of the [switch], followed by the entries
    [filterAuthInfo] makes of the listed orgs; when listing rejects or
    lists nothing, [updateOrgList] answers [null] and only the fixed
    entries are offered. *)
Theorem quickPickList_shape :
  OrgList.quickPickList env
  = (OrgList.fixed_entries env).*1
    ++ OrgList.filterAuthInfo env (Observations.listed env)
  /\ length (OrgList.fixed_entries env).*1 = 5%nat
  /\ (OrgList.updateOrgList env = None <-> Observations.listed env = [])
  /\ (forall entries,
        OrgList.updateOrgList env = Some entries ->
        entries = OrgList.filterAuthInfo env (Observations.listed env)).
Proof.
  unfold OrgList.quickPickList, OrgList.updateOrgList, OrgList.getOrgAuthorizations,
    Observations.listed.
  destruct (OrgList.listAllAuthorizations env) as [[|org orgs] | e]; cbn;
    repeat split; try discriminate; try reflexivity; try congruence.
Qed.

(** X14.  [filterAuthInfo] works org by org: the list for two lists of
    orgs put together is the two lists of entries put together, and it
    never has more entries than there are orgs. *)
Theorem filterAuthInfo_app (orgs more : list OrgAuthorization.t) :
  OrgList.filterAuthInfo env (orgs ++ more)
  = OrgList.filterAuthInfo env orgs ++ OrgList.filterAuthInfo env more
  /\ (length (OrgList.filterAuthInfo env orgs) <= length orgs)%nat.
Proof.
  unfold OrgList.filterAuthInfo. rewrite !filterAuthInfo_loop_spec. cbn.
  rewrite filter_app, fmap_app, length_fmap. split; [reflexivity |].
  apply length_filter.
Qed.

(** X15.  When every listed org has a non-empty username, no item of the
    quick pick is the empty string, so whichever item the user selects
    [setDefaultOrg] answers ['CONTINUE'] and dispatches one command. *)
Theorem setDefaultOrg_continues_on_every_item (chosen : string) :
  Forall (fun org => OrgAuthorization.username org <> "") (Observations.listed env) ->
  chosen ∈ OrgList.quickPickList env ->
  Spec.selection env = Some chosen ->
  chosen <> ""
  /\ Async.outcome (OrgList.setDefaultOrg env)
     = Returned (OrgList.ContinueResponse OrgList.empty_object)
  /\ length (Observations.dispatches (Async.trace (OrgList.setDefaultOrg env))) = 1%nat.
Proof.
  intros Hnames Hin Hsel.
  assert (Hne : chosen <> "").
  { rewrite quickPickList_listed in Hin.
    apply elem_of_app in Hin as [Hfixed | Horg].
    - now apply (fixed_entries_nonempty env).
    - unfold OrgList.filterAuthInfo in Horg.
      rewrite filterAuthInfo_loop_spec in Horg. cbn in Horg.
      apply list_elem_of_fmap in Horg as (org & -> & Horg).
      apply list_elem_of_filter in Horg as [_ Horg].
      apply entry_nonempty. rewrite Forall_forall in Hnames. now apply Hnames. }
  split; [exact Hne |].
  rewrite (setDefaultOrg_on_item env chosen Hsel Hne). split; reflexivity.
Qed.

Lemma displayDefaultUsername_overwrites (this : OrgList.t) (first second : option string) :
  OrgList.displayDefaultUsername env
    (OrgList.displayDefaultUsername env this first) second
  = OrgList.displayDefaultUsername env this second.
Proof.
  unfold OrgList.displayDefaultUsername.
  destruct (Js.truthy first), (Js.truthy second); reflexivity.
Qed.

Lemma onOrgChange_constructor (context orgInfo : OrgInfo.t) :
  OrgList.onOrgChange env (OrgList.constructor env context) orgInfo
  = OrgList.constructor env orgInfo.
Proof.
  unfold OrgList.onOrgChange, OrgList.constructor.
  apply displayDefaultUsername_overwrites.
Qed.

Lemma last_cons (x d : OrgInfo.t) (l : list OrgInfo.t) :
  List.last (x :: l) d = List.last l x.
Proof.
  revert x d. induction l as [|y l IH]; intros x d; [reflexivity |].
  change (List.last (x :: y :: l) d) with (List.last (y :: l) d).
  now rewrite !IH.
Qed.

(** X16.  The status bar keeps no history: after any sequence of
    org-change events the item is exactly the one a picker constructed for
    the last org would have, and it still carries the command, is still
    shown, and sits where it was created. *)
Theorem status_bar_history_independent (context : OrgInfo.t)
    (changes : list OrgInfo.t) :
  foldl (OrgList.onOrgChange env) (OrgList.constructor env context) changes
  = OrgList.constructor env (List.last changes context)
  /\ StatusBarItem.command
       (OrgList.statusBarItem
          (foldl (OrgList.onOrgChange env) (OrgList.constructor env context) changes))
     = Some "sfdx.force.set.default.org"
  /\ StatusBarItem.visible
       (OrgList.statusBarItem
          (foldl (OrgList.onOrgChange env) (OrgList.constructor env context) changes))
     = true
  /\ StatusBarItem.priority
       (OrgList.statusBarItem
          (foldl (OrgList.onOrgChange env) (OrgList.constructor env context) changes))
     = 49.
Proof.
  assert (Hfold :
    foldl (OrgList.onOrgChange env) (OrgList.constructor env context) changes
    = OrgList.constructor env (List.last changes context)).
  { revert context. induction changes as [|orgInfo changes IH]; intros context.
    - reflexivity.
    - cbn [foldl]. rewrite onOrgChange_constructor, IH. now rewrite last_cons. }
  rewrite Hfold. split; [reflexivity |].
  unfold OrgList.constructor, OrgList.displayDefaultUsername.
  destruct (Js.truthy _); repeat split.
Qed.

(** X18.  Outside a workspace no default Dev Hub is resolved, so
    [filterAuthInfo] lists exactly the orgs that state neither a scratch
    admin username nor a Dev Hub username: every scratch org is left out. *)
Theorem filterAuthInfo_outside_workspace (orgs : list OrgAuthorization.t) :
  OrgList.hasRootWorkspace env = false ->
  OrgList.filterAuthInfo env orgs
  = Spec.entry env <$> filter (Observations.unattached env) orgs.
Proof.
  intros Hws. unfold OrgList.filterAuthInfo. rewrite filterAuthInfo_loop_spec. cbn.
  f_equal. apply list_filter_iff. intros org.
  unfold Spec.excluded, Observations.unattached, OrgList.defaultDevHubUsername,
    OrgList.getDefaultDevHubUsernameorAlias.
  rewrite Hws.
  assert (Hhub : Spec.provided (AuthFields.devHubUsername (Spec.fields_of env org)) ->
                 AuthFields.devHubUsername (Spec.fields_of env org) <> None).
  { intros (s & -> & _). discriminate. }
  tauto.
Qed.

(** X19.  An expiration date that cannot be read never marks an org as
    expired: the org is listed by its identification alone. *)
Theorem filterAuthInfo_unreadable_expiration (org : OrgAuthorization.t) (text : string) :
  AuthFields.expirationDate (Spec.fields_of env org) = Some text ->
  OrgList.Date_parse env text = None ->
  ~ Spec.excluded env org ->
  OrgList.filterAuthInfo env [org] = [Spec.identification org].
Proof.
  intros Hdate Hparse Hkeep. unfold OrgList.filterAuthInfo.
  rewrite filterAuthInfo_loop_spec.
  rewrite filter_cons_True, filter_nil by assumption.
  change ([Spec.entry env org] = [Spec.identification org]). f_equal.
  unfold Spec.entry. destruct (decide (Spec.expired env org)) as [Hex |]; [| reflexivity].
  exfalso. destruct Hex as (time & Htime & _).
  unfold Spec.expiry_time in Htime. rewrite Hdate in Htime.
  destruct (decide (text = "")); congruence.
Qed.

End OrgListBeyond.

(** *** The org picker when a call rejects *)

Section OrgListAwaitsProperties.
Context (env : OrgListAwaits.Env).

Lemma bind_lift_returned {E A B : Type} (a : A) (k : A -> Async.t E B) :
  Async.bind (Async.lift (Returned a)) k = k a.
Proof. apply bind_ret_l. Qed.

Lemma bind_lift_thrown {E A B : Type} (e : Error) (k : A -> Async.t E B) :
  Async.bind (Async.lift (Thrown e)) k = (Thrown e, []).
Proof. reflexivity. Qed.

(** The loop of [filterAuthInfo] rejects exactly when [AuthInfo.create]
    rejects for one of the orgs, and it calls nothing in the editor. *)
Lemma filterAuthInfo_loop_cases (defaultDevHubUsername : option string) (today : Z)
    (orgs : list OrgAuthorization.t) (authList : list string) :
  ((exists org,
      org ∈ orgs
      /\ OrgListAwaits.rejected
           (OrgListAwaits.AuthInfo_create env (OrgAuthorization.username org)))
   /\ exists e,
        OrgListAwaits.filterAuthInfo_loop env defaultDevHubUsername today orgs authList
        = (Thrown e, []))
  \/ ((forall org,
         org ∈ orgs ->
         ~ OrgListAwaits.rejected
             (OrgListAwaits.AuthInfo_create env (OrgAuthorization.username org)))
      /\ exists entries,
           OrgListAwaits.filterAuthInfo_loop env defaultDevHubUsername today orgs authList
           = (Returned entries, [])).
Proof.
  revert authList. induction orgs as [|org orgs IH]; intros authList.
  - right. split; [| eexists; reflexivity].
    intros org H. now apply elem_of_nil in H.
  - cbn [OrgListAwaits.filterAuthInfo_loop].
    destruct (OrgListAwaits.AuthInfo_create env (OrgAuthorization.username org))
      as [authFields | e] eqn:Hcreate.
    + rewrite bind_lift_returned.
      assert (Hstep : forall more,
        ((exists o,
            o ∈ org :: orgs
            /\ OrgListAwaits.rejected
                 (OrgListAwaits.AuthInfo_create env (OrgAuthorization.username o)))
         /\ exists e,
              OrgListAwaits.filterAuthInfo_loop env defaultDevHubUsername today orgs more
              = (Thrown e, []))
        \/ ((forall o,
               o ∈ org :: orgs ->
               ~ OrgListAwaits.rejected
                   (OrgListAwaits.AuthInfo_create env (OrgAuthorization.username o)))
            /\ exists entries,
                 OrgListAwaits.filterAuthInfo_loop env defaultDevHubUsername today orgs more
                 = (Returned entries, []))).
      { intros more. destruct (IH more) as [[(o & Hin & Hrej) He] | [Hall Hl]].
        - left. split; [| exact He]. exists o. split; [now right | exact Hrej].
        - right. split; [| exact Hl]. intros o Hin.
          apply elem_of_cons in Hin as [-> | Hin]; [| now apply Hall].
          rewrite Hcreate. intros [e He]. discriminate He. }
      destruct (OrgListAwaits.authListItem_of env defaultDevHubUsername today org authFields);
        apply Hstep.
    + left. split.
      * exists org. split; [now left |]. rewrite Hcreate. now exists e.
      * exists e. reflexivity.
Qed.

(** What [filterAuthInfo] awaits, for the orgs it is given. *)
Lemma filterAuthInfo_cases (orgs : list OrgAuthorization.t) :
  (((OrgListAwaits.hasRootWorkspace env = true
     /\ OrgListAwaits.rejected (OrgListAwaits.getDefaultDevHubUsernameOrAlias env))
    \/ (OrgListAwaits.hasRootWorkspace env = true
        /\ exists usernameOrAlias,
             OrgListAwaits.getDefaultDevHubUsernameOrAlias env
             = Returned (Some usernameOrAlias)
             /\ usernameOrAlias <> ""
             /\ OrgListAwaits.rejected (OrgListAwaits.getUsername env usernameOrAlias))
    \/ (exists org,
          org ∈ orgs
          /\ OrgListAwaits.rejected
               (OrgListAwaits.AuthInfo_create env (OrgAuthorization.username org))))
   /\ exists e, OrgListAwaits.filterAuthInfo env orgs = (Thrown e, []))
  \/ (~ ((OrgListAwaits.hasRootWorkspace env = true
          /\ OrgListAwaits.rejected (OrgListAwaits.getDefaultDevHubUsernameOrAlias env))
         \/ (OrgListAwaits.hasRootWorkspace env = true
             /\ exists usernameOrAlias,
                  OrgListAwaits.getDefaultDevHubUsernameOrAlias env
                  = Returned (Some usernameOrAlias)
                  /\ usernameOrAlias <> ""
                  /\ OrgListAwaits.rejected
                       (OrgListAwaits.getUsername env usernameOrAlias))
         \/ (exists org,
               org ∈ orgs
               /\ OrgListAwaits.rejected
                    (OrgListAwaits.AuthInfo_create env (OrgAuthorization.username org))))
      /\ exists entries, OrgListAwaits.filterAuthInfo env orgs = (Returned entries, [])).
Proof.
  assert (Hloop : forall defaultDevHubUsername,
    ((exists org,
        org ∈ orgs
        /\ OrgListAwaits.rejected
             (OrgListAwaits.AuthInfo_create env (OrgAuthorization.username org)))
     /\ exists e,
          OrgListAwaits.filterAuthInfo_loop env defaultDevHubUsername
            (OrgListAwaits.now env) orgs []
          = (Thrown e, []))
    \/ ((forall org,
           org ∈ orgs ->
           ~ OrgListAwaits.rejected
               (OrgListAwaits.AuthInfo_create env (OrgAuthorization.username org)))
        /\ exists entries,
             OrgListAwaits.filterAuthInfo_loop env defaultDevHubUsername
               (OrgListAwaits.now env) orgs []
             = (Returned entries, []))).
  { intros d. apply filterAuthInfo_loop_cases. }
  unfold OrgListAwaits.filterAuthInfo, OrgListAwaits.getDefaultDevHubUsernameorAlias.
  destruct (OrgListAwaits.hasRootWorkspace env) eqn:Hws.
  - destruct (OrgListAwaits.getDefaultDevHubUsernameOrAlias env)
      as [[[|c usernameOrAlias] |] | e] eqn:Hhub.
    + rewrite bind_lift_returned. cbn [Js.truthy]. rewrite bind_ret_l.
      destruct (Hloop None) as [[Hrej He] | [Hall Hl]].
      * left. split; [right; right; exact Hrej | exact He].
      * right. split; [| exact Hl].
        intros [[_ [e He]] | [(_ & a & [= <-] & Hne & _) | (org & Hin & Hrej)]].
        -- discriminate He.
        -- now apply Hne.
        -- now apply (Hall org).
    + rewrite bind_lift_returned. cbn [Js.truthy].
      destruct (OrgListAwaits.getUsername env (String c usernameOrAlias))
        as [username | e] eqn:Hname.
      * rewrite bind_assoc, bind_lift_returned, !bind_ret_l.
        destruct (Hloop (Some username)) as [[Hrej He] | [Hall Hl]].
        -- left. split; [right; right; exact Hrej | exact He].
        -- right. split; [| exact Hl].
           intros [[_ [e He]] | [(_ & a & [= <-] & _ & [e He]) | (org & Hin & Hrej)]].
           ++ discriminate He.
           ++ rewrite Hname in He. discriminate He.
           ++ now apply (Hall org).
      * left. split.
        -- right. left. split; [reflexivity |].
           exists (String c usernameOrAlias).
           split; [reflexivity |]. split; [discriminate |].
           rewrite Hname. now exists e.
        -- exists e. reflexivity.
    + rewrite bind_lift_returned, bind_ret_l.
      destruct (Hloop None) as [[Hrej He] | [Hall Hl]].
      * left. split; [right; right; exact Hrej | exact He].
      * right. split; [| exact Hl].
        intros [[_ [e He]] | [(_ & a & [=] & _) | (org & Hin & Hrej)]].
        -- discriminate He.
        -- now apply (Hall org).
    + left. split.
      * left. split; [reflexivity | now exists e].
      * exists e. reflexivity.
  - rewrite !bind_ret_l.
    destruct (Hloop None) as [[Hrej He] | [Hall Hl]].
    + left. split; [right; right; exact Hrej | exact He].
    + right. split; [| exact Hl].
      intros [[[=] _] | [([=] & _) | (org & Hin & Hrej)]].
      now apply (Hall org).
Qed.

(** [updateOrgList] rejects exactly when one of the lookups made for the
    listed orgs does, and it calls nothing in the editor. *)
Lemma updateOrgList_cases :
  (OrgListAwaits.lookup_rejects env
   /\ exists e, OrgListAwaits.updateOrgList env = (Thrown e, []))
  \/ (~ OrgListAwaits.lookup_rejects env
      /\ exists authInfoList,
           OrgListAwaits.updateOrgList env = (Returned authInfoList, [])).
Proof.
  unfold OrgListAwaits.updateOrgList, OrgListAwaits.getOrgAuthorizations,
    OrgListAwaits.lookup_rejects, OrgListAwaits.listed.
  destruct (OrgListAwaits.listAllAuthorizations env) as [[|org orgs] | e].
  - right. split; [| eexists; reflexivity]. intros [H _]. now apply H.
  - cbn [length Nat.eqb].
    destruct (filterAuthInfo_cases (org :: orgs)) as [[Hrej [e He]] | [Hres [l Hl]]].
    + left. split; [split; [discriminate | exact Hrej] |].
      exists e. now rewrite He.
    + right. split; [intros [_ H]; now apply Hres |].
      exists (Some l). now rewrite Hl.
  - right. split; [| eexists; reflexivity]. intros [H _]. now apply H.
Qed.

(** When every awaited call resolves, the methods are those of
    [OrgList]. *)
Lemma filterAuthInfo_loop_resolving (world : OrgList.Env)
    (defaultDevHubUsername : option string) (today : Z)
    (orgs : list OrgAuthorization.t) (authList : list string) :
  OrgListAwaits.filterAuthInfo_loop (OrgListAwaits.resolving world)
    defaultDevHubUsername today orgs authList
  = Async.ret (OrgList.filterAuthInfo_loop world defaultDevHubUsername today orgs authList).
Proof.
  revert authList. induction orgs as [|org orgs IH]; intros authList;
    [reflexivity |].
  cbn [OrgListAwaits.filterAuthInfo_loop OrgList.filterAuthInfo_loop].
  change (OrgListAwaits.AuthInfo_create (OrgListAwaits.resolving world)
            (OrgAuthorization.username org))
    with (Returned (OrgList.AuthInfo_getFields world (OrgAuthorization.username org))).
  rewrite bind_lift_returned.
  change (OrgListAwaits.authListItem_of (OrgListAwaits.resolving world)
            defaultDevHubUsername today org
            (OrgList.AuthInfo_getFields world (OrgAuthorization.username org)))
    with (OrgList.authListItem_of world defaultDevHubUsername today org).
  destruct (OrgList.authListItem_of world defaultDevHubUsername today org); apply IH.
Qed.

Lemma updateOrgList_resolving (world : OrgList.Env) :
  OrgListAwaits.updateOrgList (OrgListAwaits.resolving world)
  = Async.ret (OrgList.updateOrgList world).
Proof.
  unfold OrgListAwaits.updateOrgList, OrgList.updateOrgList.
  change (OrgListAwaits.getOrgAuthorizations (OrgListAwaits.resolving world))
    with (OrgList.getOrgAuthorizations world).
  destruct (OrgList.getOrgAuthorizations world) as [orgs |]; [| reflexivity].
  assert (Hfilter :
    OrgListAwaits.filterAuthInfo (OrgListAwaits.resolving world) orgs
    = Async.ret (OrgList.filterAuthInfo world orgs)).
  { unfold OrgListAwaits.filterAuthInfo, OrgList.filterAuthInfo,
      OrgList.defaultDevHubUsername, OrgListAwaits.getDefaultDevHubUsernameorAlias,
      OrgList.getDefaultDevHubUsernameorAlias.
    change (OrgListAwaits.hasRootWorkspace (OrgListAwaits.resolving world))
      with (OrgList.hasRootWorkspace world).
    change (OrgListAwaits.getDefaultDevHubUsernameOrAlias (OrgListAwaits.resolving world))
      with (Returned (OrgList.getDefaultDevHubUsernameOrAlias world)).
    change (OrgListAwaits.now (OrgListAwaits.resolving world))
      with (OrgList.now world).
    destruct (OrgList.hasRootWorkspace world).
    - rewrite bind_lift_returned.
      destruct (OrgList.getDefaultDevHubUsernameOrAlias world)
        as [[|c usernameOrAlias] |]; cbn [Js.truthy].
      + rewrite bind_ret_l. apply filterAuthInfo_loop_resolving.
      + change (OrgListAwaits.getUsername (OrgListAwaits.resolving world)
                  (String c usernameOrAlias))
          with (Returned (OrgList.getUsername world (String c usernameOrAlias))).
        rewrite bind_assoc, bind_lift_returned, !bind_ret_l.
        apply filterAuthInfo_loop_resolving.
      + rewrite bind_ret_l. apply filterAuthInfo_loop_resolving.
    - rewrite !bind_ret_l. apply filterAuthInfo_loop_resolving. }
  rewrite Hfilter. now rewrite bind_ret_l.
Qed.

(** X17.  [setDefaultOrg] guards none of its awaits.  When one of the
    lookups made for the listed orgs rejects (that of the default Dev Hub,
    that of its username, or [AuthInfo.create] for an org), [setDefaultOrg]
    rejects before it has shown the quick pick or dispatched a command.
    Otherwise it shows the quick pick exactly once, first: when
    [showQuickPick] rejects, so does [setDefaultOrg], with that error and
    without a command dispatched; when it resolves, [setDefaultOrg] answers,
    having dispatched no command for ['CANCEL'] and exactly one for
    ['CONTINUE'].  In a world where every awaited call resolves, the method
    is [OrgList.setDefaultOrg]. *)
Theorem setDefaultOrg_rejects_or_asks_once :
  (OrgListAwaits.lookup_rejects env ->
   exists e, OrgListAwaits.setDefaultOrg env = (Thrown e, []))
  /\ (~ OrgListAwaits.lookup_rejects env ->
      exists items,
        head (Async.trace (OrgListAwaits.setDefaultOrg env))
        = Some (OrgList.ShowQuickPick items
                  (OrgListAwaits.localize env "org_select_text"))
        /\ length (Async.trace (OrgListAwaits.setDefaultOrg env))
           = S (length (Observations.dispatches
                          (Async.trace (OrgListAwaits.setDefaultOrg env))))
        /\ match OrgListAwaits.showQuickPick env items
                   (OrgListAwaits.localize env "org_select_text") with
           | Thrown e =>
               OrgListAwaits.setDefaultOrg env
               = (Thrown e,
                  [ OrgList.ShowQuickPick items
                      (OrgListAwaits.localize env "org_select_text") ])
           | Returned selection =>
               exists response,
                 Async.outcome (OrgListAwaits.setDefaultOrg env) = Returned response
                 /\ (response = OrgList.CancelResponse
                     <-> selection = None \/ selection = Some "")
                 /\ length (Observations.dispatches
                              (Async.trace (OrgListAwaits.setDefaultOrg env)))
                    = match response with
                      | OrgList.CancelResponse => 0%nat
                      | OrgList.ContinueResponse _ => 1%nat
                      end
           end)
  /\ (forall world,
        OrgListAwaits.setDefaultOrg (OrgListAwaits.resolving world)
        = OrgList.setDefaultOrg world).
Proof.
  split; [| split].
  - intros Hrej.
    destruct updateOrgList_cases as [[_ [e He]] | [Hres _]]; [| contradiction].
    exists e. unfold OrgListAwaits.setDefaultOrg. now rewrite He.
  - intros Hres.
    destruct updateOrgList_cases as [[Hrej _] | [_ [authInfoList Hl]]];
      [contradiction |].
    unfold OrgListAwaits.setDefaultOrg. rewrite Hl.
    change (Returned authInfoList, []) with (Async.ret (E := OrgList.Event) authInfoList).
    rewrite bind_ret_l.
    match goal with
    | |- context [OrgList.ShowQuickPick ?l _] => exists l; set (items := l)
    end.
    destruct (OrgListAwaits.showQuickPick env items
                (OrgListAwaits.localize env "org_select_text"))
      as [[[|c chosen] |] | e].
    + split; [reflexivity |]. split; [reflexivity |].
      exists OrgList.CancelResponse. repeat split; auto.
    + rewrite bind_lift_returned. cbv beta iota.
      cbn [Js.truthy negb]. rewrite switch_spec.
      destruct (List.find _ (OrgListAwaits.fixed_entries env)) as [[label cmd] |];
        (split; [reflexivity |]; split; [reflexivity |];
         exists (OrgList.ContinueResponse OrgList.empty_object);
         split; [reflexivity |]; split; [| reflexivity];
         split; [discriminate | intros [H | H]; discriminate H]).
    + split; [reflexivity |]. split; [reflexivity |].
      exists OrgList.CancelResponse. repeat split; auto.
    + repeat split.
  - intros world. unfold OrgListAwaits.setDefaultOrg, OrgList.setDefaultOrg.
    rewrite updateOrgList_resolving, bind_ret_l.
    change (OrgListAwaits.fixed_entries (OrgListAwaits.resolving world))
      with (OrgList.fixed_entries world).
    change (OrgListAwaits.localize (OrgListAwaits.resolving world))
      with (OrgList.localize world).
    change (match OrgList.updateOrgList world with
            | Some authInfoList => map fst (OrgList.fixed_entries world) ++ authInfoList
            | None => map fst (OrgList.fixed_entries world)
            end)
      with (OrgList.quickPickList world).
    change (OrgListAwaits.showQuickPick (OrgListAwaits.resolving world)
              (OrgList.quickPickList world) (OrgList.localize world "org_select_text"))
      with (Returned (OrgList.showQuickPick world (OrgList.quickPickList world)
                        (OrgList.localize world "org_select_text"))).
    rewrite bind_lift_returned. reflexivity.
Qed.

End OrgListAwaitsProperties.

(** *** Starting a source diff *)

Lemma startsWith_spec (p s : string) :
  Js.startsWith p s = true <-> exists rest, s = p +:+ rest.
Proof.
  revert s. induction p as [|a p IH]; intros s.
  - split; [intros _; exists s; reflexivity | reflexivity].
  - destruct s as [|b s]; cbn.
    + split; [discriminate | intros [rest H]; rewrite append_cons in H; discriminate].
    + destruct (ascii_dec a b) as [<- | Hne].
      * rewrite IH. split; intros [rest H]; exists rest.
        -- now rewrite append_cons, H.
        -- rewrite append_cons in H. now injection H.
      * split; [discriminate |]. intros [rest H]. rewrite append_cons in H.
        injection H as -> _. contradiction.
Qed.

(** [includes] finds exactly the texts that contain the given one. *)
Lemma includes_spec (sub s : string) :
  DiffCommands.includes sub s = true <-> DiffCommands.contains sub s.
Proof.
  unfold DiffCommands.contains. induction s as [|c s IH].
  - cbn. destruct (Js.startsWith sub "") eqn:E.
    + split; [| reflexivity]. intros _.
      apply startsWith_spec in E as [rest E]. exists "", rest. exact E.
    + split; [discriminate |]. intros (before & after & H).
      destruct before; [| rewrite append_cons in H; discriminate].
      assert (Js.startsWith sub "" = true) by (apply startsWith_spec; eauto).
      congruence.
  - cbn [DiffCommands.includes].
    destruct (Js.startsWith sub (String c s)) eqn:E.
    + split; [| reflexivity]. intros _.
      apply startsWith_spec in E as [rest E]. exists "", rest. exact E.
    + rewrite IH. split.
      * intros (before & after & ->). exists (String c before), after.
        now rewrite append_cons.
      * intros (before & after & H). destruct before as [|b before].
        -- assert (Js.startsWith sub (String c s) = true)
             by (apply startsWith_spec; eauto).
           congruence.
        -- rewrite append_cons in H. injection H as _ ->. eauto.
Qed.

Lemma diffable_spec (document : DiffCommands.TextDocument) :
  DiffCommands.diffable document = true <-> DiffCommands.eligible document.
Proof.
  unfold DiffCommands.diffable, DiffCommands.eligible.
  rewrite !orb_true_iff, !String.eqb_eq, !includes_spec. tauto.
Qed.

Section DiffCommandsBeyond.
Context {Diffs : Type} (env : DiffCommands.Env Diffs).

(** The trace of the unsupported-type report. *)
Lemma unsupported_type_trace :
  DiffCommands.unsupported_type env
  = (Returned tt,
     DiffCommands.Service
     <$> [ SourceDiff.SendException "unsupported_type_on_diff"
             (SourceDiff.localize (DiffCommands.service env)
                "force_source_diff_unsupported_type" []);
           SourceDiff.ShowErrorMessage
             (SourceDiff.localize (DiffCommands.service env)
                "force_source_diff_unsupported_type" []);
           SourceDiff.AppendLine
             (SourceDiff.localize (DiffCommands.service env)
                "force_source_diff_unsupported_type" []);
           SourceDiff.ShowChannelOutput ]).
Proof. reflexivity. Qed.

(** X20.  [forceSourceDiff] starts its commandlet exactly when it is given
    a URI or the active editor shows an Apex or Visualforce document or a
    file whose name contains [aura], [lwc], [permissionset-meta.xml] or
    [layout-meta.xml]: on the given URI if there is one, whatever the
    editor shows, else on the editor's document.  Otherwise it reports the
    unsupported type to telemetry, in a notification and on the channel,
    and starts nothing. *)
Theorem forceSourceDiff_starts_iff (sourceUri : option Uri) :
  (DiffCommands.runs_commandlet
     (Async.trace (DiffCommands.forceSourceDiff env sourceUri))
   <-> sourceUri <> None
       \/ exists document,
            DiffCommands.activeTextEditor env = Some document
            /\ DiffCommands.eligible document)
  /\ (forall given,
        sourceUri = Some given ->
        DiffCommands.forceSourceDiff env sourceUri
        = (Returned tt,
           [DiffCommands.RunCommandlet given DiffCommands.ForceSourceDiffExecutor]))
  /\ (forall document,
        sourceUri = None ->
        DiffCommands.activeTextEditor env = Some document ->
        DiffCommands.eligible document ->
        DiffCommands.forceSourceDiff env sourceUri
        = (Returned tt,
           [DiffCommands.RunCommandlet (DiffCommands.uri document)
              DiffCommands.ForceSourceDiffExecutor]))
  /\ (~ DiffCommands.runs_commandlet
          (Async.trace (DiffCommands.forceSourceDiff env sourceUri)) ->
      DiffCommands.forceSourceDiff env sourceUri = DiffCommands.unsupported_type env).
Proof.
  unfold DiffCommands.runs_commandlet, DiffCommands.forceSourceDiff.
  destruct sourceUri as [given |].
  - cbn. repeat split.
    + intros _. left. discriminate.
    + intros _. do 2 eexists. apply list_elem_of_here.
    + now intros ? [= <-].
    + discriminate.
    + intros H. exfalso. apply H. do 2 eexists. apply list_elem_of_here.
  - destruct (DiffCommands.activeTextEditor env) as [document |].
    + destruct (DiffCommands.diffable document) eqn:Hd.
      * apply diffable_spec in Hd. cbn. repeat split.
        -- intros _. right. eauto.
        -- intros _. do 2 eexists. apply list_elem_of_here.
        -- discriminate.
        -- now intros ? _ [= <-] _.
        -- intros H. exfalso. apply H. do 2 eexists. apply list_elem_of_here.
      * assert (Hno : ~ DiffCommands.eligible document).
        { intros H. apply diffable_spec in H. congruence. }
        cbn. repeat split.
        -- intros (p & ex & H). absent_from_trace H.
        -- intros [H | (d & [= <-] & H)]; [now elim H | contradiction].
        -- discriminate.
        -- intros ? _ [= <-] H. contradiction.
    + cbn. repeat split.
      * intros (p & ex & H). absent_from_trace H.
      * intros [H | (d & [=] & _)]. now elim H.
      * discriminate.
      * discriminate.
Qed.

(** X21.  [superSourceDiff] starts the metadata cache commandlet only for
    a non-empty default username, which it hands to the executor; it
    starts it exactly when, besides, it is given a path or the active
    editor shows a document that is not a manifest.  With a path but no
    username its only call is the notification [No default org]. *)
Theorem superSourceDiff_starts_iff (explorerPath : option Uri) :
  (DiffCommands.runs_commandlet
     (Async.trace (DiffCommands.superSourceDiff env explorerPath))
   <-> (explorerPath <> None
        \/ exists document,
             DiffCommands.activeTextEditor env = Some document
             /\ DiffCommands.languageId document <> "forcesourcemanifest")
       /\ Spec.provided (DiffCommands.username env))
  /\ (forall filePath executor,
        DiffCommands.RunCommandlet filePath executor
        ∈ Async.trace (DiffCommands.superSourceDiff env explorerPath) ->
        exists user,
          DiffCommands.username env = Some user
          /\ user <> ""
          /\ executor
             = DiffCommands.MetadataCacheExecutor user "Source Diff" "source-diff-loader")
  /\ (forall given,
        explorerPath = Some given ->
        ~ Spec.provided (DiffCommands.username env) ->
        DiffCommands.superSourceDiff env explorerPath
        = (Returned tt,
           [DiffCommands.Service (SourceDiff.ShowErrorMessage "No default org")])).
Proof.
  unfold DiffCommands.runs_commandlet, DiffCommands.superSourceDiff.
  assert (Hpath :
    forall (filePath : Uri) (tr : list (DiffCommands.Event Diffs)),
      tr = Async.trace
             (if negb (Js.truthy (DiffCommands.username env))
              then Async.emit
                     (DiffCommands.Service (SourceDiff.ShowErrorMessage "No default org"))
              else Async.emit
                     (DiffCommands.RunCommandlet filePath
                        (DiffCommands.MetadataCacheExecutor
                           (Js.interpolate (DiffCommands.username env))
                           "Source Diff" "source-diff-loader"))) ->
      ((exists p ex, DiffCommands.RunCommandlet p ex ∈ tr)
       <-> Spec.provided (DiffCommands.username env))
      /\ (forall p ex,
            DiffCommands.RunCommandlet p ex ∈ tr ->
            exists user,
              DiffCommands.username env = Some user /\ user <> ""
              /\ ex = DiffCommands.MetadataCacheExecutor user
                        "Source Diff" "source-diff-loader")).
  { intros filePath tr ->.
    destruct (Js.truthy (DiffCommands.username env)) eqn:Hu; cbn.
    - pose proof (proj1 (truthy_provided _) Hu) as (user & Huser & Hne).
      split.
      + split; [intros _; now apply truthy_provided |].
        intros _. do 2 eexists. apply list_elem_of_here.
      + intros p ex H. apply list_elem_of_singleton in H as [= -> ->].
        exists user. rewrite Huser. auto.
    - split.
      + split.
        * intros (p & ex & H). absent_from_trace H.
        * intros Hp. apply truthy_provided in Hp. congruence.
      + intros p ex H. absent_from_trace H. }
  destruct explorerPath as [given |].
  - rewrite bind_ret_l.
    destruct (Hpath given _ eq_refl) as [Hiff Hex].
    split; [| split].
    + rewrite Hiff. split; [intros H; split; [left; discriminate | exact H] | tauto].
    + exact Hex.
    + intros g [= <-] Hno.
      destruct (Js.truthy (DiffCommands.username env)) eqn:Hu;
        [apply truthy_provided in Hu; contradiction | reflexivity].
  - destruct (DiffCommands.activeTextEditor env) as [document |].
    + destruct (String.eqb_spec (DiffCommands.languageId document)
                  "forcesourcemanifest") as [Hlang | Hlang]; cbn [negb].
      * cbn. split; [| split].
        -- split.
           ++ intros (p & ex & H). absent_from_trace H.
           ++ intros [[H | (d & [= <-] & H)] _]; [now elim H | contradiction].
        -- intros p ex H. absent_from_trace H.
        -- discriminate.
      * rewrite bind_ret_l.
        destruct (Hpath (DiffCommands.uri document) _ eq_refl) as [Hiff Hex].
        split; [| split].
        -- rewrite Hiff. split; [intros H; split; [right; eauto | exact H] | tauto].
        -- exact Hex.
        -- discriminate.
    + cbn. split; [| split].
      * split.
        -- intros (p & ex & H). absent_from_trace H.
        -- intros [[H | (d & [=] & _)] _]. now elim H.
      * intros p ex H. absent_from_trace H.
      * discriminate.
Qed.

Context (toString : DiffCommands.Buffer -> string).

Lemma deliver_chunks (logName : option string) (stdOut : string)
    (chunks : list DiffCommands.Buffer) (rest : list DiffCommands.ProcessEvent) :
  DiffCommands.deliver env toString logName stdOut
    ((DiffCommands.StdoutData <$> chunks) ++ rest)
  = DiffCommands.deliver env toString logName
      (stdOut +:+ DiffCommands.concat (toString <$> chunks)) rest.
Proof.
  revert stdOut. induction chunks as [|chunk chunks IH]; intros stdOut.
  - cbn. now rewrite append_empty_r.
  - cbn [fmap list_fmap app DiffCommands.deliver].
    change ((DiffCommands.StdoutData <$> chunks) ++ rest)
      with ((DiffCommands.StdoutData <$> chunks) ++ rest) in IH.
    rewrite IH. unfold DiffCommands.concat. cbn [foldr].
    now rewrite append_assoc.
Qed.

Lemma deliver_output_only (logName : option string) (stdOut : string)
    (later : list DiffCommands.ProcessEvent) :
  Forall DiffCommands.is_output later ->
  DiffCommands.deliver env toString logName stdOut later = [].
Proof.
  intros Hlater. revert stdOut.
  induction Hlater as [|[chunk | code] later Hev _ IH]; intros stdOut;
    [reflexivity | apply IH | contradiction].
Qed.

(** X22.  [ForceSourceDiffExecutor.execute] decodes every chunk of output
    on its own, as it arrives, and hands [handleDiffResponse] the exit code
    of the process together with the decoded chunks received before the
    exit, put together in order; output after the exit is ignored.  Nothing
    is assumed of [toString]: the text handed over is made of the decoded
    chunks, whether or not that is the decoding of the whole output. *)
Theorem execute_hands_over_decoded_chunks (data : string)
    (chunks : list DiffCommands.Buffer) (exitCode : option Z)
    (later : list DiffCommands.ProcessEvent) :
  Forall DiffCommands.is_output later ->
  DiffCommands.execute env toString data
    ((DiffCommands.StdoutData <$> chunks) ++ DiffCommands.ProcessExit exitCode :: later)
  = [ DiffCommands.Execute (SourceDiff.build (DiffCommands.service env) data)
        (DiffCommands.getRootWorkspacePath env);
      DiffCommands.StreamCommandStartStop;
      DiffCommands.ReportCommandExecutionStatus;
      DiffCommands.ProgressShow;
      DiffCommands.AddCommandExecution;
      DiffCommands.LogMetric (Some "force_source_diff") ]
    ++ (DiffCommands.Service
        <$> Async.trace
              (SourceDiff.handleDiffResponse (DiffCommands.service env) exitCode
                 (DiffCommands.concat (toString <$> chunks)))).
Proof.
  intros Hlater. unfold DiffCommands.execute.
  rewrite deliver_chunks. cbn [DiffCommands.deliver].
  rewrite (deliver_output_only _ _ _ Hlater), app_nil_r.
  reflexivity.
Qed.

End DiffCommandsBeyond.

(** *** Creating a function *)

(** X23.  The [validateInput] callback of the file name prompt answers
    [null] exactly for the names [nameVerification] accepts; for every
    other input it answers one of the three error messages, never an empty
    one. *)
Theorem validateInput_spec (value : string) :
  (ForceFunctionCreate.validateInput value = None <-> Spec.acceptable_name value)
  /\ (forall msg,
        ForceFunctionCreate.validateInput value = Some msg ->
        msg ∈ ForceFunctionCreate.messages /\ msg <> "").
Proof.
  assert (Hacc :
    Spec.acceptable_name value
    <-> (Js.js_length value <= 47)%nat
        /\ FunctionCreate.functionNameRegex_test value = true
        /\ FunctionCreate.functionNameStartRegex_test value = true).
  { unfold Spec.acceptable_name.
    rewrite functionNameRegex_test_spec, functionNameStartRegex_test_spec.
    pose proof (starts_with_lowercase_nonempty value). tauto. }
  rewrite Hacc. clear Hacc.
  unfold ForceFunctionCreate.validateInput, FunctionCreate.nameVerification.
  destruct (Nat.ltb_spec 47 (Js.js_length value)) as [Hlen | Hlen];
    destruct (FunctionCreate.functionNameRegex_test value);
    destruct (FunctionCreate.functionNameStartRegex_test value);
    cbn; (split; [split |]);
    try discriminate;
    try (intros (Hl & Hr & Hs); (lia || discriminate));
    try (intros msg [= <-]; split; [set_solver | discriminate]);
    try (intros _; reflexivity).
  intros _. repeat split. exact Hlen.
Qed.

(** Reduces a membership [H : ev ∈ tr] in an explicit trace to the
    events of [tr] that [ev] can be. *)
Ltac trace_inversion H :=
  repeat (apply elem_of_cons in H as [H | H]; [try discriminate H |]);
  try (now apply elem_of_nil in H).

Section FunctionCreateBeyond.
Context (env : ForceFunctionCreate.Env).

(** Takes [run], as it stands in hypothesis [H], apart along the language,
    the dictionary, the generator, the welcome text and the editor. *)
Ltac run_cases H language :=
  unfold ForceFunctionCreate.run, ForceFunctionCreate.getInfo_with_suffix,
    ForceFunctionCreate.LANGUAGE_JAVASCRIPT, ForceFunctionCreate.LANGUAGE_TYPESCRIPT,
    ForceFunctionCreate.LANGUAGE_JAVA in H;
  let Hjs := fresh "Hjs" in
  let Hts := fresh "Hts" in
  let Hjava := fresh "Hjava" in
  destruct (String.eqb language "javascript") eqn:Hjs;
  [apply String.eqb_eq in Hjs; subst language
  | destruct (String.eqb language "typescript") eqn:Hts;
    [apply String.eqb_eq in Hts; subst language
    | destruct (String.eqb language "java") eqn:Hjava;
      [apply String.eqb_eq in Hjava; subst language |]]];
  cbn in H;
  repeat (match type of H with
          | context [ForceFunctionCreate.getInfo env ?t] =>
              destruct (ForceFunctionCreate.getInfo env t) eqn:?
          | context [ForceFunctionCreate.generateFunction env ?f ?l ?r] =>
              destruct (ForceFunctionCreate.generateFunction env f l r) eqn:?
          | context [Js.truthy ?w] => destruct (Js.truthy w) eqn:?
          | context [ForceFunctionCreate.openTextDocument env ?f] =>
              destruct (ForceFunctionCreate.openTextDocument env f) eqn:?
          end; cbn in H).

Lemma run_succeeds (fileName language metadataType sfx : string)
    (info : ForceFunctionCreate.MetadataInfo)
    (generated : ForceFunctionCreate.GeneratedFunction) (document : string) :
  ForceFunctionCreate.handles env language metadataType sfx ->
  ForceFunctionCreate.getInfo env metadataType = Some info ->
  ForceFunctionCreate.generateFunction env fileName language
    (ForceFunctionCreate.getRootWorkspacePath env) = Returned generated ->
  ForceFunctionCreate.openTextDocument env
    (ForceFunctionCreate.getPathToSource info
       (ForceFunctionCreate.path generated) fileName sfx) = Returned document ->
  Async.outcome (ForceFunctionCreate.run env fileName language) = Returned true.
Proof.
  intros [(-> & -> & ->) | [(-> & -> & ->) | (-> & -> & ->)]] Hinfo Hgen Hopen;
    unfold ForceFunctionCreate.run, ForceFunctionCreate.getInfo_with_suffix;
    cbn; rewrite Hinfo; cbn; rewrite Hgen; cbn;
    destruct (Js.truthy (ForceFunctionCreate.welcomeText generated)); cbn;
    rewrite Hopen; reflexivity.
Qed.

(** X24.  [run] resolves, and then to [true], exactly when the language is
    one of [javascript], [typescript] and [java], the dictionary knows the
    metadata type that goes with it, the function could be generated, and
    the editor could open the generated source file, whose suffix is [.js],
    [.ts] or [.java] by the language. *)
Theorem run_succeeds_iff (fileName language : string) :
  (Async.outcome (ForceFunctionCreate.run env fileName language) = Returned true
   <-> exists metadataType sfx info generated document,
         ForceFunctionCreate.handles env language metadataType sfx
         /\ ForceFunctionCreate.getInfo env metadataType = Some info
         /\ ForceFunctionCreate.generateFunction env fileName language
              (ForceFunctionCreate.getRootWorkspacePath env) = Returned generated
         /\ ForceFunctionCreate.openTextDocument env
              (ForceFunctionCreate.getPathToSource info
                 (ForceFunctionCreate.path generated) fileName sfx)
            = Returned document)
  /\ Async.outcome (ForceFunctionCreate.run env fileName language) <> Returned false.
Proof.
  split; [split |].
  - intros H. run_cases H language; try discriminate H;
      (do 5 eexists;
       (split; [| split; [eassumption | split; [reflexivity | eassumption]]]);
       unfold ForceFunctionCreate.handles;
       first [ left; repeat split; reflexivity
             | right; left; repeat split; reflexivity
             | right; right; repeat split; reflexivity ]).
  - intros (metadataType & sfx & info & generated & document & Hh & Hi & Hg & Ho).
    now apply (run_succeeds _ _ _ _ _ _ _ Hh Hi Hg Ho).
  - intros H. run_cases H language; discriminate H.
Qed.

(** X25.  [run] starts an installation exactly when it resolves to [true],
    as its last call, and the installation fits the language: [mvn install]
    in the joined function path for [java], [npm install] in the function
    path for [javascript] and [typescript].  For no other language is
    anything installed. *)
Theorem run_installs_by_language (fileName language : string) :
  (forall cmd cwd,
     ForceFunctionCreate.Exec cmd cwd
     ∈ Async.trace (ForceFunctionCreate.run env fileName language) ->
     exists generated,
       ForceFunctionCreate.generateFunction env fileName language
         (ForceFunctionCreate.getRootWorkspacePath env) = Returned generated
       /\ ((language = "java" /\ cmd = "mvn install"
            /\ cwd = ForceFunctionCreate.path_join env
                       (ForceFunctionCreate.path generated))
           \/ ((language = "javascript" \/ language = "typescript")
               /\ cmd = "npm install"
               /\ cwd = ForceFunctionCreate.path generated)))
  /\ ((exists cmd cwd,
         last (Async.trace (ForceFunctionCreate.run env fileName language))
         = Some (ForceFunctionCreate.Exec cmd cwd))
      <-> Async.outcome (ForceFunctionCreate.run env fileName language) = Returned true).
Proof.
  remember (ForceFunctionCreate.run env fileName language) as r eqn:H.
  run_cases H language; subst r; cbn; (split; [| split]);
    try (intros cmd cwd Hin; trace_inversion Hin;
         (injection Hin as -> ->; eexists;
          (split;
           [ reflexivity
           | first [ left; repeat split; reflexivity
                   | right;
                     (split;
                      [ first [left; reflexivity | right; reflexivity]
                      | split; reflexivity ]) ] ])));
    try (intros _; reflexivity);
    try (intros _; do 2 eexists; reflexivity);
    try (intros (cmd & cwd & [=]); fail);
    try discriminate.
Qed.

(** X26.  For a language that is none of the three, [run] has no metadata:
    it still generates the function and announces it on the channel, and
    only then rejects with a [TypeError]; no document is opened and nothing
    is installed. *)
Theorem run_unknown_language (fileName language : string)
    (generated : ForceFunctionCreate.GeneratedFunction) :
  language ∉ ForceFunctionCreate.offered ->
  ForceFunctionCreate.generateFunction env fileName language
    (ForceFunctionCreate.getRootWorkspacePath env) = Returned generated ->
  exists msg,
    ForceFunctionCreate.run env fileName language
    = (Thrown (mkError "TypeError" msg),
       [ ForceFunctionCreate.GenerateFunction fileName language
           (ForceFunctionCreate.getRootWorkspacePath env);
         ForceFunctionCreate.AppendLine
           ("Created " +:+ language +:+ " function " +:+ fileName +:+ " in "
            +:+ ForceFunctionCreate.path generated +:+ ".") ]
       ++ (if Js.truthy (ForceFunctionCreate.welcomeText generated)
           then [ForceFunctionCreate.AppendLine
                   (Js.interpolate (ForceFunctionCreate.welcomeText generated))]
           else [])
       ++ [ForceFunctionCreate.ShowChannelOutput]).
Proof.
  intros Hnot Hgen. unfold ForceFunctionCreate.run.
  assert (Hjs : String.eqb language ForceFunctionCreate.LANGUAGE_JAVASCRIPT = false).
  { apply String.eqb_neq. intros ->. apply Hnot.
    unfold ForceFunctionCreate.offered. set_solver. }
  assert (Hts : String.eqb language ForceFunctionCreate.LANGUAGE_TYPESCRIPT = false).
  { apply String.eqb_neq. intros ->. apply Hnot.
    unfold ForceFunctionCreate.offered. set_solver. }
  assert (Hjava : String.eqb language ForceFunctionCreate.LANGUAGE_JAVA = false).
  { apply String.eqb_neq. intros ->. apply Hnot.
    unfold ForceFunctionCreate.offered. set_solver. }
  rewrite Hjs, Hts, Hjava. cbn. rewrite Hgen. cbn.
  destruct (Js.truthy (ForceFunctionCreate.welcomeText generated)); cbn;
    eexists; reflexivity.
Qed.

(** X27.  [FunctionInfoGatherer.gather] answers ['CANCEL'] exactly when
    the quick pick is dismissed; any answer, the empty string included,
    continues with that language.  Each of the languages it offers is one
    [run] has metadata for. *)
Theorem gather_offers_handled_languages :
  (Async.outcome (ForceFunctionCreate.gather env) = Returned ForceFunctionCreate.CancelResponse
   <-> ForceFunctionCreate.showQuickPick env ForceFunctionCreate.offered
         (ForceFunctionCreate.localize env "force_function_enter_language" []) = None)
  /\ (forall language,
        ForceFunctionCreate.showQuickPick env ForceFunctionCreate.offered
          (ForceFunctionCreate.localize env "force_function_enter_language" [])
        = Some language ->
        ForceFunctionCreate.gather env
        = (Returned (ForceFunctionCreate.ContinueResponse language),
           [ ForceFunctionCreate.ShowQuickPick ForceFunctionCreate.offered
               (ForceFunctionCreate.localize env "force_function_enter_language" []) ]))
  /\ (forall language,
        language ∈ ForceFunctionCreate.offered ->
        exists metadataType sfx,
          ForceFunctionCreate.handles env language metadataType sfx).
Proof.
  unfold ForceFunctionCreate.gather.
  change [ForceFunctionCreate.LANGUAGE_JAVA; ForceFunctionCreate.LANGUAGE_JAVASCRIPT;
          ForceFunctionCreate.LANGUAGE_TYPESCRIPT]
    with ForceFunctionCreate.offered.
  split; [| split].
  - destruct (ForceFunctionCreate.showQuickPick env _ _); cbn;
      split; (discriminate || reflexivity).
  - intros language ->. reflexivity.
  - intros language Hin. unfold ForceFunctionCreate.offered in Hin.
    unfold ForceFunctionCreate.handles.
    apply elem_of_cons in Hin as [-> | Hin]; [do 2 eexists; right; right; eauto |].
    apply elem_of_cons in Hin as [-> | Hin]; [do 2 eexists; left; eauto |].
    apply elem_of_cons in Hin as [-> | Hin]; [do 2 eexists; right; left; eauto |].
    now apply elem_of_nil in Hin.
Qed.

End FunctionCreateBeyond.

(** *** The properties beyond the specification on sample worlds *)

(** X2 on a sample world: output that is no JSON. *)
Lemma handleDiffResponse_parse_failure_witness :
  SourceDiff.handleDiffResponse Sample.diff_env (Some 1) "garbage"
  = (Returned tt,
     [ SourceDiff.ShowErrorMessage "Error parsing diff result";
       SourceDiff.AppendLine "Error parsing diff result";
       SourceDiff.ShowChannelOutput;
       SourceDiff.SendException "DiffResultParserFail" "Error parsing diff result" ]).
Proof.
  apply (handleDiffResponse_parse_failure Sample.diff_env (Some 1) "garbage"
           (mkError "DiffResultParserFail" "Error parsing diff result"));
    [discriminate | reflexivity].
Defined.

(** X4 on a sample world: a component without the class file. *)
Lemma diffOneFile_no_match_witness :
  SourceDiff.diffOneFile Sample.diff_env "/ws/force-app/A.cls"
    (Some Cases.other_component)
  = (Returned tt, []).
Proof.
  apply (diffOneFile_no_match Sample.diff_env "/ws/force-app/A.cls"
           Cases.other_component).
  repeat constructor.
Defined.

(** X5 on a sample world: the editor rejects the diff. *)
Lemma diffOneFile_rejection_logged_witness :
  SourceDiff.diffOneFile Cases.rejecting_env "/ws/force-app/A.cls"
    (Some Cases.class_component)
  = (Returned tt,
     [ SourceDiff.ExecuteCommand "vscode.diff"
         [ AUri (Uri_file "/tmp/cache/force-app/A.cls");
           AUri (Uri_file "/ws/force-app/A.cls");
           AString "Source File Diff ( Local File / Org File )" ];
       SourceDiff.ConsoleLog "ERROR: Error: command 'vscode.diff' not found" ]).
Proof.
  apply (diffOneFile_rejection_logged Cases.rejecting_env "/ws/force-app/A.cls"
           Cases.class_component ["/tmp/cache/force-app/A.cls-meta.xml"]
           [] "/tmp/cache/force-app/A.cls"
           (new_Error "command 'vscode.diff' not found"));
    [reflexivity | repeat constructor | reflexivity | reflexivity].
Defined.

(** X6 on a sample world: a file selection with an empty cache. *)
Lemma handleCacheResults_empty_components_witness :
  exists msg,
    SourceDiff.handleCacheResults Sample.diff_env (Some Cases.empty_file_cache)
    = (Thrown (mkError "TypeError" msg),
       [SourceDiff.ConsoleLog "PROF-FILE: undefined"]).
Proof.
  apply (handleCacheResults_empty_components Sample.diff_env Cases.empty_file_cache);
    reflexivity.
Defined.

(** X9 on a sample world: a key set in both configs. *)
Lemma getConfigValue_local_wins_witness :
  ConfigUtil.getConfigValue Sample.config_env "defaultusername" None
  = (Returned (Some (ConfigUtil.JString "dev")),
     [ConfigUtil.ConfigFileCreate false "/ws/.sf" "config.json"]).
Proof.
  destruct (getConfigValue_local_wins Sample.config_env "defaultusername")
    as (v & Hlocal & Hvalue & _).
  - exists (ConfigUtil.JString "dev"). split; [reflexivity | discriminate].
  - vm_compute in Hlocal. injection Hlocal as <-. exact Hvalue.
Defined.

(** X10 on a sample world: the config file cannot be read, though the
    aggregator holds the key. *)
Lemma getConfigValue_local_failure_is_final_witness :
  ConfigUtil.global_lookup Sample.broken_config_env "defaultusername"
  = Returned (Some (ConfigUtil.JString "global-dev"))
  /\ ConfigUtil.getConfigValue Sample.broken_config_env "defaultusername" None
     = (Returned None,
        [ ConfigUtil.ConfigFileCreate false "/ws/.sf" "config.json";
          ConfigUtil.SendException "get_config_value_local" "ENOENT" ]).
Proof.
  split; [reflexivity |].
  apply (getConfigValue_local_failure_is_final Sample.broken_config_env
           "defaultusername" (new_Error "ENOENT")).
  reflexivity.
Defined.

(** X11 on two sample worlds: a local key, a global key, and a global key
    behind a config file that cannot be read. *)
Lemma getConfigSource_getConfigValue_witness :
  Async.outcome (ConfigUtil.getConfigValue Sample.config_env "apiVersion" None)
  = Returned None
  /\ (exists v,
        ConfigUtil.global_lookup Sample.config_env "defaultdevhubusername"
        = Returned (Some v)
        /\ Async.outcome
             (ConfigUtil.getConfigValue Sample.config_env "defaultdevhubusername" None)
           = Returned (Some v))
  /\ Async.outcome
       (ConfigUtil.getConfigValue Sample.broken_config_env "defaultusername" None)
     = Returned None.
Proof.
  split; [| split].
  - apply (proj1 (getConfigSource_getConfigValue Sample.config_env "apiVersion")).
    reflexivity.
  - apply (proj1 (proj2 (proj2
             (getConfigSource_getConfigValue Sample.config_env "defaultdevhubusername")))).
    + reflexivity.
    + eexists. reflexivity.
  - apply (proj2 (proj2 (proj2
             (getConfigSource_getConfigValue Sample.broken_config_env "defaultusername")))).
    + reflexivity.
    + eexists. reflexivity.
Defined.

(** X15 on a sample world: the user picks the last org. *)
Lemma setDefaultOrg_continues_on_every_item_witness :
  Async.outcome
    (OrgList.setDefaultOrg
       (Sample.picker_env Sample.three_orgs Sample.three_fields true (Some 6%nat)))
  = Returned (OrgList.ContinueResponse OrgList.empty_object).
Proof.
  apply (setDefaultOrg_continues_on_every_item
           (Sample.picker_env Sample.three_orgs Sample.three_fields true (Some 6%nat))
           "me@example.com").
  - repeat constructor; discriminate.
  - apply list_elem_of_lookup. exists 6%nat. reflexivity.
  - reflexivity.
Defined.

(** X17 on a sample world: [AuthInfo.create] rejects for the second of
    three orgs, and [setDefaultOrg] rejects with its error before anything
    is shown. *)
Lemma setDefaultOrg_rejects_or_asks_once_witness :
  OrgListAwaits.setDefaultOrg Cases.stale_picker_env
  = (Thrown (mkError "NamedOrgNotFoundError"
               "No authorization information found for old@example.com."),
     []).
Proof.
  destruct (proj1 (setDefaultOrg_rejects_or_asks_once Cases.stale_picker_env))
    as [e He].
  - split; [discriminate |]. right. right.
    exists (OrgAuthorization.mk "old@example.com" (Some ["old"; "older"])).
    split; [apply list_elem_of_lookup; exists 1%nat; reflexivity |].
    eexists. reflexivity.
  - pose proof He as Hrun. vm_compute in Hrun. injection Hrun as <-. exact He.
Defined.

(** X18 on a sample world: outside a workspace both orgs of a Dev Hub are
    left out. *)
Lemma filterAuthInfo_outside_workspace_witness :
  OrgList.filterAuthInfo
    (Sample.picker_env Sample.three_orgs Sample.three_fields false None)
    Sample.three_orgs
  = ["me@example.com"].
Proof.
  rewrite (filterAuthInfo_outside_workspace
             (Sample.picker_env Sample.three_orgs Sample.three_fields false None)
             Sample.three_orgs eq_refl).
  reflexivity.
Defined.

(** X19 on a sample world: an expiration date that is no date. *)
Lemma filterAuthInfo_unreadable_expiration_witness :
  OrgList.filterAuthInfo
    (Sample.picker_env [Sample.plain_org] (fun _ => Cases.undated_fields) true None)
    [Sample.plain_org]
  = ["me@example.com"].
Proof.
  apply (filterAuthInfo_unreadable_expiration
           (Sample.picker_env [Sample.plain_org] (fun _ => Cases.undated_fields) true None)
           Sample.plain_org "soon");
    [reflexivity | reflexivity |].
  intros [Hscratch | [Hhub _]].
  - destruct Hscratch as (s & H & _). discriminate H.
  - destruct Hhub as (s & H & _). discriminate H.
Defined.

(** X20 on sample worlds: a Lightning web component in the editor, and a
    document that is none of the supported ones. *)
Lemma forceSourceDiff_starts_iff_witness :
  DiffCommands.forceSourceDiff
    (Cases.commands_env (Some Cases.lwc_document) (Some "dev")) None
  = (Returned tt,
     [ DiffCommands.RunCommandlet (Uri_file "/ws/force-app/lwc/hello/hello.js")
         DiffCommands.ForceSourceDiffExecutor ])
  /\ DiffCommands.forceSourceDiff
       (Cases.commands_env (Some Cases.readme_document) (Some "dev")) None
     = (Returned tt,
        [ DiffCommands.Service
            (SourceDiff.SendException "unsupported_type_on_diff"
               "force_source_diff_unsupported_type");
          DiffCommands.Service
            (SourceDiff.ShowErrorMessage "force_source_diff_unsupported_type");
          DiffCommands.Service
            (SourceDiff.AppendLine "force_source_diff_unsupported_type");
          DiffCommands.Service SourceDiff.ShowChannelOutput ]).
Proof.
  split.
  - apply (proj1 (proj2 (proj2
             (forceSourceDiff_starts_iff
                (Cases.commands_env (Some Cases.lwc_document) (Some "dev")) None)))
             Cases.lwc_document eq_refl eq_refl).
    right. right. right. left. exists "/ws/force-app/", "/hello/hello.js". reflexivity.
  - apply (proj2 (proj2 (proj2
             (forceSourceDiff_starts_iff
                (Cases.commands_env (Some Cases.readme_document) (Some "dev")) None)))).
    intros (p & ex & H). vm_compute in H. absent_from_trace H.
Defined.

(** X21 on sample worlds: a path without a default org, and an editor
    with one. *)
Lemma superSourceDiff_starts_iff_witness :
  DiffCommands.superSourceDiff
    (Cases.commands_env None None) (Some (Uri_file "/ws/force-app"))
  = (Returned tt,
     [DiffCommands.Service (SourceDiff.ShowErrorMessage "No default org")])
  /\ DiffCommands.runs_commandlet
       (Async.trace
          (DiffCommands.superSourceDiff
             (Cases.commands_env (Some Cases.apex_document) (Some "dev")) None)).
Proof.
  split.
  - apply (proj2 (proj2
             (superSourceDiff_starts_iff (Cases.commands_env None None)
                (Some (Uri_file "/ws/force-app"))))
             (Uri_file "/ws/force-app") eq_refl).
    intros (s & H & _). discriminate H.
  - apply (proj1 (superSourceDiff_starts_iff
                    (Cases.commands_env (Some Cases.apex_document) (Some "dev")) None)).
    split.
    + right. exists Cases.apex_document. split; [reflexivity | discriminate].
    + exists "dev". split; [reflexivity | discriminate].
Defined.

(** X22 on a sample world: the answer [ok] arrives in two chunks, and one
    more chunk after the exit. *)
Lemma execute_hands_over_decoded_chunks_witness :
  DiffCommands.execute (Cases.commands_env None (Some "dev")) Cases.utf8_toString
    "/ws/A.cls"
    [ DiffCommands.StdoutData (Cases.buffer_of "o");
      DiffCommands.StdoutData (Cases.buffer_of "k");
      DiffCommands.ProcessExit (Some 0);
      DiffCommands.StdoutData (Cases.buffer_of "late") ]
  = [ DiffCommands.Execute
        (SourceDiff.mkCommand "sfdx" (Some "force_source_diff_text")
           [ "force:source:diff"; "--sourcepath"; "/ws/A.cls"; "--json";
             "--loglevel"; "fatal" ]
           (Some "force_source_diff"))
        "/ws";
      DiffCommands.StreamCommandStartStop;
      DiffCommands.ReportCommandExecutionStatus;
      DiffCommands.ProgressShow;
      DiffCommands.AddCommandExecution;
      DiffCommands.LogMetric (Some "force_source_diff");
      DiffCommands.Service
        (SourceDiff.ExecuteCommand "vscode.diff"
           [ AUri (Uri_file "/tmp/remote/A.cls"); AUri (Uri_file "/ws/A.cls");
             AString "force_source_diff_title" ]) ].
Proof.
  apply (execute_hands_over_decoded_chunks (Cases.commands_env None (Some "dev"))
           Cases.utf8_toString "/ws/A.cls"
           [Cases.buffer_of "o"; Cases.buffer_of "k"] (Some 0)
           [DiffCommands.StdoutData (Cases.buffer_of "late")]).
  repeat constructor.
Defined.

(** A character cut in two by the chunks is decoded as its two pieces: the
    two bytes of [é], decoded together and one by one. *)
Example toString_of_a_cut_character :
  Cases.utf8_toString (DiffCommands.mkBuffer [Byte.xc3; Byte.xa9]) = "é"
  /\ DiffCommands.concat
       (Cases.utf8_toString
        <$> [DiffCommands.mkBuffer [Byte.xc3]; DiffCommands.mkBuffer [Byte.xa9]])
     = Js.fromCodePoint 65533 +:+ Js.fromCodePoint 65533.
Proof. vm_compute. split; reflexivity. Qed.

(** X24 on a sample world: a TypeScript function. *)
Lemma run_succeeds_iff_witness :
  Async.outcome (ForceFunctionCreate.run (Cases.function_env None) "hello" "typescript")
  = Returned true.
Proof.
  apply (proj1 (run_succeeds_iff (Cases.function_env None) "hello" "typescript")).
  exists "function_js", ".ts",
    (ForceFunctionCreate.mkMetadataInfo ""
       (fun dir fileName ext => dir +:+ "/" +:+ fileName +:+ ext)),
    (ForceFunctionCreate.mkGeneratedFunction "/ws/functions/hello" (Some "Welcome")),
    "/ws/functions/hello/hello.ts".
  split; [right; left; repeat split | repeat split].
Defined.

(** X25 on a sample world: a Java function is installed with Maven. *)
Lemma run_installs_by_language_witness :
  last (Async.trace (ForceFunctionCreate.run (Cases.function_env None) "hello" "java"))
  = Some (ForceFunctionCreate.Exec "mvn install" "/ws/functions/hello").
Proof.
  destruct (proj2 (proj2 (run_installs_by_language (Cases.function_env None)
                            "hello" "java")) eq_refl)
    as (cmd & cwd & Hlast).
  rewrite Hlast. vm_compute in Hlast. injection Hlast as <- <-. reflexivity.
Defined.

(** X26 on a sample world: a language without metadata. *)
Lemma run_unknown_language_witness :
  exists msg,
    ForceFunctionCreate.run (Cases.function_env None) "hello" "python"
    = (Thrown (mkError "TypeError" msg),
       [ ForceFunctionCreate.GenerateFunction "hello" "python" "/ws";
         ForceFunctionCreate.AppendLine
           "Created python function hello in /ws/functions/hello.";
         ForceFunctionCreate.AppendLine "Welcome";
         ForceFunctionCreate.ShowChannelOutput ]).
Proof.
  apply (run_unknown_language (Cases.function_env None) "hello" "python"
           (ForceFunctionCreate.mkGeneratedFunction "/ws/functions/hello"
              (Some "Welcome"))).
  - intros H. vm_compute in H. trace_inversion H.
  - reflexivity.
Defined.
